(** * Bot session lifecycle manager (server/services/email.ts)

    A shallow embedding of the WhatsApp session manager:
    [createWhatsAppBot], [getSessionStatus], [disconnectBot] and
    [getActiveSessions], together with the event loop they run on (the
    transport's [connection.update] events, the two [setTimeout]
    callbacks and the suspension at [await useMultiFileAuthState]).

    The first part holds the model, the second the facts proved about
    it, the third the properties of the session manager. *)

From Stdlib Require Import String Ascii List ZArith Bool Arith Lia.
Import ListNotations.
Local Open Scope string_scope.
Local Open Scope list_scope.

(** * Part I: the model *)

(** ** The ECMAScript [Map], keyed by strings

    A [Map] keeps its entries in insertion order.  [set] overwrites the
    value of an existing key where it stands and appends a new key at the
    end; [delete] drops the first entry found with the key; [values]
    lists the values in order. *)
Module JsMap.

Section Ops.
Context {V : Type}.

Definition t := list (string * V).

Fixpoint get (k : string) (m : list (string * V)) : option V :=
  match m with
  | [] => None
  | (k', v) :: m' => if String.eqb k' k then Some v else get k m'
  end.

Fixpoint set (k : string) (v : V) (m : list (string * V)) : list (string * V) :=
  match m with
  | [] => [(k, v)]
  | (k', v') :: m' =>
      if String.eqb k' k then (k', v) :: m' else (k', v') :: set k v m'
  end.

Fixpoint delete (k : string) (m : list (string * V)) : list (string * V) :=
  match m with
  | [] => []
  | (k', v') :: m' =>
      if String.eqb k' k then m' else (k', v') :: delete k m'
  end.

Definition keys (m : list (string * V)) : list string := map fst m.

Definition values (m : list (string * V)) : list V := map snd m.

End Ops.

Arguments t : clear implicits.

End JsMap.

(** ** List helpers: overwrite and removal by position *)

Fixpoint replace_nth {A : Type} (n : nat) (x : A) (l : list A) : list A :=
  match l, n with
  | [], _ => []
  | _ :: l', O => x :: l'
  | y :: l', S n' => y :: replace_nth n' x l'
  end.

Fixpoint remove_nth {A : Type} (n : nat) (l : list A) : list A :=
  match l, n with
  | [], _ => []
  | _ :: l', O => l'
  | y :: l', S n' => y :: remove_nth n' l'
  end.

(** ** The host environment

    Two values come from outside the repository: the status code that the
    transport library exports as [DisconnectReason.loggedOut], and the
    working directory [process.cwd()], held as the segments of an
    absolute, normalised path. *)
Class Host := {
  DisconnectReason_loggedOut : Z;
  process_cwd : list string
}.

(** ** Paths and the credential directories

    [path.join] of Node on POSIX, for an absolute normalised base: the
    arguments are joined with a slash and the result is normalised, so
    empty and [.] segments vanish and [..] climbs one level (staying at
    the root when there is nothing to climb).  A path is the list of its
    segments from the root. *)
Definition Path := list string.

Fixpoint split_slash (s : string) : list string :=
  match s with
  | EmptyString => [EmptyString]
  | String c s' =>
      if Ascii.eqb c "/"%char then EmptyString :: split_slash s'
      else match split_slash s' with
           | seg :: rest => String c seg :: rest
           | [] => [String c EmptyString]
           end
  end.

(** One normalisation step on the reversed segment stack. *)
Definition push_segment (stack : list string) (seg : string) : list string :=
  if String.eqb seg "" then stack
  else if String.eqb seg "." then stack
  else if String.eqb seg ".." then tl stack
  else seg :: stack.

Definition path_join (base : Path) (parts : list string) : Path :=
  rev (fold_left push_segment (flat_map split_slash parts) (rev base)).

Definition basename (p : Path) : option string := last (map Some p) None.

Definition path_eq_dec : forall p q : Path, {p = q} + {p <> q} :=
  list_eq_dec string_dec.

(** The directories that exist.  [fs.existsSync] is membership;
    [fs.mkdirSync(p, {recursive: true})] creates [p] and every missing
    ancestor when it returns.  It can also throw (a name too long for
    the file system, a missing permission, a file in the way): by then
    some levels above [p] may be in place, [p] itself is not. *)
Definition existsSync (p : Path) (dirs : list Path) : bool :=
  if List.in_dec path_eq_dec p dirs then true else false.

Definition ancestors_and_self (p : Path) : list Path :=
  map (fun n => firstn n p) (seq 1 (length p)).

Definition mkdirSync_recursive (p : Path) (dirs : list Path) : list Path :=
  dirs ++ filter (fun q => negb (existsSync q dirs)) (ancestors_and_self p).

Definition mkdirSync_recursive_throws (made : nat) (p : Path) (dirs : list Path)
  : option (list Path) :=
  if Nat.ltb made (length p)
  then Some (dirs ++ filter (fun q => negb (existsSync q dirs))
                            (map (fun n => firstn n p) (seq 1 made)))
  else None.

(** ** Data model *)

(** [interface BotSession].  The [socket] handle is the number of the
    [createWhatsAppBot] invocation whose [makeWASocket] call returned it. *)
Record BotSession := mkBotSession {
  sessionId : string;
  socket : nat;
  qrCode : option string;
  isConnected : bool;
  userId : string
}.

(** The value [createWhatsAppBot] resolves with. *)
Record PairingResult := mkPairingResult {
  res_sessionId : string;
  res_qrCode : option string
}.

Inductive JsError :=
| QrTimeoutError   (* new Error('Failed to generate QR code') *)
| ThrownByHost.    (* raised by mkdirSync, useMultiFileAuthState or makeWASocket *)

Inductive Promise :=
| Pending
| Fulfilled (v : PairingResult)
| Rejected (e : JsError).

(** A promise settles once; later [resolve] and [reject] calls are lost. *)
Definition resolve (v : PairingResult) (p : Promise) : Promise :=
  match p with Pending => Fulfilled v | _ => p end.

Definition reject (e : JsError) (p : Promise) : Promise :=
  match p with Pending => Rejected e | _ => p end.

(** Where one invocation of [createWhatsAppBot] stands: suspended at
    [await useMultiFileAuthState], ended by an exception (of
    [fs.mkdirSync] before the await, of the credential load or of
    [makeWASocket] after it), or past [makeWASocket] with its handlers
    installed. *)
Inductive Stage := Suspended | Aborted | Live.

(** The closure of one invocation: its arguments, [sessionId], the
    [qrCodeGenerated] flag, the promise it returned, and whether
    [socket.end()] was called on its socket. *)
Record Invocation := mkInvocation {
  c_sessionName : string;
  c_userId : string;
  c_sessionId : string;
  c_stage : Stage;
  qrCodeGenerated : bool;
  c_promise : Promise;
  c_socketEnded : bool
}.

Inductive WAConnectionState := ConnOpen | ConnConnecting | ConnClose.

(** The fields of a [connection.update] payload that the handler reads;
    [statusCode] is [(lastDisconnect?.error as Boom)?.output?.statusCode],
    [None] when any link of the chain is undefined. *)
Record ConnectionUpdate := mkUpdate {
  connection : option WAConnectionState;
  statusCode : option Z;
  qr : option string
}.

(** The two callbacks handed to [setTimeout]. *)
Inductive Callback :=
| ReconnectCallback (sessionName uid : string)
| QrTimeoutCallback (call : nat).

Abbreviation Timer := (Z * Callback)%type.

Record World := mkWorld {
  now : Z;
  activeSessions : JsMap.t BotSession;
  calls : list Invocation;
  timers : list Timer;
  dirs : list Path
}.

(** What the host does when the awaited credential load settles and the
    promise executor runs. *)
Inductive StartOutcome := AuthStateFailed | MakeSocketThrew | SocketCreated.

(** What happens on the event loop.  [CallCreate] and [TimerFires] are a
    call of [createWhatsAppBot] and a timer callback in which
    [fs.mkdirSync], if it is called, returns; [CallCreateThrew] and
    [TimerFiresThrew] are the same call and the reconnect callback when
    [fs.mkdirSync] throws after making [made] levels of the path. *)
Inductive Event :=
| CallCreate (sessionName uid : string)
| AuthStateSettled (call : nat) (o : StartOutcome)
| ConnectionUpdateEv (call : nat) (u : ConnectionUpdate)
| TimerFires (i : nat)
| CallDisconnect (sid : string)
| Elapse (dt : Z)
| CallCreateThrew (sessionName uid : string) (made : nat)
| TimerFiresThrew (i : nat) (made : nat).

(** ** State updates *)

Definition with_sessions (f : JsMap.t BotSession -> JsMap.t BotSession)
    (w : World) : World :=
  mkWorld (now w) (f (activeSessions w)) (calls w) (timers w) (dirs w).

Definition with_call (k : nat) (f : Invocation -> Invocation) (w : World) : World :=
  match nth_error (calls w) k with
  | Some c =>
      mkWorld (now w) (activeSessions w) (replace_nth k (f c) (calls w))
              (timers w) (dirs w)
  | None => w
  end.

Definition setTimeout (cb : Callback) (delay : Z) (w : World) : World :=
  mkWorld (now w) (activeSessions w) (calls w)
          (timers w ++ [((now w + delay)%Z, cb)]) (dirs w).

Definition set_stage (s : Stage) (c : Invocation) : Invocation :=
  mkInvocation (c_sessionName c) (c_userId c) (c_sessionId c) s
               (qrCodeGenerated c) (c_promise c) (c_socketEnded c).

Definition set_qrCodeGenerated (b : bool) (c : Invocation) : Invocation :=
  mkInvocation (c_sessionName c) (c_userId c) (c_sessionId c) (c_stage c)
               b (c_promise c) (c_socketEnded c).

Definition settle (f : Promise -> Promise) (c : Invocation) : Invocation :=
  mkInvocation (c_sessionName c) (c_userId c) (c_sessionId c) (c_stage c)
               (qrCodeGenerated c) (f (c_promise c)) (c_socketEnded c).

Definition socket_end (c : Invocation) : Invocation :=
  mkInvocation (c_sessionName c) (c_userId c) (c_sessionId c) (c_stage c)
               (qrCodeGenerated c) (c_promise c) true.

Definition set_isConnected (b : bool) (s : BotSession) : BotSession :=
  mkBotSession (sessionId s) (socket s) (qrCode s) b (userId s).

(** JavaScript truthiness of an optional string: [undefined] and the
    empty string are falsy. *)
Definition truthy (s : option string) : bool :=
  match s with
  | Some s' => negb (String.eqb s' "")
  | None => false
  end.

(** ** Observations on worlds and events *)

Definition is_qr_timeout (k : nat) (t : Timer) : bool :=
  match snd t with
  | QrTimeoutCallback j => Nat.eqb j k
  | ReconnectCallback _ _ => false
  end.

(** How many QR timers of invocation [k] are queued. *)
Definition pending_qr_timeouts (k : nat) (ts : list Timer) : nat :=
  length (filter (is_qr_timeout k) ts).

(** The event hands a pairing artifact to the handler of invocation [k]. *)
Definition delivers_qr (k : nat) (e : Event) : bool :=
  match e with
  | ConnectionUpdateEv j u => Nat.eqb j k && truthy (qr u)
  | _ => false
  end.

Definition no_qr_for (k : nat) (evs : list Event) : bool :=
  forallb (fun e => negb (delivers_qr k e)) evs.

Definition promise_of (k : nat) (w : World) : option Promise :=
  option_map c_promise (nth_error (calls w) k).

(** What the handshake reads of an invocation: its stage, the
    [qrCodeGenerated] flag, the promise and the [sessionId]. *)
Definition view (c : Invocation) : Stage * bool * Promise * string :=
  (c_stage c, qrCodeGenerated c, c_promise c, c_sessionId c).

Definition view_of (k : nat) (w : World) : option (Stage * bool * Promise * string) :=
  option_map view (nth_error (calls w) k).

Fixpoint no_slash (s : string) : bool :=
  match s with
  | EmptyString => true
  | String c s' => negb (Ascii.eqb c "/"%char) && no_slash s'
  end.

(** ** The program *)

Section Program.
Context {host : Host}.

(** [`${userId}-${sessionName}`] *)
Definition make_sessionId (uid sessionName : string) : string :=
  (uid ++ "-" ++ sessionName)%string.

(** [path.join(process.cwd(), 'auth_sessions', sessionId)] *)
Definition authDir_of (sid : string) : Path :=
  path_join process_cwd ["auth_sessions"; sid].

(** [createWhatsAppBot] from its entry to [await useMultiFileAuthState],
    when [fs.mkdirSync] returns or is not called: the session id and the
    directory are computed, the directory is created when nothing exists
    there, and the invocation is suspended.  The new invocation takes the
    next free number.  [createWhatsAppBot_mkdir_throws] is the other
    case. *)
Definition createWhatsAppBot_begin (sessionName uid : string) (w : World) : World :=
  let sid := make_sessionId uid sessionName in
  let authDir := authDir_of sid in
  let dirs' :=
    if existsSync authDir (dirs w) then dirs w
    else mkdirSync_recursive authDir (dirs w) in
  mkWorld (now w) (activeSessions w)
          (calls w ++ [mkInvocation sessionName uid sid Suspended false Pending false])
          (timers w) dirs'.

(** [createWhatsAppBot] when [fs.mkdirSync] throws: nothing exists at
    the path, so [mkdirSync] is called, and its exception leaves the
    async function before the await.  The promise the call returned is
    rejected with it; no handler, registry entry or timer is set up. *)
Definition createWhatsAppBot_mkdir_throws (sessionName uid : string) (made : nat)
    (w : World) : option World :=
  let sid := make_sessionId uid sessionName in
  let authDir := authDir_of sid in
  if existsSync authDir (dirs w) then None
  else
    match mkdirSync_recursive_throws made authDir (dirs w) with
    | Some dirs' =>
        Some (mkWorld (now w) (activeSessions w)
                (calls w ++ [mkInvocation sessionName uid sid Aborted false
                                          (Rejected ThrownByHost) false])
                (timers w) dirs')
    | None => None
    end.

(** [createWhatsAppBot] after the await: the promise executor.  A
    rejected credential load or a throwing [makeWASocket] rejects the
    returned promise before anything is stored.  Otherwise the handlers
    are installed, the session is stored and the 10-second timer is
    started. *)
Definition createWhatsAppBot_resume (k : nat) (o : StartOutcome) (w : World)
  : option World :=
  match nth_error (calls w) k with
  | Some c =>
      match c_stage c with
      | Suspended =>
          match o with
          | SocketCreated =>
              let w1 := with_call k (fun c0 => set_qrCodeGenerated false (set_stage Live c0)) w in
              let w2 := with_sessions
                          (JsMap.set (c_sessionId c)
                             (mkBotSession (c_sessionId c) k None false (c_userId c)))
                          w1 in
              Some (setTimeout (QrTimeoutCallback k) 10000 w2)
          | _ =>
              Some (with_call k (fun c0 => settle (reject ThrownByHost) (set_stage Aborted c0)) w)
          end
      | _ => None
      end
  | None => None
  end.

(** [statusCode !== DisconnectReason.loggedOut] *)
Definition shouldReconnect (u : ConnectionUpdate) : bool :=
  match statusCode u with
  | Some code => negb (Z.eqb code DisconnectReason_loggedOut)
  | None => true
  end.

(** The ['connection.update'] handler installed by invocation [k]. *)
Definition on_connection_update (k : nat) (u : ConnectionUpdate) (w : World)
  : option World :=
  match nth_error (calls w) k with
  | Some c =>
      match c_stage c with
      | Live =>
          let w1 :=
            if truthy (qr u) && negb (qrCodeGenerated c)
            then with_call k
                   (fun c0 => settle (resolve (mkPairingResult (c_sessionId c0) (qr u)))
                                     (set_qrCodeGenerated true c0)) w
            else w in
          Some
            match connection u with
            | Some ConnClose =>
                if shouldReconnect u
                then setTimeout (ReconnectCallback (c_sessionName c) (c_userId c)) 5000 w1
                else with_sessions (JsMap.delete (c_sessionId c)) w1
            | Some ConnOpen =>
                match JsMap.get (c_sessionId c) (activeSessions w1) with
                | Some session =>
                    with_sessions
                      (JsMap.set (c_sessionId c) (set_isConnected true session)) w1
                | None => w1
                end
            | _ => w1
            end
      | _ => None
      end
  | None => None
  end.

(** The bodies of the two timer callbacks; the call made by the
    reconnect callback is taken up to its await ([fire_timer_throws] is
    that callback when the call ends in [fs.mkdirSync]). *)
Definition run_callback (cb : Callback) (w : World) : World :=
  match cb with
  | ReconnectCallback sessionName uid => createWhatsAppBot_begin sessionName uid w
  | QrTimeoutCallback k =>
      match nth_error (calls w) k with
      | Some c =>
          if negb (qrCodeGenerated c)
          then with_call k (settle (reject QrTimeoutError)) w
          else w
      | None => w
      end
  end.

(** A timer runs once, not before it is due. *)
Definition fire_timer (i : nat) (w : World) : option World :=
  match nth_error (timers w) i with
  | Some (due, cb) =>
      if (due <=? now w)%Z
      then Some (run_callback cb
                   (mkWorld (now w) (activeSessions w) (calls w)
                            (remove_nth i (timers w)) (dirs w)))
      else None
  | None => None
  end.

(** The reconnect callback when the [fs.mkdirSync] of the call it makes
    throws; nothing awaits the promise of that call. *)
Definition fire_timer_throws (i made : nat) (w : World) : option World :=
  match nth_error (timers w) i with
  | Some (due, ReconnectCallback sessionName uid) =>
      if (due <=? now w)%Z
      then createWhatsAppBot_mkdir_throws sessionName uid made
             (mkWorld (now w) (activeSessions w) (calls w)
                      (remove_nth i (timers w)) (dirs w))
      else None
  | _ => None
  end.

Definition getSessionStatus (sid : string) (w : World) : option BotSession :=
  JsMap.get sid (activeSessions w).

Definition disconnectBot (sid : string) (w : World) : bool * World :=
  match JsMap.get sid (activeSessions w) with
  | Some session =>
      (true,
       with_sessions (JsMap.delete sid)
         (with_call (socket session) socket_end w))
  | None => (false, w)
  end.

Definition getActiveSessions (w : World) : list BotSession :=
  JsMap.values (activeSessions w).

Definition advance (dt : Z) (w : World) : World :=
  mkWorld (now w + dt)%Z (activeSessions w) (calls w) (timers w) (dirs w).

(** ** The event loop *)

Definition step (w : World) (e : Event) : option World :=
  match e with
  | CallCreate sessionName uid => Some (createWhatsAppBot_begin sessionName uid w)
  | AuthStateSettled k o => createWhatsAppBot_resume k o w
  | ConnectionUpdateEv k u => on_connection_update k u w
  | TimerFires i => fire_timer i w
  | CallDisconnect sid => Some (snd (disconnectBot sid w))
  | Elapse dt => if (0 <=? dt)%Z then Some (advance dt w) else None
  | CallCreateThrew sessionName uid made =>
      createWhatsAppBot_mkdir_throws sessionName uid made w
  | TimerFiresThrew i made => fire_timer_throws i made w
  end.

Fixpoint run (w : World) (evs : list Event) : option World :=
  match evs with
  | [] => Some w
  | e :: evs' =>
      match step w e with
      | Some w' => run w' evs'
      | None => None
      end
  end.

(** A process starts with an empty registry, no invocation and no
    timer, at any time and over any set of directories. *)
Definition boot (t : Z) (d : list Path) : World := mkWorld t [] [] [] d.

Inductive reachable : World -> Prop :=
| reach_boot t d : reachable (boot t d)
| reach_step w e w' : reachable w -> step w e = Some w' -> reachable w'.

(** ** Well-formed worlds

    What every world reached by the event loop satisfies: registry keys
    are unique; an entry sits under its own [sessionId], carries no
    [qrCode], and its socket belongs to a started invocation for that
    session on which [end()] was never called; a pending QR timer belongs
    to a started invocation; an invocation's [sessionId] is the one
    computed from its arguments, while it is suspended its promise is
    pending, and once aborted its promise carries the host's exception. *)

Definition entry_ok (w : World) (sid : string) (s : BotSession) : Prop :=
  sessionId s = sid /\ qrCode s = None /\
  exists c, nth_error (calls w) (socket s) = Some c /\ c_stage c = Live /\
            c_sessionId c = sid /\ c_socketEnded c = false /\
            userId s = c_userId c.

Definition call_ok (c : Invocation) : Prop :=
  c_sessionId c = make_sessionId (c_userId c) (c_sessionName c) /\
  (c_stage c <> Live -> c_socketEnded c = false) /\
  (c_stage c = Suspended -> c_promise c = Pending) /\
  (c_stage c = Aborted -> c_promise c = Rejected ThrownByHost).

Record wf (w : World) : Prop := mk_wf {
  wf_nodup : NoDup (JsMap.keys (activeSessions w));
  wf_entry : forall sid s,
      JsMap.get sid (activeSessions w) = Some s -> entry_ok w sid s;
  wf_timer : forall d k,
      In (d, QrTimeoutCallback k) (timers w) ->
      exists c, nth_error (calls w) k = Some c /\ c_stage c = Live;
  wf_call : forall k c, nth_error (calls w) k = Some c -> call_ok c
}.

(** A change to an invocation that keeps its arguments, stage and
    socket. *)
Definition benign (f : Invocation -> Invocation) : Prop :=
  forall c,
    c_sessionName (f c) = c_sessionName c /\ c_userId (f c) = c_userId c /\
    c_sessionId (f c) = c_sessionId c /\ c_stage (f c) = c_stage c /\
    c_socketEnded (f c) = c_socketEnded c.

(** ** The pairing handshake of one invocation *)

(** Invocation [k] has started, no artifact has reached it, and its QR
    timer, due at [due], is either still queued with the promise
    pending, or has run and rejected the promise. *)
Definition awaiting_qr (k : nat) (sid : string) (due : Z) (w : World) : Prop :=
  exists p,
    view_of k w = Some (Live, false, p, sid) /\
    ((p = Pending /\ pending_qr_timeouts k (timers w) = 1 /\
      In (due, QrTimeoutCallback k) (timers w)) \/
     (p = Rejected QrTimeoutError /\ pending_qr_timeouts k (timers w) = 0 /\
      (due <= now w)%Z)).

(** Invocation [k] has resolved its promise with [v]. *)
Definition delivered (k : nat) (v : PairingResult) (w : World) : Prop :=
  exists sid, view_of k w = Some (Live, true, Fulfilled v, sid).

(** ** Registrations *)

(** The event stores a registry entry under [sid]: it is the executor of
    an invocation for that session running with its socket created. *)
Definition registers (sid : string) (w : World) (e : Event) : bool :=
  match e with
  | AuthStateSettled j SocketCreated =>
      match nth_error (calls w) j with
      | Some c => String.eqb (c_sessionId c) sid
      | None => false
      end
  | _ => false
  end.

Fixpoint no_registration (sid : string) (w : World) (evs : list Event) : bool :=
  match evs with
  | [] => true
  | e :: evs' =>
      negb (registers sid w e) &&
      match step w e with
      | Some w' => no_registration sid w' evs'
      | None => true
      end
  end.

End Program.

(** ** A reference run *)

(** The host of the examples: Baileys' [DisconnectReason.loggedOut] is
    401, and the process runs in [/srv/app]. *)
#[export] Instance reference_host : Host :=
  {| DisconnectReason_loggedOut := 401; process_cwd := ["srv"; "app"] |}.

Definition upd_qr (s : string) : ConnectionUpdate := mkUpdate None None (Some s).
Definition upd_open : ConnectionUpdate := mkUpdate (Some ConnOpen) None None.
Definition upd_close (code : option Z) : ConnectionUpdate :=
  mkUpdate (Some ConnClose) code None.

(** [createWhatsAppBot("mybot", "user-1")] on a fresh process, suspended
    at its await. *)
Definition w_called : World :=
  createWhatsAppBot_begin "mybot" "user-1" (boot 0 []).

(** The same invocation once its executor has run. *)
Definition w_started : World :=
  setTimeout (QrTimeoutCallback 0) 10000
    (with_sessions
       (JsMap.set "user-1-mybot" (mkBotSession "user-1-mybot" 0 None false "user-1"))
       (with_call 0 (fun c0 => set_qrCodeGenerated false (set_stage Live c0)) w_called)).

(** The started invocation of the examples after an [open] update. *)
Definition w_open : World :=
  with_sessions
    (JsMap.set "user-1-mybot" (mkBotSession "user-1-mybot" 0 None true "user-1"))
    w_started.

Definition c_waiting : Invocation :=
  mkInvocation "mybot" "user-1" "user-1-mybot" Live false Pending false.

Definition c_timed_out : Invocation :=
  mkInvocation "mybot" "user-1" "user-1-mybot" Live false
               (Rejected QrTimeoutError) false.

(** The started invocation ten seconds later, its timer having run
    without any artifact. *)
Definition w_timed_out : World :=
  mkWorld 10000
    [("user-1-mybot", mkBotSession "user-1-mybot" 0 None false "user-1")]
    [c_timed_out] []
    [["srv"]; ["srv"; "app"]; ["srv"; "app"; "auth_sessions"];
     ["srv"; "app"; "auth_sessions"; "user-1-mybot"]].

(** The run of the examples after a transient close, five seconds and
    the reconnect timer: the session is still registered and a second
    invocation for it is suspended at its await. *)
Definition w_recreating : World :=
  mkWorld 5000
    [("user-1-mybot", mkBotSession "user-1-mybot" 0 None true "user-1")]
    [c_waiting;
     mkInvocation "mybot" "user-1" "user-1-mybot" Suspended false Pending false]
    [(10000%Z, QrTimeoutCallback 0)]
    [["srv"]; ["srv"; "app"]; ["srv"; "app"; "auth_sessions"];
     ["srv"; "app"; "auth_sessions"; "user-1-mybot"]].

From Stdlib Require Import QArith.
Local Close Scope Q_scope.

(** ** The credential directories present *)

Section DirectoryInvariantDef.
Context {host : Host}.


End DirectoryInvariantDef.

(** ** The relational store (shared/schema.ts, server/storage.ts)

    The tables [users] and [deployments] as lists of rows in table
    order.  Identifiers are the text of the UUIDs, timestamps are
    milliseconds since the epoch (what [Date.getTime] returns for the
    value read back).  The database is taken to execute every statement
    it is sent; what it refuses is written out: an [integer] column
    outside 32 bits, a duplicate key, a missing referenced row. *)

Record User := mkUser {
  u_id : string;
  u_name : string;
  u_username : string;
  u_email : string;
  u_password : string;
  u_coins : Z;
  u_isAdmin : bool;
  u_isVerified : bool;
  u_verificationCode : option string;
  u_lastCoinCollection : option Z;
  u_createdAt : Z
}.

Record Deployment := mkDeployment {
  d_id : string;
  d_userId : string;
  d_name : string;
  d_repoUrl : string;
  d_status : string;
  d_renderServiceId : option string;
  d_sessionName : option string;
  d_pairingMode : string;
  d_envVars : option string;
  d_nodeVersion : string;
  d_autoDeploy : bool;
  d_createdAt : Z;
  d_updatedAt : Z
}.

Record Db := mkDb {
  users : list User;
  deployments : list Deployment
}.

(** What a statement gives back: the driver throws, or the statement
    returns a value and leaves a new database. *)
Inductive DbResult (A : Type) :=
| DbThrows
| DbReturns (a : A) (db : Db).

Arguments DbThrows {A}.
Arguments DbReturns {A} a db.

(** The range of the PostgreSQL [integer] type. *)
Definition int4 (z : Z) : bool :=
  ((-2147483648 <=? z) && (z <=? 2147483647))%Z.

(** [storage.getUser], [getUserByUsername], [getUserByEmail]: the first
    row of the selection, or undefined. *)
Definition getUser (id : string) (db : Db) : option User :=
  find (fun u => String.eqb (u_id u) id) (users db).

Definition getUserByUsername (username : string) (db : Db) : option User :=
  find (fun u => String.eqb (u_username u) username) (users db).

Definition getUserByEmail (email : string) (db : Db) : option User :=
  find (fun u => String.eqb (u_email u) email) (users db).

(** The [Partial<User>] objects that the routes below hand to
    [storage.updateUser]: a field left out is [None]; a nullable column
    set to [null] is [Some None]. *)
Record UserPatch := mkUserPatch {
  set_coins : option Z;
  set_isVerified : option bool;
  set_verificationCode : option (option string);
  set_lastCoinCollection : option (option Z)
}.

Definition or_keep {A : Type} (new : option A) (old : A) : A :=
  match new with Some x => x | None => old end.

Definition apply_user_patch (p : UserPatch) (u : User) : User :=
  mkUser (u_id u) (u_name u) (u_username u) (u_email u) (u_password u)
         (or_keep (set_coins p) (u_coins u))
         (u_isAdmin u)
         (or_keep (set_isVerified p) (u_isVerified u))
         (or_keep (set_verificationCode p) (u_verificationCode u))
         (or_keep (set_lastCoinCollection p) (u_lastCoinCollection u))
         (u_createdAt u).

(** [storage.updateUser]: [UPDATE users SET ... WHERE id = ... RETURNING *],
    the first returned row or undefined. *)
Definition updateUser (id : string) (p : UserPatch) (db : Db) : DbResult (option User) :=
  match set_coins p with
  | Some c => if int4 c then
      let us := map (fun u => if String.eqb (u_id u) id then apply_user_patch p u else u)
                    (users db) in
      DbReturns (find (fun u => String.eqb (u_id u) id) us) (mkDb us (deployments db))
    else DbThrows
  | None =>
      let us := map (fun u => if String.eqb (u_id u) id then apply_user_patch p u else u)
                    (users db) in
      DbReturns (find (fun u => String.eqb (u_id u) id) us) (mkDb us (deployments db))
  end.

(** The values [/api/register] inserts; the other columns take their
    defaults. *)
Record InsertUser := mkInsertUser {
  iu_name : string;
  iu_username : string;
  iu_email : string;
  iu_password : string;
  iu_verificationCode : option string
}.

(** [storage.createUser]: the row gets the id the database generates and
    the time of the insertion, 100 coins, and is neither admin nor
    verified.  The primary key and the two unique columns refuse a
    duplicate. *)
Definition createUser (iu : InsertUser) (newId : string) (now_ms : Z) (db : Db)
  : DbResult User :=
  if existsb (fun u => String.eqb (u_id u) newId
                       || String.eqb (u_username u) (iu_username iu)
                       || String.eqb (u_email u) (iu_email iu)) (users db)
  then DbThrows
  else
    let u := mkUser newId (iu_name iu) (iu_username iu) (iu_email iu) (iu_password iu)
                    100 false false (iu_verificationCode iu) None now_ms in
    DbReturns u (mkDb (users db ++ [u]) (deployments db)).

(** The body of [/api/deploy-bot] after [insertDeploymentSchema.parse]:
    columns with a default may be left out, nullable ones too. *)
Record InsertDeployment := mkInsertDeployment {
  id_name : string;
  id_repoUrl : string;
  id_sessionName : option string;
  id_pairingMode : option string;
  id_envVars : option string;
  id_nodeVersion : option string;
  id_autoDeploy : option bool
}.

(** [storage.createDeployment] with [{...validatedData, userId, status}]. *)
Definition createDeployment (d : InsertDeployment) (uid status : string)
    (newId : string) (now_ms : Z) (db : Db) : DbResult Deployment :=
  if existsb (fun x => String.eqb (d_id x) newId) (deployments db)
     || negb (existsb (fun u => String.eqb (u_id u) uid) (users db))
  then DbThrows
  else
    let row := mkDeployment newId uid (id_name d) (id_repoUrl d) status None
                 (id_sessionName d)
                 (or_keep (id_pairingMode d) "qr")
                 (id_envVars d)
                 (or_keep (id_nodeVersion d) "18")
                 (or_keep (id_autoDeploy d) false)
                 now_ms now_ms in
    DbReturns row (mkDb (users db) (deployments db ++ [row])).

(** The [Partial<Deployment>] objects of [/api/deploy-bot]. *)
Record DeploymentPatch := mkDeploymentPatch {
  set_status : option string;
  set_sessionName : option (option string)
}.

Definition apply_deployment_patch (p : DeploymentPatch) (d : Deployment) : Deployment :=
  mkDeployment (d_id d) (d_userId d) (d_name d) (d_repoUrl d)
               (or_keep (set_status p) (d_status d))
               (d_renderServiceId d)
               (or_keep (set_sessionName p) (d_sessionName d))
               (d_pairingMode d) (d_envVars d) (d_nodeVersion d) (d_autoDeploy d)
               (d_createdAt d) (d_updatedAt d).

(** [storage.updateDeployment]. *)
Definition updateDeployment (id : string) (p : DeploymentPatch) (db : Db)
  : DbResult (option Deployment) :=
  let ds := map (fun d => if String.eqb (d_id d) id then apply_deployment_patch p d else d)
                (deployments db) in
  DbReturns (find (fun d => String.eqb (d_id d) id) ds) (mkDb (users db) ds).

(** ** The routes (server/routes.ts, server/auth.ts)

    [req.user] is the row that [passport.deserializeUser] read with
    [storage.getUser] when the request came in; a request without it is
    refused by [requireAuth]. *)

(** *** [GET /api/bot-status/:sessionId] *)

Inductive BotStatusResponse :=
| BotStatus401
| BotStatus404
| BotStatus200 (sid : string) (connected : bool).

(** *** [POST /api/collect-coins] *)

Inductive CollectResponse :=
| Collect401
| Collect400 (nextCollection : Z)
| Collect200 (user : option User)
| CollectThrown.

(** [timeDiff / (1000 * 60 * 60)] as a rational; on the integers below
    2^53 the double the code computes compares with 24 as this does. *)
Definition hoursDiff (timeDiff : Z) : Q := (timeDiff # 3600000)%Q.

Definition collect_coins (req_user : option User) (now_ms : Z) (db : Db)
  : CollectResponse * Db :=
  match req_user with
  | None => (Collect401, db)
  | Some user =>
      let collect :=
        match updateUser (u_id user)
                (mkUserPatch (Some (u_coins user + 20)%Z) None None (Some (Some now_ms)))
                db with
        | DbReturns updatedUser db' => (Collect200 updatedUser, db')
        | DbThrows => (CollectThrown, db)
        end in
      match u_lastCoinCollection user with
      | Some last =>
          if negb (Qle_bool 24 (hoursDiff (now_ms - last)))
          then (Collect400 (last + 24 * 60 * 60 * 1000)%Z, db)
          else collect
      | None => collect
      end
  end.

(** *** [POST /api/deploy-bot] *)

Inductive DeployStart :=
| Deploy401
| Deploy400
| DeployThrown
| DeployAwaiting (user : User) (deployment : Deployment) (call : nat).

Inductive DeployResponse :=
| DeployJson (deployment : Deployment) (qrCode : option string) (sid : string)
| DeployFailed.

(** *** [POST /api/verify-email], the local strategy, [POST /api/register] *)

(** What [req.body.code] can be, as far as [!==] against a string or
    [null] tells values apart. *)
Inductive JsValue :=
| JsUndefined
| JsNull
| JsString (s : string)
| JsOther.

(** [stored !== supplied] for a nullable text column. *)
Definition strict_differs (stored : option string) (supplied : JsValue) : bool :=
  match stored, supplied with
  | None, JsNull => false
  | Some s, JsString s' => negb (String.eqb s s')
  | _, _ => true
  end.

Inductive VerifyResponse :=
| Verify400_UserNotFound
| Verify400_InvalidCode
| Verify200 (user : User)
| VerifyThrown.

Definition verify_email (email : string) (code : JsValue) (db : Db)
  : VerifyResponse * Db :=
  match getUserByEmail email db with
  | None => (Verify400_UserNotFound, db)
  | Some user =>
      if strict_differs (u_verificationCode user) code
      then (Verify400_InvalidCode, db)
      else
        match updateUser (u_id user)
                (mkUserPatch None (Some true) (Some None) None) db with
        | DbReturns (Some updatedUser) db' => (Verify200 updatedUser, db')
        | DbReturns None db' => (VerifyThrown, db')
        | DbThrows => (VerifyThrown, db)
        end
  end.

(** What the verify callback of the local strategy hands to [done]. *)
Inductive LoginResult :=
| LoginRefused
| LoginUnverified
| LoginError
| LoginOk (user : User).

Inductive RegisterResponse :=
| Register400_Username
| Register400_Email
| Register201 (userId : string)
| RegisterThrown.

(** [sendVerificationEmail] (server/services/email.ts): [apiKey] is the
    module constant, [send_ok] tells whether [mailService.send] returned
    or threw.  The result is the boolean and the messages handed over to
    the mail service. *)
Definition sendVerificationEmail (apiKey : option string) (send_ok : bool)
    (to verificationCode : string) : bool * list (string * string) :=
  if negb (truthy apiKey) then (false, [])
  else if send_ok then (true, [(to, verificationCode)])
  else (false, []).

(** [process.env.SENDGRID_API_KEY || process.env.SENDGRID_API_KEY_ENV_VAR] *)
Definition apiKey_of (key1 key2 : option string) : option string :=
  if truthy key1 then key1 else key2.

Definition register (name username email : string) (hashed verificationCode : string)
    (newId : string) (now_ms : Z) (apiKey : option string) (send_ok : bool) (db : Db)
  : RegisterResponse * list (string * string) * Db :=
  match getUserByUsername username db with
  | Some _ => (Register400_Username, [], db)
  | None =>
      match getUserByEmail email db with
      | Some _ => (Register400_Email, [], db)
      | None =>
          match createUser (mkInsertUser name username email hashed (Some verificationCode))
                           newId now_ms db with
          | DbThrows => (RegisterThrown, [], db)
          | DbReturns user db' =>
              (Register201 (u_id user),
               snd (sendVerificationEmail apiKey send_ok email verificationCode),
               db')
          end
      end
  end.

Section Routes.
Context {host : Host}.

Definition bot_status (req_user : option User) (sid : string) (w : World)
  : BotStatusResponse :=
  match req_user with
  | None => BotStatus401
  | Some user =>
      match getSessionStatus sid w with
      | None => BotStatus404
      | Some session =>
          if negb (String.eqb (userId session) (u_id user)) then BotStatus404
          else BotStatus200 (sessionId session) (isConnected session)
      end
  end.

(** [validatedData.sessionName || `bot-${deployment.id}`] *)
Definition deploy_sessionName (d : InsertDeployment) (deployment : Deployment) : string :=
  match id_sessionName d with
  | Some s => if String.eqb s "" then ("bot-" ++ d_id deployment)%string else s
  | None => ("bot-" ++ d_id deployment)%string
  end.

(** The route up to [await whatsappService.createWhatsAppBot(...)]:
    [parsed] is what [insertDeploymentSchema.parse] returned ([None] when
    it threw); the new invocation is the next free number.  The call is
    taken up to its own await; however its promise is rejected, by the
    executor, the timer or [fs.mkdirSync], the route goes on in
    [deploy_bot_settled]. *)
Definition deploy_bot_start (req_user : option User) (parsed : option InsertDeployment)
    (newId : string) (now_ms : Z) (db : Db) (w : World)
  : DeployStart * Db * World :=
  match req_user with
  | None => (Deploy401, db, w)
  | Some user =>
      if (u_coins user <? 10)%Z then (Deploy400, db, w)
      else
        match parsed with
        | None => (DeployThrown, db, w)
        | Some validatedData =>
            match updateUser (u_id user)
                    (mkUserPatch (Some (u_coins user - 10)%Z) None None None) db with
            | DbThrows => (DeployThrown, db, w)
            | DbReturns _ db1 =>
                match createDeployment validatedData (u_id user) "deploying"
                                       newId now_ms db1 with
                | DbThrows => (DeployThrown, db1, w)
                | DbReturns deployment db2 =>
                    (DeployAwaiting user deployment (length (calls w)),
                     db2,
                     createWhatsAppBot_begin
                       (deploy_sessionName validatedData deployment) (u_id user) w)
                end
            end
        end
  end.

(** The [catch] block around the bot creation: the coins of the
    snapshot are written back, the deployment is marked failed, and the
    error goes to [next]. *)
Definition deploy_bot_compensate (user : User) (deployment : Deployment) (db : Db)
  : DeployResponse * Db :=
  match updateUser (u_id user) (mkUserPatch (Some (u_coins user)) None None None) db with
  | DbThrows => (DeployFailed, db)
  | DbReturns _ db1 =>
      match updateDeployment (d_id deployment)
              (mkDeploymentPatch (Some "failed") None) db1 with
      | DbReturns _ db2 => (DeployFailed, db2)
      | DbThrows => (DeployFailed, db1)
      end
  end.

(** The route after the await, once the promise has settled ([None]
    while it is pending). *)
Definition deploy_bot_settled (user : User) (deployment : Deployment)
    (p : Promise) (db : Db) : option (DeployResponse * Db) :=
  match p with
  | Pending => None
  | Fulfilled botSession =>
      match updateDeployment (d_id deployment)
              (mkDeploymentPatch (Some "pairing") (Some (Some (res_sessionId botSession))))
              db with
      | DbReturns _ db' =>
          Some (DeployJson deployment (res_qrCode botSession) (res_sessionId botSession), db')
      | DbThrows => Some (deploy_bot_compensate user deployment db)
      end
  | Rejected _ => Some (deploy_bot_compensate user deployment db)
  end.

End Routes.

(** The verify callback of the local strategy.  [comparePasswords] is
    scrypt over the stored salt; it throws when the stored hash is not of
    the derived length ([None]). *)
Section LocalStrategy.
Variable comparePasswords : string -> string -> option bool.

Definition local_strategy (username password : string) (db : Db) : LoginResult :=
  let user :=
    match getUserByEmail username db with
    | Some u => Some u
    | None => getUserByUsername username db
    end in
  match user with
  | None => LoginRefused
  | Some u =>
      match comparePasswords password (u_password u) with
      | None => LoginError
      | Some false => LoginRefused
      | Some true => if negb (u_isVerified u) then LoginUnverified else LoginOk u
      end
  end.

End LocalStrategy.

(** ** A reference database and further worlds of the reference run *)

Definition alice : User :=
  mkUser "user-1" "Alice" "alice" "alice@example.org" "hash-a" 100 false true None None 0.

Definition bob : User :=
  mkUser "user-2" "Bob" "bob" "bob@example.org" "hash-b" 100 false true None None 0.

Definition carol : User :=
  mkUser "user-3" "Carol" "carol" "carol@example.org" "hash-c" 100 false false
         (Some "123456") None 0.

Definition db_demo : Db := mkDb [alice; bob; carol] [].

Definition deploy_demo : InsertDeployment :=
  mkInsertDeployment "my bot" "https://example.org/bot.git" (Some "mybot")
                     None None None None.

(** A password check that accepts exactly the password ["secret"]. *)
Definition compare_demo (supplied stored : string) : option bool :=
  Some (String.eqb supplied "secret").

(** The started invocation after its first QR. *)
Definition w_paired : World :=
  mkWorld 0
    [("user-1-mybot", mkBotSession "user-1-mybot" 0 None false "user-1")]
    [mkInvocation "mybot" "user-1" "user-1-mybot" Live true
       (Fulfilled (mkPairingResult "user-1-mybot" (Some "2@first"))) false]
    [(10000%Z, QrTimeoutCallback 0)]
    [["srv"]; ["srv"; "app"]; ["srv"; "app"; "auth_sessions"];
     ["srv"; "app"; "auth_sessions"; "user-1-mybot"]].

(** The connected session five seconds after a transient close, the
    reconnect timer being due. *)
Definition w_reconnect_due : World :=
  mkWorld 5000
    [("user-1-mybot", mkBotSession "user-1-mybot" 0 None true "user-1")]
    [c_waiting]
    [(10000%Z, QrTimeoutCallback 0); (5000%Z, ReconnectCallback "mybot" "user-1")]
    [["srv"]; ["srv"; "app"]; ["srv"; "app"; "auth_sessions"];
     ["srv"; "app"; "auth_sessions"; "user-1-mybot"]].

(** ** What a fulfilled promise carries *)

Definition fulfilled_ok (w : World) : Prop :=
  forall k c v,
    nth_error (calls w) k = Some c -> c_promise c = Fulfilled v ->
    res_sessionId v = c_sessionId c /\ truthy (res_qrCode v) = true.

(** * Part II: facts *)

(** ** Facts about the [Map] *)
Module JsMapFacts.
Import JsMap.

Section Facts.
Context {V : Type}.

Lemma get_set_eq k v (m : list (string * V)) : get k (set k v m) = Some v.
Proof.
  induction m as [|[k' v'] m IH]; simpl.
  - now rewrite String.eqb_refl.
  - destruct (String.eqb k' k) eqn:E; simpl; rewrite E; auto.
Qed.

Lemma get_set_ne k k' v (m : list (string * V)) : k <> k' -> get k' (set k v m) = get k' m.
Proof.
  intros Hne. induction m as [|[k0 v0] m IH]; simpl.
  - destruct (String.eqb_spec k k'); congruence.
  - destruct (String.eqb_spec k0 k) as [->|Hk]; simpl.
    + destruct (String.eqb_spec k k'); congruence.
    + now rewrite IH.
Qed.

Lemma get_some_in_keys k v (m : list (string * V)) : get k m = Some v -> In k (keys m).
Proof.
  induction m as [|[k' v'] m IH]; simpl; [discriminate|].
  destruct (String.eqb_spec k' k); auto.
Qed.

Lemma get_none_not_in_keys k (m : list (string * V)) : get k m = None <-> ~ In k (keys m).
Proof.
  induction m as [|[k' v'] m IH]; simpl.
  - tauto.
  - destruct (String.eqb_spec k' k) as [->|Hne].
    + split; [discriminate | intros H; exfalso; apply H; auto].
    + rewrite IH. split; [intros H [E|E]; auto | tauto].
Qed.

Lemma get_some_in k v (m : list (string * V)) : get k m = Some v -> In (k, v) m.
Proof.
  induction m as [|[k' v'] m IH]; simpl; [discriminate|].
  destruct (String.eqb_spec k' k) as [->|]; intros H.
  - injection H as ->; auto.
  - auto.
Qed.

Lemma in_get_some k v (m : list (string * V)) : NoDup (keys m) -> In (k, v) m -> get k m = Some v.
Proof.
  induction m as [|[k' v'] m IH]; simpl; [tauto|].
  intros Hnd [H|H].
  - injection H as -> ->. now rewrite String.eqb_refl.
  - inversion Hnd as [|? ? Hnin Hnd']; subst.
    destruct (String.eqb_spec k' k) as [->|].
    + exfalso; apply Hnin. change (In (fst (k, v)) (map fst m)).
      now apply in_map.
    + auto.
Qed.

(** [set] on a key already present leaves the key sequence as it is. *)
Lemma keys_set_present k v (m : list (string * V)) :
  In k (keys m) -> keys (set k v m) = keys m.
Proof.
  induction m as [|[k' v'] m IH]; simpl; [tauto|].
  intros H. destruct (String.eqb_spec k' k) as [->|Hne]; simpl; auto.
  f_equal. apply IH. destruct H; congruence.
Qed.

(** [set] on a new key appends it. *)
Lemma keys_set_absent k v (m : list (string * V)) :
  ~ In k (keys m) -> keys (set k v m) = keys m ++ [k].
Proof.
  induction m as [|[k' v'] m IH]; simpl; auto.
  intros H. destruct (String.eqb_spec k' k) as [->|Hne]; simpl.
  - tauto.
  - f_equal. apply IH. tauto.
Qed.

Lemma NoDup_keys_set k v (m : list (string * V)) : NoDup (keys m) -> NoDup (keys (set k v m)).
Proof.
  intros Hnd. destruct (List.in_dec string_dec k (keys m)) as [Hin|Hnin].
  - now rewrite keys_set_present.
  - rewrite keys_set_absent by assumption.
    apply NoDup_app; auto.
    + repeat constructor. simpl. tauto.
    + intros x Hx [<-|[]]. contradiction.
Qed.

Lemma length_set_present k v (m : list (string * V)) :
  In k (keys m) -> length (set k v m) = length m.
Proof.
  intros H. apply keys_set_present with (v := v) in H.
  unfold keys in H. apply (f_equal (@length string)) in H.
  now rewrite !length_map in H.
Qed.

Lemma in_keys_delete k k' (m : list (string * V)) : In k' (keys (delete k m)) -> In k' (keys m).
Proof.
  induction m as [|[k0 v0] m IH]; simpl; auto.
  destruct (String.eqb k0 k); simpl; tauto.
Qed.

Lemma NoDup_keys_delete k (m : list (string * V)) : NoDup (keys m) -> NoDup (keys (delete k m)).
Proof.
  induction m as [|[k0 v0] m IH]; simpl; auto.
  intros Hnd. inversion Hnd as [|? ? Hnin Hnd']; subst.
  destruct (String.eqb k0 k); simpl; auto.
  constructor; auto. intros Hin. apply Hnin. eapply in_keys_delete; eauto.
Qed.

(** With unique keys, the deleted key is gone. *)
Lemma not_in_keys_delete k (m : list (string * V)) : NoDup (keys m) -> ~ In k (keys (delete k m)).
Proof.
  induction m as [|[k0 v0] m IH]; simpl; auto.
  intros Hnd. inversion Hnd as [|? ? Hnin Hnd']; subst.
  destruct (String.eqb_spec k0 k) as [->|Hne]; simpl; auto.
  intros [H|H]; [congruence|]. now apply IH.
Qed.

Lemma get_delete_eq k (m : list (string * V)) : NoDup (keys m) -> get k (delete k m) = None.
Proof.
  intros Hnd. apply get_none_not_in_keys. now apply not_in_keys_delete.
Qed.

Lemma get_delete_ne k k' (m : list (string * V)) : k <> k' -> get k' (delete k m) = get k' m.
Proof.
  intros Hne. induction m as [|[k0 v0] m IH]; simpl; auto.
  destruct (String.eqb_spec k0 k) as [->|Hk]; simpl.
  - destruct (String.eqb_spec k k'); congruence.
  - now rewrite IH.
Qed.

Lemma delete_absent k (m : list (string * V)) : get k m = None -> delete k m = m.
Proof.
  induction m as [|[k0 v0] m IH]; simpl; auto.
  destruct (String.eqb k0 k); [discriminate|].
  intros H. now rewrite IH.
Qed.

End Facts.

End JsMapFacts.

(** ** Facts about the list helpers *)

Lemma nth_error_replace_nth_eq {A : Type} (n : nat) (x y : A) (l : list A) :
  nth_error l n = Some y -> nth_error (replace_nth n x l) n = Some x.
Proof.
  revert n. induction l as [|a l IH]; intros [|n]; simpl; try discriminate; auto.
Qed.

Lemma nth_error_replace_nth_ne {A : Type} (n j : nat) (x : A) (l : list A) :
  j <> n -> nth_error (replace_nth n x l) j = nth_error l j.
Proof.
  revert n j. induction l as [|a l IH]; intros [|n] [|j] H; simpl; auto.
  congruence.
Qed.

Lemma length_replace_nth {A : Type} (n : nat) (x : A) (l : list A) :
  length (replace_nth n x l) = length l.
Proof.
  revert n. induction l as [|a l IH]; intros [|n]; simpl; auto.
Qed.

Lemma in_remove_nth {A : Type} (n : nat) (x : A) (l : list A) :
  In x (remove_nth n l) -> In x l.
Proof.
  revert n. induction l as [|a l IH]; intros [|n]; simpl; auto.
  intros [H|H]; eauto.
Qed.

Lemma in_remove_nth_or {A : Type} (i : nat) (x t : A) (l : list A) :
  nth_error l i = Some t -> In x l -> x = t \/ In x (remove_nth i l).
Proof.
  revert i. induction l as [|a l IH]; intros [|i]; simpl; try discriminate.
  - intros H; injection H as ->. intros [->|H]; auto.
  - intros H [->|Hin]; auto. destruct (IH _ H Hin); auto.
Qed.

Lemma remove_nth_snoc {A : Type} (l : list A) (x : A) :
  remove_nth (length l) (l ++ [x]) = l.
Proof. induction l as [|a l IH]; simpl; congruence. Qed.

Lemma nth_error_snoc {A : Type} (l : list A) (x y : A) (j : nat) :
  nth_error (l ++ [x]) j = Some y ->
  nth_error l j = Some y \/ (j = length l /\ y = x).
Proof.
  intros H. destruct (Nat.lt_ge_cases j (length l)) as [Hlt|Hge].
  - rewrite nth_error_app1 in H by assumption. auto.
  - rewrite nth_error_app2 in H by assumption.
    destruct (j - length l) as [|m] eqn:E; simpl in H.
    + injection H as <-. right. split; [lia | reflexivity].
    + destruct m; discriminate.
Qed.

Lemma nth_error_snoc_old {A : Type} (l : list A) (x y : A) (j : nat) :
  nth_error l j = Some y -> nth_error (l ++ [x]) j = Some y.
Proof.
  intros H. rewrite nth_error_app1; auto.
  apply nth_error_Some. congruence.
Qed.

Lemma nth_error_snoc_new {A : Type} (l : list A) (x : A) :
  nth_error (l ++ [x]) (length l) = Some x.
Proof.
  rewrite nth_error_app2 by lia. now rewrite Nat.sub_diag.
Qed.

(** ** Facts about the state updates *)

Lemma calls_with_call_eq k f w c :
  nth_error (calls w) k = Some c ->
  nth_error (calls (with_call k f w)) k = Some (f c).
Proof.
  intros H. unfold with_call. rewrite H. simpl.
  eapply nth_error_replace_nth_eq; eauto.
Qed.

Lemma calls_with_call_ne k f w j :
  j <> k -> nth_error (calls (with_call k f w)) j = nth_error (calls w) j.
Proof.
  intros H. unfold with_call. destruct (nth_error (calls w) k); simpl; auto.
  now apply nth_error_replace_nth_ne.
Qed.

Lemma calls_with_call_inv k f w j c' :
  nth_error (calls (with_call k f w)) j = Some c' ->
  exists c, nth_error (calls w) j = Some c /\
            ((j <> k /\ c' = c) \/ (j = k /\ c' = f c)).
Proof.
  intros H. destruct (Nat.eq_dec j k) as [->|Hne].
  - destruct (nth_error (calls w) k) as [c|] eqn:E.
    + rewrite (calls_with_call_eq _ _ _ _ E) in H. injection H as <-. eauto.
    + unfold with_call in H. rewrite E in H. congruence.
  - rewrite calls_with_call_ne in H by assumption. eauto.
Qed.

Lemma sessions_with_call k f w : activeSessions (with_call k f w) = activeSessions w.
Proof. unfold with_call. now destruct (nth_error (calls w) k). Qed.

Lemma timers_with_call k f w : timers (with_call k f w) = timers w.
Proof. unfold with_call. now destruct (nth_error (calls w) k). Qed.

Lemma now_with_call k f w : now (with_call k f w) = now w.
Proof. unfold with_call. now destruct (nth_error (calls w) k). Qed.


Lemma length_calls_with_call k f w : length (calls (with_call k f w)) = length (calls w).
Proof.
  unfold with_call. destruct (nth_error (calls w) k); simpl; auto.
  apply length_replace_nth.
Qed.

(** ** The invariant is kept *)

Section Invariants.
Context {host : Host}.

Lemma benign_settle g : benign (settle g).
Proof. intros c. now repeat split. Qed.

Lemma benign_flag_settle g b :
  benign (fun c0 => settle (g c0) (set_qrCodeGenerated b c0)).
Proof. intros c. now repeat split. Qed.

Lemma benign_fwd k f w j c :
  benign f -> nth_error (calls w) j = Some c ->
  exists c', nth_error (calls (with_call k f w)) j = Some c' /\
             c_sessionName c' = c_sessionName c /\ c_userId c' = c_userId c /\
             c_sessionId c' = c_sessionId c /\ c_stage c' = c_stage c /\
             c_socketEnded c' = c_socketEnded c.
Proof.
  intros Hb H. destruct (Nat.eq_dec j k) as [->|Hne].
  - exists (f c). split; [now apply calls_with_call_eq | apply Hb].
  - exists c. rewrite calls_with_call_ne by assumption. now repeat split.
Qed.

Lemma benign_bwd k f w j c' :
  benign f -> nth_error (calls (with_call k f w)) j = Some c' ->
  exists c, nth_error (calls w) j = Some c /\
            c_sessionName c' = c_sessionName c /\ c_userId c' = c_userId c /\
            c_sessionId c' = c_sessionId c /\ c_stage c' = c_stage c /\
            c_socketEnded c' = c_socketEnded c.
Proof.
  intros Hb H. apply calls_with_call_inv in H as (c & Hc & [[_ ->]|[_ ->]]).
  - exists c. now repeat split.
  - exists c. split; [assumption | apply Hb].
Qed.

Lemma entry_ok_benign k f w sid s :
  benign f -> entry_ok w sid s -> entry_ok (with_call k f w) sid s.
Proof.
  intros Hb (Hs & Hq & c & Hc & Hst & Hsid & Hend & Hu).
  destruct (benign_fwd k f w _ _ Hb Hc) as (c' & Hc' & _ & Eu & Es & Et & Ee).
  repeat split; auto. exists c'. repeat split; congruence.
Qed.

Lemma wf_with_call_benign k f w :
  benign f ->
  (forall c, nth_error (calls w) k = Some c -> c_stage c = Live) ->
  wf w -> wf (with_call k f w).
Proof.
  intros Hb Hlive [Hnd He Ht Hc]. constructor.
  - now rewrite sessions_with_call.
  - intros sid s. rewrite sessions_with_call. intros H.
    apply entry_ok_benign; auto.
  - intros d j. rewrite timers_with_call. intros H.
    destruct (Ht _ _ H) as (c & Hcj & Hst).
    destruct (benign_fwd k f w _ _ Hb Hcj) as (c' & Hc' & _ & _ & _ & Et & _).
    exists c'. split; congruence.
  - intros j c' H.
    apply calls_with_call_inv in H as (c & Hcj & [[_ ->]|[-> ->]]); eauto.
    destruct (Hb c) as (En & Eu & Es & Et & Ee).
    destruct (Hc _ _ Hcj) as (H1 & H2 & H3 & H4).
    pose proof (Hlive _ Hcj) as Hl.
    split; [congruence|]. repeat split; intros Hx; exfalso; congruence.
Qed.

(** Only the registry, the invocations and the timers matter. *)
Lemma wf_ext w w' :
  activeSessions w' = activeSessions w -> calls w' = calls w ->
  timers w' = timers w -> wf w -> wf w'.
Proof.
  intros Es Ec Et [Hnd He Ht Hc]. constructor.
  - now rewrite Es.
  - intros sid s. rewrite Es. intros H. destruct (He _ _ H) as (A & B & c & C).
    repeat split; auto. exists c. now rewrite Ec.
  - intros d k. rewrite Et, Ec. apply Ht.
  - intros k c. rewrite Ec. apply Hc.
Qed.

Lemma wf_boot t d : wf (boot t d).
Proof.
  constructor; simpl.
  - constructor.
  - discriminate.
  - tauto.
  - intros [|k] c; discriminate.
Qed.

Lemma wf_begin sessionName uid w :
  wf w -> wf (createWhatsAppBot_begin sessionName uid w).
Proof.
  intros [Hnd He Ht Hc]. constructor; simpl; auto.
  - intros sid s H. destruct (He _ _ H) as (A & B & c & C & D).
    repeat split; auto. exists c. split; auto.
    now apply nth_error_snoc_old.
  - intros d k H. destruct (Ht _ _ H) as (c & C & D).
    exists c. split; auto. now apply nth_error_snoc_old.
  - intros k c H. apply nth_error_snoc in H as [H|[_ ->]]; eauto.
    repeat split. discriminate.
Qed.

Lemma wf_setTimeout_reconnect n u delay w :
  wf w -> wf (setTimeout (ReconnectCallback n u) delay w).
Proof.
  intros [Hnd He Ht Hc]. constructor; simpl; auto.
  intros d k H. apply in_app_or in H as [H|[H|[]]]; [eauto | discriminate].
Qed.

Lemma wf_delete sid w : wf w -> wf (with_sessions (JsMap.delete sid) w).
Proof.
  intros [Hnd He Ht Hc]. constructor; simpl; auto.
  - now apply JsMapFacts.NoDup_keys_delete.
  - intros sid' s H. destruct (String.eqb_spec sid sid') as [<-|Hne].
    + rewrite JsMapFacts.get_delete_eq in H by assumption. discriminate.
    + rewrite JsMapFacts.get_delete_ne in H by assumption.
      destruct (He _ _ H) as (A & B & c & C). repeat split; auto. now exists c.
Qed.

Lemma wf_mark_connected sid session w :
  wf w -> JsMap.get sid (activeSessions w) = Some session ->
  wf (with_sessions (JsMap.set sid (set_isConnected true session)) w).
Proof.
  intros [Hnd He Ht Hc] Hget. constructor; simpl; auto.
  - now apply JsMapFacts.NoDup_keys_set.
  - intros sid' s H. destruct (String.eqb_spec sid sid') as [<-|Hne].
    + rewrite JsMapFacts.get_set_eq in H. injection H as <-.
      destruct (He _ _ Hget) as (A & B & c & C). repeat split; auto. now exists c.
    + rewrite JsMapFacts.get_set_ne in H by assumption.
      destruct (He _ _ H) as (A & B & c & C). repeat split; auto. now exists c.
Qed.

End Invariants.

Arguments with_call : simpl never.

Section Preservation.
Context {host : Host}.

(** What a call leaves behind when its [fs.mkdirSync] throws: one more
    invocation, aborted, and perhaps some directories. *)
Lemma mkdir_throws_inv n u made w w' :
  createWhatsAppBot_mkdir_throws n u made w = Some w' ->
  now w' = now w /\ activeSessions w' = activeSessions w /\
  timers w' = timers w /\
  calls w' = calls w ++ [mkInvocation n u (make_sessionId u n) Aborted false
                                      (Rejected ThrownByHost) false] /\
  existsSync (authDir_of (make_sessionId u n)) (dirs w) = false /\
  exists made_dirs, dirs w' = dirs w ++ made_dirs.
Proof.
  unfold createWhatsAppBot_mkdir_throws.
  destruct (existsSync (authDir_of (make_sessionId u n)) (dirs w)) eqn:Ex;
    [discriminate|].
  unfold mkdirSync_recursive_throws.
  destruct (Nat.ltb made (length (authDir_of (make_sessionId u n))));
    [|discriminate].
  intros H. injection H as <-. simpl. repeat split. eauto.
Qed.

Lemma fire_timer_throws_inv i made w w' :
  fire_timer_throws i made w = Some w' ->
  exists due n u,
    nth_error (timers w) i = Some (due, ReconnectCallback n u) /\
    (due <= now w)%Z /\
    now w' = now w /\ activeSessions w' = activeSessions w /\
    timers w' = remove_nth i (timers w) /\
    calls w' = calls w ++ [mkInvocation n u (make_sessionId u n) Aborted false
                                        (Rejected ThrownByHost) false] /\
    exists made_dirs, dirs w' = dirs w ++ made_dirs.
Proof.
  unfold fire_timer_throws.
  destruct (nth_error (timers w) i) as [[due [n u|k]]|] eqn:Hi; try discriminate.
  destruct (due <=? now w)%Z eqn:Hdue; [|discriminate].
  intros H. apply mkdir_throws_inv in H as (A & B & C & D & _ & E).
  exists due, n, u. simpl in *. repeat split; auto. lia.
Qed.

(** An aborted invocation added at the end keeps the invariant, also
    when timers leave the queue. *)
Lemma wf_snoc_aborted n u w w' :
  wf w ->
  activeSessions w' = activeSessions w ->
  (forall t, In t (timers w') -> In t (timers w)) ->
  calls w' = calls w ++ [mkInvocation n u (make_sessionId u n) Aborted false
                                      (Rejected ThrownByHost) false] ->
  wf w'.
Proof.
  intros [Hnd He Ht Hc] Es Et Ec. constructor.
  - now rewrite Es.
  - intros sid s. rewrite Es. intros H. destruct (He _ _ H) as (A & B & c & C & D).
    repeat split; auto. exists c. split; auto.
    rewrite Ec. now apply nth_error_snoc_old.
  - intros d k H. destruct (Ht _ _ (Et _ H)) as (c & C & D).
    exists c. split; auto. rewrite Ec. now apply nth_error_snoc_old.
  - intros k c. rewrite Ec. intros H.
    apply nth_error_snoc in H as [H|[_ ->]]; eauto.
    repeat split; discriminate.
Qed.

Lemma wf_mkdir_throws n u made w w' :
  wf w -> createWhatsAppBot_mkdir_throws n u made w = Some w' -> wf w'.
Proof.
  intros Hwf H. apply mkdir_throws_inv in H as (_ & Es & Et & Ec & _).
  apply (wf_snoc_aborted n u w); auto. now rewrite Et.
Qed.

Lemma wf_fire_throws i made w w' :
  wf w -> fire_timer_throws i made w = Some w' -> wf w'.
Proof.
  intros Hwf H.
  apply fire_timer_throws_inv in H as (due & n & u & _ & _ & _ & Es & Et & Ec & _).
  apply (wf_snoc_aborted n u w); auto.
  intros t. rewrite Et. apply in_remove_nth.
Qed.

Lemma wf_resume k o w w' :
  wf w -> createWhatsAppBot_resume k o w = Some w' -> wf w'.
Proof.
  intros Hwf. unfold createWhatsAppBot_resume.
  destruct (nth_error (calls w) k) as [c|] eqn:Hk; [|discriminate].
  destruct (c_stage c) eqn:Hst; try discriminate.
  assert (Hfail : wf (with_call k
            (fun c0 => settle (reject ThrownByHost) (set_stage Aborted c0)) w)).
  { destruct Hwf as [Hnd He Ht Hc]. constructor.
    - now rewrite sessions_with_call.
    - intros sid s. rewrite sessions_with_call. intros H.
      destruct (He _ _ H) as (A & B & c' & C & D & E).
      repeat split; auto. exists c'. split; auto.
      rewrite calls_with_call_ne; auto. intros Heq. congruence.
    - intros d j. rewrite timers_with_call. intros H.
      destruct (Ht _ _ H) as (c' & C & D). exists c'. split; auto.
      rewrite calls_with_call_ne; auto. intros Heq. congruence.
    - intros j c' H.
      apply calls_with_call_inv in H as (c0 & Hc0 & [[_ ->]|[-> ->]]); eauto.
      destruct (Hc _ _ Hc0) as (H1 & H2 & H3 & H4).
      assert (c0 = c) as -> by congruence.
      repeat split; simpl; auto; try discriminate.
      * intros _. apply H2. congruence.
      * intros _. now rewrite (H3 Hst). }
  destruct o; intros H; injection H as <-; auto.
  destruct Hwf as [Hnd He Ht Hc]. constructor; simpl.
  - rewrite sessions_with_call. now apply JsMapFacts.NoDup_keys_set.
  - intros sid s. rewrite sessions_with_call. intros H.
    destruct (String.eqb_spec (c_sessionId c) sid) as [<-|Hne].
    + rewrite JsMapFacts.get_set_eq in H. injection H as <-.
      repeat split; simpl; auto.
      eexists. split; [now apply calls_with_call_eq with (c := c)|].
      simpl. repeat split; auto.
      apply (Hc _ _ Hk). congruence.
    + rewrite JsMapFacts.get_set_ne in H by assumption.
      destruct (He _ _ H) as (A & B & c' & C & D & E).
      repeat split; auto. exists c'. split; auto.
      simpl.
      rewrite calls_with_call_ne; auto. intros Heq. congruence.
  - intros d j. rewrite timers_with_call. intros H.
    apply in_app_or in H as [H|[H|[]]].
    + destruct (Ht _ _ H) as (c' & C & D). exists c'. split; auto.
      rewrite calls_with_call_ne; auto. intros Heq. congruence.
    + injection H as _ <-. eexists.
      split; [now apply calls_with_call_eq with (c := c)|reflexivity].
  - intros j c' H.
    apply calls_with_call_inv in H as (c0 & Hc0 & [[_ ->]|[-> ->]]); eauto.
    destruct (Hc _ _ Hc0) as (H1 & H2 & H3 & H4).
    repeat split; simpl; auto; try discriminate; try tauto.
Qed.

Lemma wf_update k u w w' :
  wf w -> on_connection_update k u w = Some w' -> wf w'.
Proof.
  intros Hwf. unfold on_connection_update.
  destruct (nth_error (calls w) k) as [c|] eqn:Hk; [|discriminate].
  destruct (c_stage c) eqn:Hst; try discriminate.
  set (w1 := if truthy (qr u) && negb (qrCodeGenerated c) then _ else w).
  assert (Hw1 : wf w1).
  { subst w1. destruct (truthy (qr u) && negb (qrCodeGenerated c)); auto.
    apply wf_with_call_benign; auto.
    - apply (benign_flag_settle
               (fun c0 => resolve (mkPairingResult (c_sessionId c0) (qr u)))).
    - intros c0 Hc0. congruence. }
  clearbody w1. intros H; injection H as <-.
  destruct (connection u) as [[| |]|]; auto.
  - destruct (JsMap.get (c_sessionId c) (activeSessions w1)) eqn:Hg; auto.
    now apply wf_mark_connected.
  - destruct (shouldReconnect u).
    + now apply wf_setTimeout_reconnect.
    + now apply wf_delete.
Qed.

Lemma wf_fire i w w' : wf w -> fire_timer i w = Some w' -> wf w'.
Proof.
  intros Hwf. unfold fire_timer.
  destruct (nth_error (timers w) i) as [[due cb]|] eqn:Hi; [|discriminate].
  destruct (due <=? now w)%Z; [|discriminate].
  intros H; injection H as <-.
  set (w0 := mkWorld _ _ _ _ _).
  assert (Hw0 : wf w0).
  { destruct Hwf as [Hnd He Ht Hc]. constructor; simpl; auto.
    intros d k H. apply in_remove_nth in H. eauto. }
  assert (Hlive : forall k, cb = QrTimeoutCallback k ->
            forall c, nth_error (calls w0) k = Some c -> c_stage c = Live).
  { intros k -> c Hc. apply nth_error_In in Hi.
    destruct (wf_timer _ Hwf _ _ Hi) as (c' & Hc' & Hl).
    simpl in Hc. congruence. }
  clearbody w0. destruct cb as [n uid|k]; simpl.
  - now apply wf_begin.
  - destruct (nth_error (calls w0) k) as [c|]; auto.
    destruct (negb (qrCodeGenerated c)); auto.
    apply wf_with_call_benign; auto; [apply benign_settle|].
    apply (Hlive k eq_refl).
Qed.

Lemma wf_disconnect sid w : wf w -> wf (snd (disconnectBot sid w)).
Proof.
  intros Hwf. unfold disconnectBot.
  destruct (JsMap.get sid (activeSessions w)) as [session|] eqn:Hg; simpl; auto.
  destruct Hwf as [Hnd He Ht Hc].
  destruct (He _ _ Hg) as (_ & _ & c0 & Hc0 & Hst0 & Hsid0 & _).
  constructor; simpl.
  - rewrite sessions_with_call. now apply JsMapFacts.NoDup_keys_delete.
  - intros sid' s. rewrite sessions_with_call. intros H.
    destruct (String.eqb_spec sid sid') as [<-|Hne].
    + rewrite JsMapFacts.get_delete_eq in H by assumption. discriminate.
    + rewrite JsMapFacts.get_delete_ne in H by assumption.
      destruct (He _ _ H) as (A & B & c' & C & D & E & F).
      repeat split; auto. exists c'. split; auto. simpl.
      rewrite calls_with_call_ne; auto. intros Heq. congruence.
  - intros d j. rewrite timers_with_call. intros H.
    destruct (Ht _ _ H) as (c' & C & D).
    destruct (Nat.eq_dec j (socket session)) as [->|Hne].
    + exists (socket_end c'). split; [now apply calls_with_call_eq|assumption].
    + exists c'. split; auto. now rewrite calls_with_call_ne.
  - intros j c' H.
    apply calls_with_call_inv in H as (c1 & Hc1 & [[_ ->]|[-> ->]]); eauto.
    destruct (Hc _ _ Hc1) as (H1 & H2 & H3 & H4).
    assert (c1 = c0) as -> by congruence.
    repeat split; simpl; auto; intros Hl; exfalso; congruence.
Qed.

Lemma wf_step w e w' : wf w -> step w e = Some w' -> wf w'.
Proof.
  intros Hwf. destruct e as [n uid|k o|k u|i|sid|dt|n uid made|i made]; simpl.
  - intros H; injection H as <-. now apply wf_begin.
  - now apply wf_resume.
  - now apply wf_update.
  - now apply wf_fire.
  - intros H; injection H as <-. now apply wf_disconnect.
  - destruct (0 <=? dt)%Z; [|discriminate].
    intros H; injection H as <-. now apply (wf_ext w).
  - now apply wf_mkdir_throws.
  - now apply wf_fire_throws.
Qed.

Lemma wf_reachable w : reachable w -> wf w.
Proof.
  induction 1 as [t d|w e w' _ IH Hs]; [apply wf_boot | eapply wf_step; eauto].
Qed.

Lemma wf_run evs : forall w w', wf w -> run w evs = Some w' -> wf w'.
Proof.
  induction evs as [|e evs IH]; simpl; intros w w' Hwf H.
  - now injection H as <-.
  - destruct (step w e) as [w1|] eqn:Hs; [|discriminate].
    apply (IH w1 w'); [eapply wf_step; eassumption | assumption].
Qed.

Lemma reachable_run evs : forall w w',
    reachable w -> run w evs = Some w' -> reachable w'.
Proof.
  induction evs as [|e evs IH]; simpl; intros w w' Hr H.
  - now injection H as <-.
  - destruct (step w e) as [w1|] eqn:Hs; [|discriminate].
    apply (IH w1 w'); [eapply reach_step; eassumption | assumption].
Qed.

Lemma run_cons w e w' evs :
  step w e = Some w' -> run w (e :: evs) = run w' evs.
Proof. intros H. cbn [run]. now rewrite H. Qed.

End Preservation.

(** ** Queued timers *)

Lemma pending_snoc k ts t :
  pending_qr_timeouts k (ts ++ [t]) =
  pending_qr_timeouts k ts + (if is_qr_timeout k t then 1 else 0).
Proof.
  unfold pending_qr_timeouts. rewrite filter_app, length_app. simpl.
  now destruct (is_qr_timeout k t).
Qed.

Lemma pending_in k d ts :
  In (d, QrTimeoutCallback k) ts -> 1 <= pending_qr_timeouts k ts.
Proof.
  intros H. unfold pending_qr_timeouts.
  assert (Hf : In (d, QrTimeoutCallback k) (filter (is_qr_timeout k) ts)).
  { apply filter_In. split; auto. unfold is_qr_timeout; simpl.
    apply Nat.eqb_refl. }
  destruct (filter (is_qr_timeout k) ts); [destruct Hf | simpl; lia].
Qed.

Lemma pending_none k ts :
  (forall d, ~ In (d, QrTimeoutCallback k) ts) -> pending_qr_timeouts k ts = 0.
Proof.
  unfold pending_qr_timeouts. induction ts as [|[d cb] ts IH]; simpl; auto.
  intros H. unfold is_qr_timeout at 1. simpl.
  destruct cb as [n u|j]; [apply IH; intros d' Hd; apply (H d'); auto|].
  destruct (Nat.eqb_spec j k) as [->|Hne].
  - exfalso. apply (H d). auto.
  - apply IH. intros d' Hd. apply (H d'). auto.
Qed.

Lemma pending_remove_nth k i t ts :
  nth_error ts i = Some t ->
  pending_qr_timeouts k ts =
  pending_qr_timeouts k (remove_nth i ts) + (if is_qr_timeout k t then 1 else 0).
Proof.
  unfold pending_qr_timeouts. revert i.
  induction ts as [|a ts IH]; intros [|i]; simpl; try discriminate.
  - intros H; injection H as ->. destruct (is_qr_timeout k t); simpl; lia.
  - intros H. specialize (IH _ H).
    destruct (is_qr_timeout k a); simpl; lia.
Qed.

(** ** The pairing handshake *)

Lemma view_with_call_ne k j f w :
  j <> k -> view_of k (with_call j f w) = view_of k w.
Proof.
  intros H. unfold view_of. rewrite calls_with_call_ne; auto.
Qed.

Lemma view_with_call_eq k f w c :
  nth_error (calls w) k = Some c ->
  view_of k (with_call k f w) = Some (view (f c)).
Proof.
  intros H. unfold view_of. now rewrite (calls_with_call_eq _ _ _ _ H).
Qed.

Lemma view_with_call_same k j f w :
  (forall c, view (f c) = view c) ->
  view_of k (with_call j f w) = view_of k w.
Proof.
  intros Hf. destruct (Nat.eq_dec j k) as [->|Hne].
  - unfold view_of. destruct (nth_error (calls w) k) as [c|] eqn:E.
    + rewrite (calls_with_call_eq _ _ _ _ E). simpl. now rewrite Hf.
    + unfold with_call. now rewrite E, E.
  - now apply view_with_call_ne.
Qed.

Lemma view_snoc k c v (w w' : World) :
  calls w' = calls w ++ [c] -> view_of k w = Some v -> view_of k w' = Some v.
Proof.
  unfold view_of. intros -> H.
  destruct (nth_error (calls w) k) as [c0|] eqn:E; [|discriminate].
  now rewrite (nth_error_snoc_old _ c _ _ E).
Qed.

Section Handshake.
Context {host : Host}.

Lemma view_begin k n u w v :
  view_of k w = Some v -> view_of k (createWhatsAppBot_begin n u w) = Some v.
Proof. intros H. eapply view_snoc; eauto. reflexivity. Qed.

Lemma awaiting_ext k sid due w w' :
  view_of k w' = view_of k w -> timers w' = timers w ->
  (now w <= now w')%Z ->
  awaiting_qr k sid due w -> awaiting_qr k sid due w'.
Proof.
  intros Ev Et Hn (p & Hv & Hp). exists p. rewrite Ev, Et.
  split; auto. destruct Hp as [Hp|(A & B & C)]; auto.
  right. repeat split; auto. lia.
Qed.

Lemma awaiting_snoc k sid due w w' t :
  view_of k w' = view_of k w -> timers w' = timers w ++ [t] ->
  is_qr_timeout k t = false -> now w' = now w ->
  awaiting_qr k sid due w -> awaiting_qr k sid due w'.
Proof.
  intros Ev Et Ht Hn (p & Hv & Hp). exists p. rewrite Ev, Et, Hn.
  split; auto. rewrite pending_snoc, Ht, Nat.add_0_r.
  destruct Hp as [(A & B & C)|Hp]; auto.
  left. repeat split; auto. apply in_or_app; auto.
Qed.

(** Nothing changes for a waiting invocation when another call is
    aborted, whether a caller made it or a reconnect timer that leaves
    the queue. *)
Lemma awaiting_aborted_call k sid due w w' c :
  awaiting_qr k sid due w ->
  calls w' = calls w ++ [c] -> now w' = now w ->
  (timers w' = timers w \/
   exists i d n u, nth_error (timers w) i = Some (d, ReconnectCallback n u) /\
                   timers w' = remove_nth i (timers w)) ->
  awaiting_qr k sid due w'.
Proof.
  intros (p & Hv & Hp) Ec En Ht. exists p.
  split; [eapply view_snoc; eauto|]. rewrite En.
  destruct Ht as [->|(i & d & n & u & Hi & ->)]; auto.
  pose proof (pending_remove_nth k _ _ _ Hi) as Hcount.
  unfold is_qr_timeout in Hcount; simpl in Hcount.
  rewrite Nat.add_0_r in Hcount. rewrite <- Hcount.
  destruct Hp as [(A & B & C)|Hp]; auto. left. repeat split; auto.
  destruct (in_remove_nth_or i _ _ _ Hi C) as [E|E]; [discriminate|exact E].
Qed.

Lemma awaiting_step k sid due w e w' :
  awaiting_qr k sid due w -> step w e = Some w' -> delivers_qr k e = false ->
  awaiting_qr k sid due w'.
Proof.
  intros Haw Hs Hnq.
  destruct e as [n uid|j o|j u|i|sid0|dt|n uid made|i made]; simpl in Hs.
  - (* a caller starts another invocation *)
    injection Hs as <-. destruct Haw as (p & Hv & Hp).
    exists p. split; [now apply view_begin | exact Hp].
  - (* another invocation resumes *)
    unfold createWhatsAppBot_resume in Hs.
    destruct (nth_error (calls w) j) as [c|] eqn:Hj; [|discriminate].
    destruct (c_stage c) eqn:Hst; try discriminate.
    assert (Hne : j <> k).
    { intros ->. destruct Haw as (p & Hv & _).
      unfold view_of in Hv. rewrite Hj in Hv. unfold view in Hv.
      simpl in Hv. congruence. }
    destruct o; injection Hs as <-.
    + apply (awaiting_ext k sid due w); auto using view_with_call_ne,
        timers_with_call; rewrite ?now_with_call; lia.
    + apply (awaiting_ext k sid due w); auto using view_with_call_ne,
        timers_with_call; rewrite ?now_with_call; lia.
    + eapply (awaiting_snoc k sid due w); eauto; simpl.
      * unfold view_of. simpl. now rewrite calls_with_call_ne.
      * now rewrite timers_with_call.
      * unfold is_qr_timeout. simpl. now apply Nat.eqb_neq.
      * now rewrite now_with_call.
  - (* a connection update without artifact for [k] *)
    unfold on_connection_update in Hs.
    destruct (nth_error (calls w) j) as [c|] eqn:Hj; [|discriminate].
    destruct (c_stage c) eqn:Hst; try discriminate.
    set (w1 := if truthy (qr u) && negb (qrCodeGenerated c) then _ else w) in Hs.
    assert (Hw1 : view_of k w1 = view_of k w /\ timers w1 = timers w /\
                  now w1 = now w).
    { subst w1. destruct (truthy (qr u) && negb (qrCodeGenerated c)) eqn:Hq; auto.
      rewrite timers_with_call, now_with_call. repeat split; auto.
      apply view_with_call_ne. intros ->. simpl in Hnq.
      rewrite Nat.eqb_refl in Hnq. simpl in Hnq. rewrite Hnq in Hq. discriminate. }
    clearbody w1. destruct Hw1 as (Ev & Et & En). injection Hs as <-.
    assert (Haw1 : awaiting_qr k sid due w1).
    { apply (awaiting_ext k sid due w); auto. lia. }
    destruct (connection u) as [[| |]|]; auto.
    + destruct (JsMap.get (c_sessionId c) (activeSessions w1)); auto.
    + destruct (shouldReconnect u); auto.
      now apply (awaiting_snoc k sid due w1 _
                   ((now w1 + 5000)%Z,
                    ReconnectCallback (c_sessionName c) (c_userId c))).
  - (* a timer runs *)
    unfold fire_timer in Hs.
    destruct (nth_error (timers w) i) as [[d cb]|] eqn:Hi; [|discriminate].
    destruct (d <=? now w)%Z eqn:Hd; [|discriminate].
    apply Z.leb_le in Hd. injection Hs as <-.
    destruct Haw as (p & Hv & Hp).
    pose proof (pending_remove_nth k _ _ _ Hi) as Hcount.
    destruct cb as [n uid|j]; simpl.
    + (* the reconnect callback *)
      exists p. split; [now apply view_begin|].
      simpl. unfold is_qr_timeout in Hcount; simpl in Hcount.
      rewrite Nat.add_0_r in Hcount. rewrite <- Hcount.
      destruct Hp as [(A & B & C)|Hp]; auto. left. repeat split; auto.
      destruct (in_remove_nth_or i _ _ _ Hi C) as [E|E]; [discriminate|exact E].
    + (* a QR timer *)
      unfold is_qr_timeout in Hcount; simpl in Hcount.
      destruct (Nat.eqb_spec j k) as [->|Hne].
      * (* the timer of [k] itself *)
        destruct Hp as [(-> & B & C)|(_ & B & _)]; [|lia].
        assert (Hz : pending_qr_timeouts k (remove_nth i (timers w)) = 0) by lia.
        assert (Hdue : d = due).
        { destruct (in_remove_nth_or i _ _ _ Hi C) as [E|E]; [congruence|].
          apply pending_in in E. lia. }
        subst d. unfold view_of in Hv.
        destruct (nth_error (calls w) k) as [c|] eqn:Hk; [|discriminate].
        injection Hv as Hst Hfl Hpr Hsid. rewrite Hfl. simpl.
        exists (Rejected QrTimeoutError). split.
        -- erewrite view_with_call_eq by (simpl; eauto).
           unfold view; simpl. now rewrite Hst, Hfl, Hpr, Hsid.
        -- right. rewrite timers_with_call, now_with_call. simpl. auto.
      * (* the timer of another invocation *)
        rewrite Nat.add_0_r in Hcount.
        assert (Hrest : awaiting_qr k sid due
                          (mkWorld (now w) (activeSessions w) (calls w)
                                   (remove_nth i (timers w)) (dirs w))).
        { exists p. split; auto. simpl. rewrite <- Hcount.
          destruct Hp as [(A & B & C)|Hp]; auto. left. repeat split; auto.
          destruct (in_remove_nth_or i _ _ _ Hi C) as [E|E]; [congruence|exact E]. }
        destruct (nth_error (calls w) j) as [c|]; auto.
        destruct (negb (qrCodeGenerated c)); auto.
        eapply awaiting_ext; [| | |exact Hrest].
        -- now apply view_with_call_ne.
        -- now rewrite timers_with_call.
        -- rewrite now_with_call. lia.
  - (* disconnectBot *)
    injection Hs as <-. unfold disconnectBot.
    destruct (JsMap.get sid0 (activeSessions w)) as [s|]; simpl; auto.
    apply (awaiting_ext k sid due w); simpl.
    + now apply view_with_call_same.
    + now rewrite timers_with_call.
    + rewrite now_with_call. lia.
    + exact Haw.
  - (* time passes *)
    destruct (0 <=? dt)%Z eqn:Hdt; [|discriminate]. apply Z.leb_le in Hdt.
    injection Hs as <-. apply (awaiting_ext k sid due w); simpl; auto. lia.
  - (* a call whose directory creation throws *)
    apply mkdir_throws_inv in Hs as (En & _ & Et & Ec & _).
    eapply awaiting_aborted_call; eauto.
  - (* the reconnect callback, its directory creation throwing *)
    apply fire_timer_throws_inv in Hs
      as (d & n & u & Hi & _ & En & _ & Et & Ec & _).
    eapply awaiting_aborted_call; eauto.
    right. exists i, d, n, u. auto.
Qed.

Lemma delivered_ext k v w w' :
  view_of k w' = view_of k w -> delivered k v w -> delivered k v w'.
Proof. intros Ev (sid & Hv). exists sid. now rewrite Ev. Qed.

(** Once resolved, the promise of an invocation is out of reach of every
    later event. *)
Lemma delivered_step k v w e w' :
  delivered k v w -> step w e = Some w' -> delivered k v w'.
Proof.
  intros Hd Hs. pose proof Hd as (sid & Hv).
  destruct e as [n uid|j o|j u|i|sid0|dt|n uid made|i made]; simpl in Hs.
  - injection Hs as <-. exists sid. now apply view_begin.
  - unfold createWhatsAppBot_resume in Hs.
    destruct (nth_error (calls w) j) as [c|] eqn:Hj; [|discriminate].
    destruct (c_stage c) eqn:Hst; try discriminate.
    assert (Hne : j <> k).
    { intros ->. unfold view_of in Hv. rewrite Hj in Hv. unfold view in Hv.
      simpl in Hv. congruence. }
    destruct o; injection Hs as <-; apply (delivered_ext k v w); auto;
      unfold view_of; simpl; now rewrite calls_with_call_ne.
  - unfold on_connection_update in Hs.
    destruct (nth_error (calls w) j) as [c|] eqn:Hj; [|discriminate].
    destruct (c_stage c) eqn:Hst; try discriminate.
    set (w1 := if truthy (qr u) && negb (qrCodeGenerated c) then _ else w) in Hs.
    assert (Hw1 : view_of k w1 = view_of k w).
    { subst w1. destruct (truthy (qr u) && negb (qrCodeGenerated c)) eqn:Hq; auto.
      apply view_with_call_ne. intros ->.
      unfold view_of in Hv. rewrite Hj in Hv. unfold view in Hv. simpl in Hv.
      injection Hv as _ Hfl _ _. rewrite Hfl, andb_false_r in Hq. discriminate. }
    clearbody w1. injection Hs as <-. apply (delivered_ext k v w1).
    + destruct (connection u) as [[| |]|]; auto.
      * now destruct (JsMap.get (c_sessionId c) (activeSessions w1)).
      * now destruct (shouldReconnect u).
    + now apply (delivered_ext k v w).
  - unfold fire_timer in Hs.
    destruct (nth_error (timers w) i) as [[d cb]|] eqn:Hi; [|discriminate].
    destruct (d <=? now w)%Z; [|discriminate]. injection Hs as <-.
    set (w0 := mkWorld _ _ _ (remove_nth i (timers w)) _).
    assert (Hd0 : delivered k v w0) by (now apply (delivered_ext k v w)).
    destruct cb as [n uid|j]; simpl.
    + exists sid. now apply view_begin.
    + destruct (nth_error (calls w) j) as [c|] eqn:Hj; auto.
      destruct (negb (qrCodeGenerated c)) eqn:Hfl; auto.
      apply (delivered_ext k v w0); auto. apply view_with_call_ne. intros ->.
      unfold view_of in Hv. rewrite Hj in Hv. unfold view in Hv. simpl in Hv.
      injection Hv as _ Hfl' _ _. rewrite Hfl' in Hfl. discriminate.
  - injection Hs as <-. unfold disconnectBot.
    destruct (JsMap.get sid0 (activeSessions w)) as [s|]; simpl; auto.
    apply (delivered_ext k v w); auto.
    unfold view_of. simpl. now apply view_with_call_same.
  - destruct (0 <=? dt)%Z; [|discriminate]. injection Hs as <-.
    now apply (delivered_ext k v w).
  - apply mkdir_throws_inv in Hs as (_ & _ & _ & Ec & _).
    exists sid. eapply view_snoc; eauto.
  - apply fire_timer_throws_inv in Hs as (d & n & u & _ & _ & _ & _ & _ & Ec & _).
    exists sid. eapply view_snoc; eauto.
Qed.

Lemma delivered_run k v evs : forall w w',
    delivered k v w -> run w evs = Some w' -> delivered k v w'.
Proof.
  induction evs as [|e evs IH]; simpl; intros w w' Hd H.
  - now injection H as <-.
  - destruct (step w e) as [w1|] eqn:Hs; [|discriminate].
    apply (IH w1 w'); [eapply delivered_step; eassumption | assumption].
Qed.

Lemma awaiting_run k sid due evs : forall w w',
    awaiting_qr k sid due w -> run w evs = Some w' -> no_qr_for k evs = true ->
    awaiting_qr k sid due w'.
Proof.
  induction evs as [|e evs IH]; simpl; intros w w' Ha H Hq.
  - now injection H as <-.
  - destruct (step w e) as [w1|] eqn:Hs; [|discriminate].
    apply andb_true_iff in Hq as [Hq1 Hq2]. apply negb_true_iff in Hq1.
    apply (IH w1 w'); [eapply awaiting_step; eassumption | assumption | assumption].
Qed.

(** Right after the promise executor has run, the invocation waits for
    its artifact with the timer queued ten seconds ahead. *)
Lemma resume_awaiting k w0 w1 :
  wf w0 -> step w0 (AuthStateSettled k SocketCreated) = Some w1 ->
  exists c, nth_error (calls w0) k = Some c /\ c_stage c = Suspended /\
            awaiting_qr k (c_sessionId c) (now w0 + 10000) w1.
Proof.
  intros Hwf Hs. simpl in Hs. unfold createWhatsAppBot_resume in Hs.
  destruct (nth_error (calls w0) k) as [c|] eqn:Hk; [|discriminate].
  destruct (c_stage c) eqn:Hst; try discriminate. injection Hs as <-.
  destruct (wf_call _ Hwf _ _ Hk) as (_ & _ & Hp & _). specialize (Hp Hst).
  assert (Hv : view_of k
            (setTimeout (QrTimeoutCallback k) 10000
               (with_sessions
                  (JsMap.set (c_sessionId c)
                     (mkBotSession (c_sessionId c) k None false (c_userId c)))
                  (with_call k (fun c0 => set_qrCodeGenerated false (set_stage Live c0)) w0)))
            = Some (Live, false, Pending, c_sessionId c)).
  { unfold view_of. simpl. rewrite (calls_with_call_eq _ _ _ _ Hk).
    unfold view. simpl. now rewrite Hp. }
  exists c. repeat split; auto.
  exists Pending. split; [exact Hv|]. left. simpl.
  rewrite timers_with_call, now_with_call, pending_snoc. repeat split.
  - rewrite pending_none.
    + unfold is_qr_timeout. simpl. now rewrite Nat.eqb_refl.
    + intros d Hin. destruct (wf_timer _ Hwf _ _ Hin) as (c' & Hc' & Hl).
      congruence.
  - apply in_or_app. right. now left.
Qed.

(** An artifact that reaches a waiting invocation whose timer is still
    queued resolves the promise with it. *)
Lemma artifact_delivers k sid due w u :
  awaiting_qr k sid due w -> (now w < due)%Z -> truthy (qr u) = true ->
  exists w',
    step w (ConnectionUpdateEv k u) = Some w' /\
    view_of k w = Some (Live, false, Pending, sid) /\
    delivered k (mkPairingResult sid (qr u)) w'.
Proof.
  intros (p & Hv & Hp) Hlt Hq.
  destruct Hp as [(-> & _ & _)|(_ & _ & Hge)]; [|lia].
  unfold view_of in Hv.
  destruct (nth_error (calls w) k) as [c|] eqn:Hk; [|discriminate].
  unfold view in Hv. simpl in Hv. injection Hv as Hst Hfl Hpr Hsid.
  simpl. unfold on_connection_update. rewrite Hk, Hst, Hq, Hfl. simpl.
  eexists. split; [reflexivity|]. split.
  { unfold view_of. rewrite Hk. unfold view. simpl. congruence. }
  set (w1 := with_call k _ w).
  assert (Hd : delivered k (mkPairingResult sid (qr u)) w1).
  { exists sid. subst w1. rewrite (view_with_call_eq _ _ _ _ Hk).
    unfold view. simpl. now rewrite Hst, Hpr, Hsid. }
  clearbody w1. destruct (connection u) as [[| |]|]; auto.
  - destruct (JsMap.get (c_sessionId c) (activeSessions w1)); auto.
  - destruct (shouldReconnect u); now apply (delivered_ext k _ w1).
Qed.

Lemma view_promise k w st fl p sid :
  view_of k w = Some (st, fl, p, sid) -> promise_of k w = Some p.
Proof.
  unfold view_of, promise_of.
  destruct (nth_error (calls w) k) as [c|]; [|discriminate].
  unfold view. simpl. congruence.
Qed.

End Handshake.

(** ** The registry and the reconnect path *)

Lemma values_keys_own (m : JsMap.t BotSession) :
  (forall sid s, In (sid, s) m -> sessionId s = sid) ->
  map sessionId (JsMap.values m) = JsMap.keys m.
Proof.
  induction m as [|[k s] m IH]; simpl; auto.
  intros H. f_equal.
  - apply (H k s). now left.
  - apply IH. intros sid s' Hin. apply H. now right.
Qed.

Section Registry.
Context {host : Host}.

Lemma absent_step sid w e w' :
  getSessionStatus sid w = None -> step w e = Some w' ->
  registers sid w e = false -> getSessionStatus sid w' = None.
Proof.
  unfold getSessionStatus. intros Hn Hs Hreg.
  destruct e as [n uid|j o|j u|i|sid0|dt|n uid made|i made]; simpl in Hs.
  - now injection Hs as <-.
  - unfold createWhatsAppBot_resume in Hs. simpl in Hreg.
    destruct (nth_error (calls w) j) as [c|] eqn:Hj; [|discriminate].
    destruct (c_stage c); try discriminate.
    destruct o; injection Hs as <-; simpl; rewrite ?sessions_with_call; auto.
    rewrite JsMapFacts.get_set_ne; auto. now apply String.eqb_neq.
  - unfold on_connection_update in Hs.
    destruct (nth_error (calls w) j) as [c|] eqn:Hj; [|discriminate].
    destruct (c_stage c); try discriminate.
    set (w1 := if truthy (qr u) && negb (qrCodeGenerated c) then _ else w) in Hs.
    assert (Hw1 : activeSessions w1 = activeSessions w).
    { subst w1. destruct (truthy (qr u) && negb (qrCodeGenerated c)); auto.
      apply sessions_with_call. }
    clearbody w1. injection Hs as <-.
    destruct (connection u) as [[| |]|]; try (now rewrite Hw1).
    + destruct (JsMap.get (c_sessionId c) (activeSessions w1)) eqn:Hg;
        [|now rewrite Hw1].
      simpl. rewrite JsMapFacts.get_set_ne; [now rewrite Hw1|].
      intros E. rewrite E, Hw1 in Hg. congruence.
    + destruct (shouldReconnect u); simpl; [now rewrite Hw1|].
      destruct (String.eqb_spec (c_sessionId c) sid) as [->|Hne].
      * rewrite Hw1. now rewrite JsMapFacts.delete_absent.
      * rewrite JsMapFacts.get_delete_ne by assumption. now rewrite Hw1.
  - unfold fire_timer in Hs.
    destruct (nth_error (timers w) i) as [[d cb]|]; [|discriminate].
    destruct (d <=? now w)%Z; [|discriminate]. injection Hs as <-.
    destruct cb as [n uid|j]; simpl; auto.
    destruct (nth_error (calls w) j) as [c|]; auto.
    destruct (negb (qrCodeGenerated c)); auto.
    now rewrite sessions_with_call.
  - injection Hs as <-. unfold disconnectBot.
    destruct (JsMap.get sid0 (activeSessions w)) as [s|] eqn:Hg; simpl; auto.
    rewrite sessions_with_call.
    destruct (String.eqb_spec sid0 sid) as [->|Hne]; [congruence|].
    now rewrite JsMapFacts.get_delete_ne.
  - destruct (0 <=? dt)%Z; [|discriminate]. now injection Hs as <-.
  - apply mkdir_throws_inv in Hs as (_ & Es & _). now rewrite Es.
  - apply fire_timer_throws_inv in Hs as (d & n & u & _ & _ & _ & Es & _).
    now rewrite Es.
Qed.

Lemma absent_run sid evs : forall w w',
    getSessionStatus sid w = None -> run w evs = Some w' ->
    no_registration sid w evs = true -> getSessionStatus sid w' = None.
Proof.
  induction evs as [|e evs IH]; simpl; intros w w' Hn H Hq.
  - now injection H as <-.
  - destruct (step w e) as [w1|] eqn:Hs; [|discriminate].
    apply andb_true_iff in Hq as [Hq1 Hq2]. apply negb_true_iff in Hq1.
    apply (IH w1 w'); auto. eapply absent_step; eauto.
Qed.

Lemma in_values_get (w : World) (s : BotSession) :
  wf w -> In s (getActiveSessions w) ->
  getSessionStatus (sessionId s) w = Some s.
Proof.
  intros Hwf Hin. unfold getActiveSessions, JsMap.values in Hin.
  apply in_map_iff in Hin as ([sid s'] & Hs & Hin). simpl in Hs. subst s'.
  pose proof (JsMapFacts.in_get_some _ _ _ (wf_nodup _ Hwf) Hin) as Hg.
  destruct (wf_entry _ Hwf _ _ Hg) as (-> & _). exact Hg.
Qed.

(** What a transient close sets in motion, step by step: the reconnect
    timer is queued five seconds ahead and the registry is left alone;
    when the timer runs, [createWhatsAppBot] is invoked again with the same
    arguments; when that invocation's executor runs, the entry is
    replaced by a fresh one with [isConnected] false; an [open] update on
    the new socket then sets it to true. *)
Lemma recreation_path (w : World) (k : nat) (c : Invocation) (u : ConnectionUpdate) :
  wf w -> nth_error (calls w) k = Some c -> c_stage c = Live ->
  connection u = Some ConnClose -> shouldReconnect u = true ->
  let k' := length (calls w) in
  let sid := c_sessionId c in
  exists w1 w2 w3 w4 w5,
    step w (ConnectionUpdateEv k u) = Some w1 /\
    activeSessions w1 = activeSessions w /\
    timers w1 = timers w ++
      [((now w + 5000)%Z, ReconnectCallback (c_sessionName c) (c_userId c))] /\
    step w1 (Elapse 5000) = Some w2 /\
    step w2 (TimerFires (length (timers w))) = Some w3 /\
    nth_error (calls w3) k' =
      Some (mkInvocation (c_sessionName c) (c_userId c) sid Suspended false Pending false) /\
    activeSessions w3 = activeSessions w /\
    step w3 (AuthStateSettled k' SocketCreated) = Some w4 /\
    getSessionStatus sid w4 = Some (mkBotSession sid k' None false (c_userId c)) /\
    step w4 (ConnectionUpdateEv k' (mkUpdate (Some ConnOpen) None None)) = Some w5 /\
    getSessionStatus sid w5 = Some (mkBotSession sid k' None true (c_userId c)).
Proof.
  intros Hwf Hk Hst Hclose Hre k' sid.
  destruct (wf_call _ Hwf _ _ Hk) as (Hsid & _).
  (* the close event *)
  simpl. unfold on_connection_update at 1. rewrite Hk, Hst, Hclose, Hre.
  set (w0 := if truthy (qr u) && negb (qrCodeGenerated c) then _ else w).
  assert (Hw0 : activeSessions w0 = activeSessions w /\ timers w0 = timers w /\
                now w0 = now w /\ length (calls w0) = length (calls w)).
  { subst w0. destruct (truthy (qr u) && negb (qrCodeGenerated c)); auto.
    now rewrite sessions_with_call, timers_with_call, now_with_call,
      length_calls_with_call. }
  clearbody w0. destruct Hw0 as (Es & Et & En & El).
  eexists. eexists. eexists. eexists. eexists.
  split; [reflexivity|]. split; [exact Es|]. simpl.
  split; [now rewrite Et, En|]. split; [reflexivity|].
  (* the timer *)
  unfold fire_timer. simpl. rewrite Et, En.
  rewrite nth_error_snoc_new, remove_nth_snoc.
  replace (now w + 5000 <=? now w + 5000)%Z with true by (symmetry; apply Z.leb_refl).
  split; [reflexivity|]. simpl.
  assert (Hnew : nth_error
            (calls w0 ++ [mkInvocation (c_sessionName c) (c_userId c)
                            (make_sessionId (c_userId c) (c_sessionName c))
                            Suspended false Pending false]) k' =
            Some (mkInvocation (c_sessionName c) (c_userId c) sid
                    Suspended false Pending false)).
  { subst k' sid. rewrite <- El, nth_error_snoc_new. now rewrite Hsid. }
  split; [exact Hnew|]. split; [exact Es|].
  (* the executor of the new invocation *)
  unfold createWhatsAppBot_resume. simpl. rewrite Hnew. simpl.
  split; [reflexivity|].
  unfold getSessionStatus. simpl. rewrite sessions_with_call. simpl.
  split; [apply JsMapFacts.get_set_eq|].
  (* the open event on the new socket *)
  unfold on_connection_update. simpl.
  erewrite calls_with_call_eq by (simpl; exact Hnew). simpl.
  rewrite sessions_with_call. simpl. rewrite JsMapFacts.get_set_eq.
  split; [reflexivity|]. simpl. apply JsMapFacts.get_set_eq.
Qed.

End Registry.

(** ** The credential directory *)

Lemma split_slash_no_slash (s : string) :
  no_slash s = true -> split_slash s = [s].
Proof.
  induction s as [|c s IH]; simpl; auto.
  intros H. apply andb_true_iff in H as [Hc Hs].
  apply negb_true_iff in Hc. rewrite Hc, (IH Hs). reflexivity.
Qed.

Lemma push_segment_plain (stack : list string) (seg : string) :
  seg <> "" -> seg <> "." -> seg <> ".." ->
  push_segment stack seg = seg :: stack.
Proof.
  intros H1 H2 H3. unfold push_segment.
  apply String.eqb_neq in H1, H2, H3. now rewrite H1, H2, H3.
Qed.

Section CredentialDirectory.
Context {host : Host}.

(** A session id always contains the hyphen, so it is none of the
    segments that normalisation drops. *)
Lemma make_sessionId_plain_segment (uid sessionName : string) :
  make_sessionId uid sessionName <> "" /\
  make_sessionId uid sessionName <> "." /\
  make_sessionId uid sessionName <> "..".
Proof.
  unfold make_sessionId.
  destruct uid as [|a [|b uid]]; simpl; repeat split; try discriminate.
  intros H. injection H as _ _ H. destruct uid; discriminate.
Qed.

(** For a session id without a slash, the credential directory is the
    single directory [auth_sessions/<sessionId>] under the working
    directory, and it exists once [createWhatsAppBot] has reached its
    await. *)
Lemma authDir_of_plain_sessionId (uid sessionName : string) (w : World) :
  no_slash (make_sessionId uid sessionName) = true ->
  authDir_of (make_sessionId uid sessionName) =
    process_cwd ++ ["auth_sessions"; make_sessionId uid sessionName] /\
  basename (authDir_of (make_sessionId uid sessionName)) =
    Some (make_sessionId uid sessionName) /\
  existsSync (authDir_of (make_sessionId uid sessionName))
             (dirs (createWhatsAppBot_begin sessionName uid w)) = true.
Proof.
  intros Hns. set (sid := make_sessionId uid sessionName) in *.
  destruct (make_sessionId_plain_segment uid sessionName) as (H1 & H2 & H3).
  fold sid in H1, H2, H3.
  assert (Hdir : authDir_of sid = process_cwd ++ ["auth_sessions"; sid]).
  { unfold authDir_of, path_join. simpl flat_map.
    rewrite (split_slash_no_slash _ Hns). simpl.
    rewrite push_segment_plain by assumption.
    simpl. rewrite rev_involutive.
    change (process_cwd ++ ["auth_sessions"] ++ [sid])
      with (process_cwd ++ ["auth_sessions"; sid]).
    now rewrite <- app_assoc. }
  split; [exact Hdir|]. split.
  - rewrite Hdir. unfold basename.
    change ["auth_sessions"; sid] with (["auth_sessions"] ++ [sid]).
    rewrite app_assoc, map_app. simpl. apply last_last.
  - unfold createWhatsAppBot_begin. simpl. fold sid.
    destruct (existsSync (authDir_of sid) (dirs w)) eqn:He; [exact He|].
    unfold existsSync at 1.
    destruct (List.in_dec path_eq_dec (authDir_of sid)
                (mkdirSync_recursive (authDir_of sid) (dirs w))) as [|Hnin]; auto.
    exfalso. apply Hnin. unfold mkdirSync_recursive.
    apply in_or_app. right. apply filter_In. split; [|now rewrite He].
    unfold ancestors_and_self. apply in_map_iff.
    exists (length (authDir_of sid)). split; [apply firstn_all|].
    apply in_seq. rewrite Hdir, length_app. simpl. lia.
Qed.

End CredentialDirectory.

(** ** The reference run is reachable *)

Lemma reachable_w_called : reachable w_called.
Proof. exact (reach_step _ (CallCreate "mybot" "user-1") _ (reach_boot 0 []) eq_refl). Qed.

Lemma reachable_w_started : reachable w_started.
Proof.
  exact (reach_step _ (AuthStateSettled 0 SocketCreated) _ reachable_w_called eq_refl).
Qed.

Lemma reachable_w_open : reachable w_open.
Proof.
  exact (reach_step _ (ConnectionUpdateEv 0 upd_open) _ reachable_w_started eq_refl).
Qed.

Lemma reachable_w_timed_out : reachable w_timed_out.
Proof.
  apply (reachable_run [Elapse 10000; TimerFires 0] w_started);
    [exact reachable_w_started | reflexivity].
Qed.

Lemma reachable_w_recreating : reachable w_recreating.
Proof.
  apply (reachable_run
           [ConnectionUpdateEv 0 (upd_close (Some 428%Z)); Elapse 5000; TimerFires 1]
           w_open);
    [exact reachable_w_open | reflexivity].
Qed.

(** * Part III: properties of the session manager *)

(** ** Pairing: one artifact, or the timeout *)

Section PairingClaims.
Context {host : Host}.

(** C1. An invocation whose executor ran at [w0] and that has seen no
    artifact yet resolves, on the first artifact event processed before
    its ten seconds are over, with [{sessionId, qrCode}] of that event;
    whatever happens afterwards (further artifacts, the timer, anything
    else) the promise keeps that value. *)
Theorem createWhatsAppBot_resolves_once_with_first_qr
    (w0 w1 w2 : World) (k : nat) (evs : list Event) (u : ConnectionUpdate) :
  reachable w0 ->
  step w0 (AuthStateSettled k SocketCreated) = Some w1 ->
  run w1 evs = Some w2 ->
  no_qr_for k evs = true ->
  (now w2 < now w0 + 10000)%Z ->
  truthy (qr u) = true ->
  exists c w3,
    nth_error (calls w0) k = Some c /\
    c_sessionId c = make_sessionId (c_userId c) (c_sessionName c) /\
    promise_of k w2 = Some Pending /\
    step w2 (ConnectionUpdateEv k u) = Some w3 /\
    promise_of k w3 = Some (Fulfilled (mkPairingResult (c_sessionId c) (qr u))) /\
    forall evs' w4,
      run w3 evs' = Some w4 ->
      promise_of k w4 = Some (Fulfilled (mkPairingResult (c_sessionId c) (qr u))).
Proof.
  intros Hr Hs Hrun Hnq Hlt Hq.
  pose proof (wf_reachable _ Hr) as Hwf.
  destruct (resume_awaiting _ _ _ Hwf Hs) as (c & Hk & _ & Haw).
  pose proof (awaiting_run _ _ _ _ _ _ Haw Hrun Hnq) as Haw2.
  destruct (artifact_delivers _ _ _ _ u Haw2 Hlt Hq) as (w3 & Hs3 & Hv2 & Hd).
  exists c, w3. repeat split; auto.
  - apply (wf_call _ Hwf _ _ Hk).
  - eapply view_promise; eauto.
  - destruct Hd as (sid & Hv). eapply view_promise; eauto.
  - intros evs' w4 Hrun'.
    destruct (delivered_run _ _ _ _ _ Hd Hrun') as (sid & Hv).
    eapply view_promise; eauto.
Qed.


End PairingClaims.

(** ** Connection lifecycle *)

Section LifecycleClaims.
Context {host : Host}.

(** C3. In a reachable world, an invocation whose promise was rejected
    with the QR timeout error did create its socket; the timer callback
    that rejects it leaves the registry as it is; whatever entry stands
    under its [sessionId] holds a socket that [makeWASocket] returned for
    that session and on which [end()] was never called; and when the
    executor fails before a socket exists, the registry is not touched. *)
Theorem timeout_keeps_entry_only_with_socket
    (w : World) (k : nat) (c : Invocation) :
  reachable w ->
  nth_error (calls w) k = Some c ->
  (c_promise c = Rejected QrTimeoutError -> c_stage c = Live) /\
  (forall i d w',
      nth_error (timers w) i = Some (d, QrTimeoutCallback k) ->
      step w (TimerFires i) = Some w' ->
      activeSessions w' = activeSessions w) /\
  (forall s,
      getSessionStatus (c_sessionId c) w = Some s ->
      exists c', nth_error (calls w) (socket s) = Some c' /\
                 c_stage c' = Live /\ c_socketEnded c' = false /\
                 c_sessionId c' = c_sessionId c) /\
  (forall o w',
      o <> SocketCreated ->
      step w (AuthStateSettled k o) = Some w' ->
      activeSessions w' = activeSessions w /\
      promise_of k w' = Some (Rejected ThrownByHost)).
Proof.
  intros Hr Hk. pose proof (wf_reachable _ Hr) as Hwf.
  destruct (wf_call _ Hwf _ _ Hk) as (_ & _ & Hsus & Habo).
  split; [|split; [|split]].
  - intros Hp. destruct (c_stage c); auto.
    + rewrite Hsus in Hp by reflexivity. discriminate.
    + rewrite Habo in Hp by reflexivity. discriminate.
  - intros i d w' Hi Hs. simpl in Hs. unfold fire_timer in Hs.
    rewrite Hi in Hs. destruct (d <=? now w)%Z; [|discriminate].
    injection Hs as <-. simpl. rewrite Hk.
    destruct (negb (qrCodeGenerated c)); auto. now rewrite sessions_with_call.
  - intros s Hg. destruct (wf_entry _ Hwf _ _ Hg) as (_ & _ & c' & A & B & C & D & _).
    exists c'. auto.
  - intros o w' Ho Hs. simpl in Hs. unfold createWhatsAppBot_resume in Hs.
    rewrite Hk in Hs. destruct (c_stage c) eqn:Hst; try discriminate.
    unfold promise_of.
    destruct o; try congruence; injection Hs as <-;
      rewrite sessions_with_call, (calls_with_call_eq _ _ _ _ Hk); simpl;
      now rewrite Hsus.
Qed.

(** C4, as amended. A transient close leaves the registry entry as it
    is, so [isConnected] keeps its value; the flag reads false once the
    re-creation queued by the close has run its executor and stored a
    fresh entry for the session. *)
Theorem transient_close_resets_flag_on_recreation
    (w : World) (k : nat) (c : Invocation) (u : ConnectionUpdate) :
  reachable w ->
  nth_error (calls w) k = Some c -> c_stage c = Live ->
  connection u = Some ConnClose -> shouldReconnect u = true ->
  exists w1 w3 w4,
    step w (ConnectionUpdateEv k u) = Some w1 /\
    activeSessions w1 = activeSessions w /\
    run w1 [Elapse 5000; TimerFires (length (timers w))] = Some w3 /\
    activeSessions w3 = activeSessions w /\
    step w3 (AuthStateSettled (length (calls w)) SocketCreated) = Some w4 /\
    exists s, getSessionStatus (c_sessionId c) w4 = Some s /\
              isConnected s = false /\ socket s = length (calls w).
Proof.
  intros Hr Hk Hst Hclose Hre. pose proof (wf_reachable _ Hr) as Hwf.
  destruct (recreation_path w k c u Hwf Hk Hst Hclose Hre)
    as (w1 & w2 & w3 & w4 & w5 & S1 & E1 & T1 & S2 & S3 & N3 & E3 & S4 & G4 & _).
  exists w1, w3, w4. repeat split; auto.
  - now rewrite (run_cons _ _ _ _ S2), (run_cons _ _ _ _ S3).
  - eexists. split; [exact G4|]. split; reflexivity.
Qed.

(** C5. A close update whose status code is [DisconnectReason.loggedOut]
    deletes the session: [getSessionStatus] finds nothing, no listed
    session carries the id, neither a timer nor an invocation is added,
    and the session stays absent for as long as no executor stores it
    anew. *)
Theorem logout_close_removes_session
    (w : World) (k : nat) (c : Invocation) (u : ConnectionUpdate) :
  reachable w ->
  nth_error (calls w) k = Some c -> c_stage c = Live ->
  connection u = Some ConnClose ->
  statusCode u = Some DisconnectReason_loggedOut ->
  exists w',
    step w (ConnectionUpdateEv k u) = Some w' /\
    getSessionStatus (c_sessionId c) w' = None /\
    (forall s, In s (getActiveSessions w') -> sessionId s <> c_sessionId c) /\
    timers w' = timers w /\
    length (calls w') = length (calls w) /\
    forall evs w'',
      run w' evs = Some w'' -> no_registration (c_sessionId c) w' evs = true ->
      getSessionStatus (c_sessionId c) w'' = None.
Proof.
  intros Hr Hk Hst Hclose Hcode.
  destruct (step w (ConnectionUpdateEv k u)) as [w'|] eqn:Hs.
  2:{ simpl in Hs. unfold on_connection_update in Hs.
      rewrite Hk, Hst in Hs. discriminate. }
  pose proof (wf_reachable _ (reach_step _ _ _ Hr Hs)) as Hwf'.
  pose proof (wf_reachable _ Hr) as Hwf.
  exists w'. split; auto.
  simpl in Hs. unfold on_connection_update in Hs.
  rewrite Hk, Hst, Hclose in Hs. unfold shouldReconnect in Hs.
  rewrite Hcode, Z.eqb_refl in Hs. simpl in Hs.
  set (w1 := if truthy (qr u) && negb (qrCodeGenerated c) then _ else w) in Hs.
  assert (Hw1 : activeSessions w1 = activeSessions w /\ timers w1 = timers w /\
                length (calls w1) = length (calls w)).
  { subst w1. destruct (truthy (qr u) && negb (qrCodeGenerated c)); auto.
    now rewrite sessions_with_call, timers_with_call, length_calls_with_call. }
  clearbody w1. destruct Hw1 as (Es & Et & El). injection Hs as <-.
  assert (Hgone : getSessionStatus (c_sessionId c)
                    (with_sessions (JsMap.delete (c_sessionId c)) w1) = None).
  { unfold getSessionStatus. simpl. rewrite Es.
    apply JsMapFacts.get_delete_eq, (wf_nodup _ Hwf). }
  split; [exact Hgone|]. split; [|split; [exact Et|split; [exact El|]]].
  - intros s Hin Heq. apply (in_values_get _ _ Hwf') in Hin.
    rewrite Heq in Hin. congruence.
  - intros evs w'' Hrun Hq. eapply absent_run; eauto.
Qed.

(** C6. A close update with any other status code (or none) queues a
    timer five seconds ahead whose callback calls [createWhatsAppBot]
    with the same [sessionName] and [userId]; once it has run and the new
    invocation's executor has stored the session, an [open] update on the
    new socket sets [isConnected] to true, with no call from outside. *)
Theorem transient_close_schedules_recreation
    (w : World) (k : nat) (c : Invocation) (u : ConnectionUpdate) :
  reachable w ->
  nth_error (calls w) k = Some c -> c_stage c = Live ->
  connection u = Some ConnClose ->
  statusCode u <> Some DisconnectReason_loggedOut ->
  exists w1 w5,
    step w (ConnectionUpdateEv k u) = Some w1 /\
    timers w1 = timers w ++
      [((now w + 5000)%Z, ReconnectCallback (c_sessionName c) (c_userId c))] /\
    run w1 [Elapse 5000;
            TimerFires (length (timers w));
            AuthStateSettled (length (calls w)) SocketCreated;
            ConnectionUpdateEv (length (calls w)) (mkUpdate (Some ConnOpen) None None)]
      = Some w5 /\
    exists s, getSessionStatus (c_sessionId c) w5 = Some s /\
              isConnected s = true /\ socket s = length (calls w) /\
              userId s = c_userId c.
Proof.
  intros Hr Hk Hst Hclose Hcode. pose proof (wf_reachable _ Hr) as Hwf.
  assert (Hre : shouldReconnect u = true).
  { unfold shouldReconnect. destruct (statusCode u) as [code|]; auto.
    apply negb_true_iff, Z.eqb_neq. congruence. }
  destruct (recreation_path w k c u Hwf Hk Hst Hclose Hre)
    as (w1 & w2 & w3 & w4 & w5 & S1 & E1 & T1 & S2 & S3 & N3 & E3 & S4 & G4 & S5 & G5).
  exists w1, w5. repeat split; auto.
  - now rewrite (run_cons _ _ _ _ S2), (run_cons _ _ _ _ S3),
      (run_cons _ _ _ _ S4), (run_cons _ _ _ _ S5).
  - eexists. split; [exact G5|]. repeat split.
Qed.

End LifecycleClaims.

(** ** The registry *)

Section RegistryClaims.
Context {host : Host}.

(** C7. [disconnectBot] on an id that is not registered returns false
    and changes nothing.  On a registered id it returns true, calls
    [end()] on the stored socket and deletes the entry, after which
    [getSessionStatus] finds nothing for as long as no executor stores
    the session anew. *)
Theorem disconnectBot_spec (w : World) (sid : string) :
  reachable w ->
  (getSessionStatus sid w = None -> disconnectBot sid w = (false, w)) /\
  (forall s,
      getSessionStatus sid w = Some s ->
      exists w',
        disconnectBot sid w = (true, w') /\
        (exists c, nth_error (calls w') (socket s) = Some c /\
                   c_socketEnded c = true) /\
        getSessionStatus sid w' = None /\
        forall evs w'',
          run w' evs = Some w'' -> no_registration sid w' evs = true ->
          getSessionStatus sid w'' = None).
Proof.
  intros Hr. pose proof (wf_reachable _ Hr) as Hwf.
  unfold getSessionStatus at 1 2, disconnectBot. split.
  - intros Hn. now rewrite Hn.
  - intros s Hg. rewrite Hg. eexists. split; [reflexivity|].
    destruct (wf_entry _ Hwf _ _ Hg) as (_ & _ & c & Hc & _).
    assert (Hgone : getSessionStatus sid
              (with_sessions (JsMap.delete sid)
                 (with_call (socket s) socket_end w)) = None).
    { unfold getSessionStatus. simpl. rewrite sessions_with_call.
      apply JsMapFacts.get_delete_eq, (wf_nodup _ Hwf). }
    split; [|split; [exact Hgone|]].
    + exists (socket_end c). simpl. split; [now apply calls_with_call_eq|reflexivity].
    + intros evs w'' Hrun Hq. eapply absent_run; eauto.
Qed.

(** C8. In a reachable world the registry holds each key once and the
    listed sessions carry pairwise different [sessionId]s; an executor
    that stores a session whose id is already registered overwrites that
    entry in place, leaving the keys and the number of entries as they
    were. *)
Theorem registry_one_entry_per_session (w : World) :
  reachable w ->
  NoDup (JsMap.keys (activeSessions w)) /\
  NoDup (map sessionId (getActiveSessions w)) /\
  (forall k c old w',
      nth_error (calls w) k = Some c ->
      getSessionStatus (c_sessionId c) w = Some old ->
      step w (AuthStateSettled k SocketCreated) = Some w' ->
      JsMap.keys (activeSessions w') = JsMap.keys (activeSessions w) /\
      length (getActiveSessions w') = length (getActiveSessions w) /\
      getSessionStatus (c_sessionId c) w' =
        Some (mkBotSession (c_sessionId c) k None false (c_userId c))).
Proof.
  intros Hr. pose proof (wf_reachable _ Hr) as Hwf.
  pose proof (wf_nodup _ Hwf) as Hnd.
  split; [exact Hnd|]. split.
  - unfold getActiveSessions. rewrite values_keys_own; auto.
    intros sid s Hin. apply (JsMapFacts.in_get_some _ _ _ Hnd) in Hin.
    now destruct (wf_entry _ Hwf _ _ Hin).
  - intros k c old w' Hk Hg Hs. simpl in Hs.
    unfold createWhatsAppBot_resume in Hs. rewrite Hk in Hs.
    destruct (c_stage c); try discriminate. injection Hs as <-.
    unfold getSessionStatus, getActiveSessions, JsMap.values in *. simpl.
    rewrite sessions_with_call. apply JsMapFacts.get_some_in_keys in Hg.
    split; [now apply JsMapFacts.keys_set_present|].
    split; [|apply JsMapFacts.get_set_eq].
    rewrite !length_map. now apply JsMapFacts.length_set_present.
Qed.

(** C10. In a reachable world no registry entry has a [qrCode]: neither
    [getSessionStatus] nor [getActiveSessions] ever returns one. *)
Theorem registry_never_holds_qrCode (w : World) :
  reachable w ->
  (forall sid s, getSessionStatus sid w = Some s -> qrCode s = None) /\
  (forall s, In s (getActiveSessions w) -> qrCode s = None).
Proof.
  intros Hr. pose proof (wf_reachable _ Hr) as Hwf.
  assert (H1 : forall sid s, getSessionStatus sid w = Some s -> qrCode s = None).
  { intros sid s Hg. now destruct (wf_entry _ Hwf _ _ Hg) as (_ & Hq & _). }
  split; [exact H1|].
  intros s Hin. apply (H1 (sessionId s)). now apply in_values_get.
Qed.

End RegistryClaims.

(** ** Session id and credential directory *)

(** C9, at a session name that carries path segments.  User [u1] asking
    for the session ["x/../u2-bot"] gets a session id different from the
    one of user [u2]'s session ["bot"], yet both land in the same
    directory, whose name is not the first id. *)
Theorem authDir_not_named_by_sessionId :
  make_sessionId "u1" "x/../u2-bot" <> make_sessionId "u2" "bot" /\
  authDir_of (make_sessionId "u1" "x/../u2-bot") =
    authDir_of (make_sessionId "u2" "bot") /\
  authDir_of (make_sessionId "u1" "x/../u2-bot") =
    ["srv"; "app"; "auth_sessions"; "u2-bot"] /\
  basename (authDir_of (make_sessionId "u1" "x/../u2-bot")) <>
    Some (make_sessionId "u1" "x/../u2-bot") /\
  dirs (createWhatsAppBot_begin "x/../u2-bot" "u1" (boot 0 [])) =
    [["srv"]; ["srv"; "app"]; ["srv"; "app"; "auth_sessions"];
     ["srv"; "app"; "auth_sessions"; "u2-bot"]].
Proof.
  repeat split; try reflexivity; vm_compute; discriminate.
Qed.

(** ** The properties on the reference run *)

Lemma createWhatsAppBot_resolves_once_with_first_qr_witness :
  exists c w3,
    nth_error (calls w_called) 0 = Some c /\
    c_sessionId c = make_sessionId (c_userId c) (c_sessionName c) /\
    promise_of 0 (advance 2000 w_started) = Some Pending /\
    step (advance 2000 w_started) (ConnectionUpdateEv 0 (upd_qr "2@first")) = Some w3 /\
    promise_of 0 w3 =
      Some (Fulfilled (mkPairingResult (c_sessionId c) (Some "2@first"))) /\
    forall evs' w4,
      run w3 evs' = Some w4 ->
      promise_of 0 w4 =
        Some (Fulfilled (mkPairingResult (c_sessionId c) (Some "2@first"))).
Proof.
  apply (createWhatsAppBot_resolves_once_with_first_qr
           w_called w_started (advance 2000 w_started) 0 [Elapse 2000]
           (upd_qr "2@first")).
  - exact reachable_w_called.
  - reflexivity.
  - reflexivity.
  - reflexivity.
  - vm_compute. reflexivity.
  - reflexivity.
Defined.



Lemma timeout_keeps_entry_only_with_socket_witness :
  reachable w_timed_out /\
  nth_error (calls w_timed_out) 0 = Some c_timed_out /\
  c_stage c_timed_out = Live /\
  exists c', nth_error (calls w_timed_out) 0 = Some c' /\
             c_stage c' = Live /\ c_socketEnded c' = false /\
             c_sessionId c' = "user-1-mybot".
Proof.
  destruct (timeout_keeps_entry_only_with_socket
              w_timed_out 0 c_timed_out reachable_w_timed_out eq_refl)
    as (H1 & _ & H3 & _).
  split; [exact reachable_w_timed_out|]. split; [reflexivity|].
  split; [exact (H1 eq_refl)|].
  exact (H3 (mkBotSession "user-1-mybot" 0 None false "user-1") eq_refl).
Defined.

(** C4, as stated, fails: after [open] and then a close with status 428
    (connection closed), [getSessionStatus] still reports
    [isConnected = true]. *)
Lemma transient_close_leaves_isConnected_true :
  reachable w_open /\
  getSessionStatus "user-1-mybot" w_open =
    Some (mkBotSession "user-1-mybot" 0 None true "user-1") /\
  shouldReconnect (upd_close (Some 428%Z)) = true /\
  exists w',
    step w_open (ConnectionUpdateEv 0 (upd_close (Some 428%Z))) = Some w' /\
    getSessionStatus "user-1-mybot" w' =
      Some (mkBotSession "user-1-mybot" 0 None true "user-1") /\
    option_map isConnected (getSessionStatus "user-1-mybot" w') <> Some false.
Proof.
  split; [exact reachable_w_open|]. split; [reflexivity|]. split; [reflexivity|].
  eexists. split; [reflexivity|]. split; [reflexivity|]. discriminate.
Qed.

Lemma transient_close_resets_flag_on_recreation_witness :
  exists w1 w3 w4,
    step w_open (ConnectionUpdateEv 0 (upd_close (Some 428%Z))) = Some w1 /\
    activeSessions w1 = activeSessions w_open /\
    run w1 [Elapse 5000; TimerFires (length (timers w_open))] = Some w3 /\
    activeSessions w3 = activeSessions w_open /\
    step w3 (AuthStateSettled (length (calls w_open)) SocketCreated) = Some w4 /\
    exists s, getSessionStatus (c_sessionId c_waiting) w4 = Some s /\
              isConnected s = false /\ socket s = length (calls w_open).
Proof.
  apply (transient_close_resets_flag_on_recreation
           w_open 0 c_waiting (upd_close (Some 428%Z)));
    [exact reachable_w_open | reflexivity | reflexivity | reflexivity | reflexivity].
Defined.

Lemma logout_close_removes_session_witness :
  exists w',
    step w_open (ConnectionUpdateEv 0 (upd_close (Some 401%Z))) = Some w' /\
    getSessionStatus (c_sessionId c_waiting) w' = None /\
    (forall s, In s (getActiveSessions w') -> sessionId s <> c_sessionId c_waiting) /\
    timers w' = timers w_open /\
    length (calls w') = length (calls w_open) /\
    forall evs w'',
      run w' evs = Some w'' ->
      no_registration (c_sessionId c_waiting) w' evs = true ->
      getSessionStatus (c_sessionId c_waiting) w'' = None.
Proof.
  apply (logout_close_removes_session
           w_open 0 c_waiting (upd_close (Some 401%Z)));
    [exact reachable_w_open | reflexivity | reflexivity | reflexivity | reflexivity].
Defined.

Lemma transient_close_schedules_recreation_witness :
  exists w1 w5,
    step w_open (ConnectionUpdateEv 0 (upd_close None)) = Some w1 /\
    timers w1 = timers w_open ++
      [((now w_open + 5000)%Z,
        ReconnectCallback (c_sessionName c_waiting) (c_userId c_waiting))] /\
    run w1 [Elapse 5000;
            TimerFires (length (timers w_open));
            AuthStateSettled (length (calls w_open)) SocketCreated;
            ConnectionUpdateEv (length (calls w_open)) (mkUpdate (Some ConnOpen) None None)]
      = Some w5 /\
    exists s, getSessionStatus (c_sessionId c_waiting) w5 = Some s /\
              isConnected s = true /\ socket s = length (calls w_open) /\
              userId s = c_userId c_waiting.
Proof.
  apply (transient_close_schedules_recreation
           w_open 0 c_waiting (upd_close None));
    [exact reachable_w_open | reflexivity | reflexivity | reflexivity | discriminate].
Defined.

Lemma disconnectBot_spec_witness :
  (getSessionStatus "user-1-mybot" w_open = None ->
   disconnectBot "user-1-mybot" w_open = (false, w_open)) /\
  (forall s,
      getSessionStatus "user-1-mybot" w_open = Some s ->
      exists w',
        disconnectBot "user-1-mybot" w_open = (true, w') /\
        (exists c, nth_error (calls w') (socket s) = Some c /\
                   c_socketEnded c = true) /\
        getSessionStatus "user-1-mybot" w' = None /\
        forall evs w'',
          run w' evs = Some w'' ->
          no_registration "user-1-mybot" w' evs = true ->
          getSessionStatus "user-1-mybot" w'' = None).
Proof.
  exact (disconnectBot_spec w_open "user-1-mybot" reachable_w_open).
Defined.

Lemma registry_one_entry_per_session_witness :
  NoDup (JsMap.keys (activeSessions w_recreating)) /\
  NoDup (map sessionId (getActiveSessions w_recreating)) /\
  exists w',
    step w_recreating (AuthStateSettled 1 SocketCreated) = Some w' /\
    JsMap.keys (activeSessions w') = ["user-1-mybot"] /\
    length (getActiveSessions w') = 1 /\
    getSessionStatus "user-1-mybot" w' =
      Some (mkBotSession "user-1-mybot" 1 None false "user-1").
Proof.
  destruct (registry_one_entry_per_session w_recreating reachable_w_recreating)
    as (H1 & H2 & H3).
  split; [exact H1|]. split; [exact H2|].
  eexists. split; [reflexivity|].
  exact (H3 1 (mkInvocation "mybot" "user-1" "user-1-mybot" Suspended false Pending false)
            (mkBotSession "user-1-mybot" 0 None true "user-1") _
            eq_refl eq_refl eq_refl).
Defined.

Lemma registry_never_holds_qrCode_witness :
  (forall sid s, getSessionStatus sid w_open = Some s -> qrCode s = None) /\
  (forall s, In s (getActiveSessions w_open) -> qrCode s = None).
Proof.
  exact (registry_never_holds_qrCode w_open reachable_w_open).
Defined.

(** * Part IV: further properties of the session manager *)

(** ** A settled promise is final *)

Lemma resolve_settled v p : p <> Pending -> resolve v p = p.
Proof. now destruct p. Qed.

Lemma reject_settled e p : p <> Pending -> reject e p = p.
Proof. now destruct p. Qed.

Lemma promise_with_call k j f w p :
  promise_of k w = Some p ->
  (forall c, c_promise c = p -> c_promise (f c) = p) ->
  promise_of k (with_call j f w) = Some p.
Proof.
  unfold promise_of. intros Hp Hf.
  destruct (nth_error (calls w) k) as [c|] eqn:Hk; [|discriminate].
  injection Hp as Hp. destruct (Nat.eq_dec j k) as [->|Hne].
  - rewrite (calls_with_call_eq _ _ _ _ Hk). simpl. now rewrite (Hf c Hp).
  - rewrite calls_with_call_ne by congruence. rewrite Hk. simpl. congruence.
Qed.

Lemma promise_snoc k c p (w w' : World) :
  calls w' = calls w ++ [c] -> promise_of k w = Some p -> promise_of k w' = Some p.
Proof.
  unfold promise_of. intros -> H.
  destruct (nth_error (calls w) k) as [c0|] eqn:Hk; [|discriminate].
  now rewrite (nth_error_snoc_old _ _ _ _ Hk).
Qed.

Section SettledPromise.
Context {host : Host}.

Lemma settled_step k p w e w' :
  promise_of k w = Some p -> p <> Pending -> step w e = Some w' ->
  promise_of k w' = Some p.
Proof.
  intros Hp Hset Hs.
  destruct e as [n uid|j o|j u|i|sid0|dt|n uid made|i made]; simpl in Hs.
  - injection Hs as <-. unfold promise_of in *. simpl.
    destruct (nth_error (calls w) k) as [c|] eqn:Hk; [|discriminate].
    now rewrite (nth_error_snoc_old _ _ _ _ Hk).
  - unfold createWhatsAppBot_resume in Hs.
    destruct (nth_error (calls w) j) as [c|]; [|discriminate].
    destruct (c_stage c); try discriminate.
    destruct o; injection Hs as <-.
    + apply promise_with_call; auto. intros c0 <-. simpl. now apply reject_settled.
    + apply promise_with_call; auto. intros c0 <-. simpl. now apply reject_settled.
    + unfold promise_of. simpl. apply promise_with_call; auto.
  - unfold on_connection_update in Hs.
    destruct (nth_error (calls w) j) as [c|]; [|discriminate].
    destruct (c_stage c); try discriminate.
    set (w1 := if truthy (qr u) && negb (qrCodeGenerated c) then _ else w) in Hs.
    assert (Hw1 : promise_of k w1 = Some p).
    { subst w1. destruct (truthy (qr u) && negb (qrCodeGenerated c)); auto.
      apply promise_with_call; auto. intros c0 <-. simpl. now apply resolve_settled. }
    clearbody w1. injection Hs as <-.
    destruct (connection u) as [[| |]|]; auto.
    + now destruct (JsMap.get (c_sessionId c) (activeSessions w1)).
    + now destruct (shouldReconnect u).
  - unfold fire_timer in Hs.
    destruct (nth_error (timers w) i) as [[d cb]|]; [|discriminate].
    destruct (d <=? now w)%Z; [|discriminate]. injection Hs as <-.
    destruct cb as [n uid|j]; simpl.
    + unfold promise_of in *. simpl.
      destruct (nth_error (calls w) k) as [c|] eqn:Hk; [|discriminate].
      now rewrite (nth_error_snoc_old _ _ _ _ Hk).
    + destruct (nth_error (calls w) j) as [c|]; auto.
      destruct (negb (qrCodeGenerated c)); auto.
      apply (promise_with_call k j _
               (mkWorld (now w) (activeSessions w) (calls w)
                        (remove_nth i (timers w)) (dirs w))); auto.
      intros c0 <-. simpl. now apply reject_settled.
  - injection Hs as <-. unfold disconnectBot.
    destruct (JsMap.get sid0 (activeSessions w)) as [s|]; simpl; auto.
    unfold promise_of. simpl. apply promise_with_call; auto.
  - destruct (0 <=? dt)%Z; [|discriminate]. now injection Hs as <-.
  - apply mkdir_throws_inv in Hs as (_ & _ & _ & Ec & _).
    eapply promise_snoc; eauto.
  - apply fire_timer_throws_inv in Hs as (d & n & u & _ & _ & _ & _ & _ & Ec & _).
    eapply promise_snoc; eauto.
Qed.

(** X1. Once the promise of an invocation is fulfilled or rejected, no
    later event changes it: a QR that arrives after the timeout is not
    delivered through the call, and the timeout after a delivery does
    not reject it. *)
Theorem settled_promise_is_final
    (w w' : World) (k : nat) (p : Promise) (evs : list Event) :
  promise_of k w = Some p -> p <> Pending ->
  run w evs = Some w' ->
  promise_of k w' = Some p.
Proof.
  revert w. induction evs as [|e evs IH]; simpl; intros w Hp Hset Hrun.
  - now injection Hrun as <-.
  - destruct (step w e) as [w1|] eqn:Hs; [|discriminate].
    apply (IH w1); auto. eapply settled_step; eauto.
Qed.
End SettledPromise.

Lemma settled_promise_is_final_witness :
  exists w',
    run w_timed_out [ConnectionUpdateEv 0 (upd_qr "2@late"); Elapse 1000] = Some w' /\
    promise_of 0 w' = Some (Rejected QrTimeoutError) /\
    option_map qrCodeGenerated (nth_error (calls w') 0) = Some true.
Proof.
  eexists. split; [reflexivity|]. split; [|reflexivity].
  apply (settled_promise_is_final w_timed_out _ 0 (Rejected QrTimeoutError)
           [ConnectionUpdateEv 0 (upd_qr "2@late"); Elapse 1000]);
    [reflexivity | discriminate | reflexivity].
Defined.

(** ** Listing, lookup and ownership *)

Lemma append_inj_same_length (a b s t : string) :
  String.length a = String.length b ->
  (a ++ s)%string = (b ++ t)%string -> a = b /\ s = t.
Proof.
  revert b. induction a as [|x a IH]; intros [|y b]; simpl; try discriminate.
  - auto.
  - intros Hl H. injection Hl as Hl. injection H as -> H.
    destruct (IH b Hl H) as [-> ->]. auto.
Qed.

Section Ownership.
Context {host : Host}.

(** X2. In a reachable world [getActiveSessions] lists exactly the
    sessions that [getSessionStatus] finds under their own id. *)
Theorem listed_iff_found (w : World) (s : BotSession) :
  reachable w ->
  (In s (getActiveSessions w) <-> getSessionStatus (sessionId s) w = Some s).
Proof.
  intros Hr. pose proof (wf_reachable _ Hr) as Hwf. split.
  - now apply in_values_get.
  - intros Hg. unfold getSessionStatus in Hg.
    apply JsMapFacts.get_some_in in Hg.
    unfold getActiveSessions, JsMap.values.
    change s with (snd (sessionId s, s)). now apply in_map.
Qed.

(** X5. For user ids of one length (the ids are UUIDs), the session id
    determines the user and the session name. *)
Theorem make_sessionId_injective (uid1 uid2 name1 name2 : string) :
  String.length uid1 = String.length uid2 ->
  make_sessionId uid1 name1 = make_sessionId uid2 name2 ->
  uid1 = uid2 /\ name1 = name2.
Proof.
  unfold make_sessionId. intros Hl H.
  destruct (append_inj_same_length _ _ _ _ Hl H) as [-> H'].
  simpl in H'. now injection H' as ->.
Qed.

(** X6. In a reachable world every registered session belongs to an
    invocation of [createWhatsAppBot] that has created its socket: the
    entry's [userId] and [sessionId] are that invocation's, and the id is
    the one derived from its arguments. *)
Theorem registered_session_has_owner (w : World) (sid : string) (s : BotSession) :
  reachable w ->
  getSessionStatus sid w = Some s ->
  exists c,
    nth_error (calls w) (socket s) = Some c /\ c_stage c = Live /\
    userId s = c_userId c /\
    sessionId s = sid /\
    sid = make_sessionId (c_userId c) (c_sessionName c).
Proof.
  intros Hr Hg. pose proof (wf_reachable _ Hr) as Hwf.
  destruct (wf_entry _ Hwf _ _ Hg) as (Hs & _ & c & Hc & Hst & Hsid & _ & Hu).
  destruct (wf_call _ Hwf _ _ Hc) as (Hmk & _).
  exists c. repeat split; auto. congruence.
Qed.

(** X3. The [isConnected] flag of a session becomes true only through
    an [open] update handled by an invocation for that session id. *)
Theorem isConnected_set_only_by_open
    (w w' : World) (e : Event) (sid : string) (s' : BotSession) :
  reachable w ->
  step w e = Some w' ->
  getSessionStatus sid w' = Some s' -> isConnected s' = true ->
  (exists s, getSessionStatus sid w = Some s /\ isConnected s = true) \/
  (exists k u c,
      e = ConnectionUpdateEv k u /\ connection u = Some ConnOpen /\
      nth_error (calls w) k = Some c /\ c_sessionId c = sid).
Proof.
  intros Hr Hs Hg Hc. pose proof (wf_reachable _ Hr) as Hwf.
  unfold getSessionStatus in *.
  destruct e as [n uid|j o|j u|i|sid0|dt|n uid made|i made]; simpl in Hs.
  - injection Hs as <-. left. eauto.
  - unfold createWhatsAppBot_resume in Hs.
    destruct (nth_error (calls w) j) as [c|] eqn:Hj; [|discriminate].
    destruct (c_stage c); try discriminate.
    destruct o; injection Hs as <-; simpl in Hg;
      rewrite sessions_with_call in Hg; try (left; eauto; fail).
    destruct (String.eqb_spec (c_sessionId c) sid) as [E|Hne].
    + rewrite E, JsMapFacts.get_set_eq in Hg. injection Hg as <-. discriminate.
    + rewrite JsMapFacts.get_set_ne in Hg by assumption. left. eauto.
  - unfold on_connection_update in Hs.
    destruct (nth_error (calls w) j) as [c|] eqn:Hj; [|discriminate].
    destruct (c_stage c); try discriminate.
    set (w1 := if truthy (qr u) && negb (qrCodeGenerated c) then _ else w) in Hs.
    assert (Hw1 : activeSessions w1 = activeSessions w).
    { subst w1. destruct (truthy (qr u) && negb (qrCodeGenerated c)); auto.
      apply sessions_with_call. }
    clearbody w1. injection Hs as <-.
    destruct (connection u) as [[| |]|] eqn:Hconn.
    + destruct (String.eqb_spec (c_sessionId c) sid) as [E|Hne].
      * right. exists j, u, c. auto.
      * left. exists s'. split; auto.
        destruct (JsMap.get (c_sessionId c) (activeSessions w1)).
        -- simpl in Hg. rewrite JsMapFacts.get_set_ne in Hg by assumption.
           now rewrite <- Hw1.
        -- now rewrite <- Hw1.
    + left. exists s'. split; auto. now rewrite <- Hw1.
    + left. exists s'. split; auto.
      destruct (shouldReconnect u); simpl in Hg; [now rewrite <- Hw1|].
      rewrite Hw1 in Hg.
      destruct (String.eqb_spec (c_sessionId c) sid) as [E|Hne].
      * rewrite E, JsMapFacts.get_delete_eq in Hg; [discriminate|].
        apply (wf_nodup _ Hwf).
      * now rewrite JsMapFacts.get_delete_ne in Hg.
    + left. exists s'. split; auto. now rewrite <- Hw1.
  - left. exists s'. split; auto.
    unfold fire_timer in Hs.
    destruct (nth_error (timers w) i) as [[d cb]|]; [|discriminate].
    destruct (d <=? now w)%Z; [|discriminate]. injection Hs as <-.
    destruct cb as [n uid|j]; simpl in Hg; auto.
    destruct (nth_error (calls w) j) as [c|]; auto.
    destruct (negb (qrCodeGenerated c)); auto.
    now rewrite sessions_with_call in Hg.
  - left. exists s'. split; auto.
    injection Hs as <-. unfold disconnectBot in Hg.
    destruct (JsMap.get sid0 (activeSessions w)) as [s|] eqn:Hg0; simpl in Hg; auto.
    rewrite sessions_with_call in Hg.
    destruct (String.eqb_spec sid0 sid) as [E|Hne].
    + rewrite E, JsMapFacts.get_delete_eq in Hg; [discriminate|].
      apply (wf_nodup _ Hwf).
    + now rewrite JsMapFacts.get_delete_ne in Hg.
  - left. exists s'. split; auto.
    destruct (0 <=? dt)%Z; [|discriminate]. now injection Hs as <-.
  - left. exists s'. split; auto.
    apply mkdir_throws_inv in Hs as (_ & Es & _). now rewrite <- Es.
  - left. exists s'. split; auto.
    apply fire_timer_throws_inv in Hs as (d & n & u & _ & _ & _ & Es & _).
    now rewrite <- Es.
Qed.

(** X4. [disconnectBot] does not cancel a reconnect that is already
    queued: the session is gone right after the call, and when the
    queued timer runs and the new invocation's executor stores the
    session, it is registered again. *)
Theorem disconnectBot_keeps_queued_reconnect
    (w : World) (i : nat) (due : Z) (sessionName uid : string) :
  reachable w ->
  nth_error (timers w) i = Some (due, ReconnectCallback sessionName uid) ->
  (due <= now w)%Z ->
  let sid := make_sessionId uid sessionName in
  let w1 := snd (disconnectBot sid w) in
  getSessionStatus sid w1 = None /\
  exists w2 w3,
    step w1 (TimerFires i) = Some w2 /\
    step w2 (AuthStateSettled (length (calls w)) SocketCreated) = Some w3 /\
    getSessionStatus sid w3 =
      Some (mkBotSession sid (length (calls w)) None false uid).
Proof.
  intros Hr Hi Hdue sid w1. pose proof (wf_reachable _ Hr) as Hwf.
  assert (Hw1 : timers w1 = timers w /\ now w1 = now w /\
                length (calls w1) = length (calls w) /\
                getSessionStatus sid w1 = None).
  { subst w1. unfold disconnectBot, getSessionStatus.
    destruct (JsMap.get sid (activeSessions w)) as [s|] eqn:Hg; simpl.
    - rewrite timers_with_call, now_with_call, length_calls_with_call,
        sessions_with_call. repeat split.
      apply JsMapFacts.get_delete_eq, (wf_nodup _ Hwf).
    - auto. }
  clearbody w1. destruct Hw1 as (Et & En & El & Hn). split; [exact Hn|].
  simpl. unfold fire_timer. rewrite Et, En, Hi.
  apply Z.leb_le in Hdue. rewrite Hdue.
  eexists. eexists. split; [reflexivity|]. simpl.
  unfold createWhatsAppBot_resume. simpl.
  rewrite <- El, nth_error_snoc_new. simpl. split; [reflexivity|].
  unfold getSessionStatus. simpl. rewrite sessions_with_call. simpl.
  apply JsMapFacts.get_set_eq.
Qed.
End Ownership.

(** ** The credential directory of every invocation exists *)






Section DirectoryInvariant.
Context {host : Host}.







End DirectoryInvariant.

(** ** What changes the registry and the timer queue *)

Section OnlyCauses.
Context {host : Host}.

(** X18. The registry changes for a session id only in three ways: an
    entry appears when the executor of an invocation for that id stores
    it (with [isConnected] false and that invocation's socket), and an
    entry disappears only by [disconnectBot] on that id or by a close
    update with the logged-out status handled by an invocation for that
    id.  In particular the QR timeout and transient closes never remove
    a session. *)
Theorem registry_changes_only_by
    (w w' : World) (e : Event) (sid : string) :
  step w e = Some w' ->
  (forall s', getSessionStatus sid w = None -> getSessionStatus sid w' = Some s' ->
     exists k c,
       e = AuthStateSettled k SocketCreated /\
       nth_error (calls w) k = Some c /\ c_sessionId c = sid /\
       s' = mkBotSession sid k None false (c_userId c)) /\
  (forall s, getSessionStatus sid w = Some s -> getSessionStatus sid w' = None ->
     e = CallDisconnect sid \/
     exists k u c,
       e = ConnectionUpdateEv k u /\ connection u = Some ConnClose /\
       statusCode u = Some DisconnectReason_loggedOut /\
       nth_error (calls w) k = Some c /\ c_sessionId c = sid).
Proof.
  intros Hs. unfold getSessionStatus.
  destruct e as [n uid|j o|j u|i|sid0|dt|n uid made|i made]; simpl in Hs.
  - injection Hs as <-. simpl. split; intros; congruence.
  - unfold createWhatsAppBot_resume in Hs.
    destruct (nth_error (calls w) j) as [c|] eqn:Hj; [|discriminate].
    destruct (c_stage c); try discriminate.
    destruct o; injection Hs as <-; simpl; rewrite ?sessions_with_call;
      try (split; intros; congruence).
    destruct (String.eqb_spec (c_sessionId c) sid) as [E|Hne].
    + rewrite E, JsMapFacts.get_set_eq. split.
      * intros s' _ H. injection H as <-. exists j, c. rewrite <- E. auto.
      * intros; discriminate.
    + rewrite JsMapFacts.get_set_ne by assumption. split; intros; congruence.
  - unfold on_connection_update in Hs.
    destruct (nth_error (calls w) j) as [c|] eqn:Hj; [|discriminate].
    destruct (c_stage c); try discriminate.
    set (w1 := if truthy (qr u) && negb (qrCodeGenerated c) then _ else w) in Hs.
    assert (Hw1 : activeSessions w1 = activeSessions w).
    { subst w1. destruct (truthy (qr u) && negb (qrCodeGenerated c)); auto.
      apply sessions_with_call. }
    clearbody w1. injection Hs as <-.
    destruct (connection u) as [[| |]|] eqn:Hconn;
      try (rewrite Hw1; split; intros; congruence).
    + destruct (JsMap.get (c_sessionId c) (activeSessions w1)) as [s0|] eqn:Hg;
        [|rewrite Hw1; split; intros; congruence].
      simpl. destruct (String.eqb_spec (c_sessionId c) sid) as [E|Hne].
      * rewrite E, JsMapFacts.get_set_eq. rewrite E, Hw1 in Hg.
        split; intros; congruence.
      * rewrite JsMapFacts.get_set_ne by assumption. rewrite Hw1.
        split; intros; congruence.
    + unfold shouldReconnect.
      destruct (statusCode u) as [code|] eqn:Hcode;
        [|simpl; rewrite Hw1; split; intros; congruence].
      destruct (Z.eqb_spec code DisconnectReason_loggedOut) as [->|Hc]; simpl;
        [|rewrite Hw1; split; intros; congruence].
      rewrite Hw1.
      destruct (String.eqb_spec (c_sessionId c) sid) as [E|Hne].
      * split.
        -- intros s' Hn. rewrite E, (JsMapFacts.delete_absent _ _ Hn). congruence.
        -- intros s _ _. right. exists j, u, c. auto.
      * rewrite JsMapFacts.get_delete_ne by assumption. split; intros; congruence.
  - unfold fire_timer in Hs.
    destruct (nth_error (timers w) i) as [[d cb]|]; [|discriminate].
    destruct (d <=? now w)%Z; [|discriminate]. injection Hs as <-.
    destruct cb as [n uid|j]; simpl; [split; intros; congruence|].
    destruct (nth_error (calls w) j) as [c|]; [|simpl; split; intros; congruence].
    destruct (negb (qrCodeGenerated c)); rewrite ?sessions_with_call; simpl;
      split; intros; congruence.
  - injection Hs as <-. unfold disconnectBot.
    destruct (JsMap.get sid0 (activeSessions w)) as [s0|] eqn:Hg; simpl;
      [|split; intros; congruence].
    rewrite sessions_with_call.
    destruct (String.eqb_spec sid0 sid) as [E|Hne].
    + split; [intros; congruence|]. intros s _ _. left. now rewrite E.
    + rewrite JsMapFacts.get_delete_ne by assumption. split; intros; congruence.
  - destruct (0 <=? dt)%Z; [|discriminate]. injection Hs as <-.
    simpl. split; intros; congruence.
  - apply mkdir_throws_inv in Hs as (_ & Es & _). rewrite Es.
    split; intros; congruence.
  - apply fire_timer_throws_inv in Hs as (d & n & u & _ & _ & _ & Es & _).
    rewrite Es. split; intros; congruence.
Qed.

(** X19. A reconnect is only ever queued by a close update whose status
    is not the logged-out one: the new timer is due five seconds after
    the update and calls [createWhatsAppBot] with the arguments of the
    invocation whose socket closed. *)
Theorem reconnect_queued_only_by_transient_close
    (w w' : World) (e : Event) (due : Z) (sessionName uid : string) :
  step w e = Some w' ->
  In (due, ReconnectCallback sessionName uid) (timers w') ->
  In (due, ReconnectCallback sessionName uid) (timers w) \/
  exists k u c,
    e = ConnectionUpdateEv k u /\ connection u = Some ConnClose /\
    statusCode u <> Some DisconnectReason_loggedOut /\
    nth_error (calls w) k = Some c /\
    sessionName = c_sessionName c /\ uid = c_userId c /\
    due = (now w + 5000)%Z.
Proof.
  intros Hs Hin.
  destruct e as [n uid0|j o|j u|i|sid0|dt|n uid0 made|i made]; simpl in Hs.
  - injection Hs as <-. now left.
  - unfold createWhatsAppBot_resume in Hs.
    destruct (nth_error (calls w) j) as [c|] eqn:Hj; [|discriminate].
    destruct (c_stage c); try discriminate.
    destruct o; injection Hs as <-; simpl in Hin; rewrite ?timers_with_call in Hin;
      try (now left).
    apply in_app_or in Hin as [Hin|[Hin|[]]]; [now left|discriminate].
  - unfold on_connection_update in Hs.
    destruct (nth_error (calls w) j) as [c|] eqn:Hj; [|discriminate].
    destruct (c_stage c); try discriminate.
    set (w1 := if truthy (qr u) && negb (qrCodeGenerated c) then _ else w) in Hs.
    assert (Hw1 : timers w1 = timers w /\ now w1 = now w).
    { subst w1. destruct (truthy (qr u) && negb (qrCodeGenerated c)); auto.
      now rewrite timers_with_call, now_with_call. }
    clearbody w1. destruct Hw1 as [Et En]. injection Hs as <-.
    destruct (connection u) as [[| |]|] eqn:Hconn;
      try (left; now rewrite <- Et).
    + left. destruct (JsMap.get (c_sessionId c) (activeSessions w1));
        simpl in Hin; now rewrite <- Et.
    + destruct (shouldReconnect u) eqn:Hre; simpl in Hin;
        [|left; now rewrite <- Et].
      apply in_app_or in Hin as [Hin|[Hin|[]]]; [left; now rewrite <- Et|].
      injection Hin as <- <- <-. right. exists j, u, c.
      repeat split; auto; [|now rewrite En].
      intros Hcode. unfold shouldReconnect in Hre. rewrite Hcode in Hre.
      now rewrite Z.eqb_refl in Hre.
  - left. unfold fire_timer in Hs.
    destruct (nth_error (timers w) i) as [[d cb]|]; [|discriminate].
    destruct (d <=? now w)%Z; [|discriminate]. injection Hs as <-.
    assert (Hrem : In (due, ReconnectCallback sessionName uid)
                      (remove_nth i (timers w)) ->
                   In (due, ReconnectCallback sessionName uid) (timers w))
      by apply in_remove_nth.
    destruct cb as [n uid0|j]; simpl in Hin; auto.
    destruct (nth_error (calls w) j) as [c|]; auto.
    destruct (negb (qrCodeGenerated c)); auto.
    rewrite timers_with_call in Hin. auto.
  - left. injection Hs as <-. unfold disconnectBot in Hin.
    destruct (JsMap.get sid0 (activeSessions w)) as [s0|]; simpl in Hin; auto.
    now rewrite timers_with_call in Hin.
  - left. destruct (0 <=? dt)%Z; [|discriminate]. now injection Hs as <-.
  - left. apply mkdir_throws_inv in Hs as (_ & _ & Et & _). now rewrite <- Et.
  - left. apply fire_timer_throws_inv in Hs as (d & n & u & _ & _ & _ & _ & Et & _).
    rewrite Et in Hin. now apply in_remove_nth in Hin.
Qed.
End OnlyCauses.

(** * Part V: the store and the routes *)

(** ** Facts about selections and updates *)

Lemma find_map_same {A : Type} (p : A -> bool) (f : A -> A) (l : list A) :
  (forall x, p (f x) = p x) ->
  find p (map f l) = option_map f (find p l).
Proof.
  intros Hf. induction l as [|a l IH]; simpl; auto.
  rewrite Hf. destruct (p a); auto.
Qed.

Lemma find_snoc_none {A : Type} (p : A -> bool) (l : list A) (x : A) :
  find p l = None -> find p (l ++ [x]) = if p x then Some x else None.
Proof.
  induction l as [|a l IH]; simpl; auto.
  destruct (p a); [discriminate | exact IH].
Qed.

Lemma find_none_existsb {A : Type} (p : A -> bool) (l : list A) :
  find p l = None <-> existsb p l = false.
Proof.
  induction l as [|a l IH]; simpl; [tauto|].
  destruct (p a); simpl; [split; discriminate | exact IH].
Qed.

Lemma map_patch_id (g : User -> User) (id : string) (l : list User) :
  (forall u, In u l -> u_id u = id -> g u = u) ->
  map (fun u => if String.eqb (u_id u) id then g u else u) l = l.
Proof.
  induction l as [|a l IH]; simpl; auto.
  intros H. rewrite IH by (intros u Hu; apply H; now right).
  destruct (String.eqb_spec (u_id a) id) as [E|_]; auto.
  now rewrite (H a (or_introl eq_refl) E).
Qed.

Lemma apply_user_patch_id p u : u_id (apply_user_patch p u) = u_id u.
Proof. reflexivity. Qed.

Lemma apply_user_patch_email p u : u_email (apply_user_patch p u) = u_email u.
Proof. reflexivity. Qed.

(** What [updateUser] does when the database takes the statement. *)
Lemma updateUser_returns (id : string) (p : UserPatch) (db : Db) :
  match set_coins p with Some c => int4 c = true | None => True end ->
  updateUser id p db =
    DbReturns
      (option_map (apply_user_patch p) (getUser id db))
      (mkDb (map (fun u => if String.eqb (u_id u) id then apply_user_patch p u else u)
                 (users db))
            (deployments db)).
Proof.
  intros Hc.
  assert (Hfind :
    find (fun u => String.eqb (u_id u) id)
         (map (fun u => if String.eqb (u_id u) id then apply_user_patch p u else u)
              (users db)) =
    option_map (apply_user_patch p) (getUser id db)).
  { unfold getUser. induction (users db) as [|a l IH]; simpl; auto.
    destruct (String.eqb (u_id a) id) eqn:E; simpl.
    - now rewrite E.
    - now rewrite E. }
  unfold updateUser. destruct (set_coins p) as [c|]; [rewrite Hc|]; now rewrite Hfind.
Qed.

Lemma hoursDiff_lt_24 (timeDiff : Z) :
  negb (Qle_bool 24 (hoursDiff timeDiff)) = true <-> (timeDiff < 86400000)%Z.
Proof.
  rewrite negb_true_iff. unfold hoursDiff.
  destruct (Qle_bool 24 (timeDiff # 3600000)) eqn:E.
  - apply Qle_bool_iff in E. unfold Qle in E. simpl in E. split; [discriminate|lia].
  - split; auto. intros _.
    destruct (Z.lt_ge_cases timeDiff 86400000) as [H|H]; auto.
    assert (Hq : (24 <= timeDiff # 3600000)%Q) by (unfold Qle; simpl; lia).
    apply Qle_bool_iff in Hq. congruence.
Qed.

(** ** Who is told the status of a session *)

Section StatusRoute.
Context {host : Host}.

(** X8. [/api/bot-status] answers 200 only for a session stored by an
    invocation of [createWhatsAppBot] that ran with the requester's id;
    the answer carries the id asked for and the flag of that entry. *)
Theorem bot_status_only_for_owner
    (w : World) (user : User) (sid sid' : string) (connected : bool) :
  reachable w ->
  bot_status (Some user) sid w = BotStatus200 sid' connected ->
  sid' = sid /\
  exists s c,
    getSessionStatus sid w = Some s /\ isConnected s = connected /\
    nth_error (calls w) (socket s) = Some c /\ c_stage c = Live /\
    c_userId c = u_id user /\
    sid = make_sessionId (u_id user) (c_sessionName c).
Proof.
  intros Hr. unfold bot_status.
  destruct (getSessionStatus sid w) as [s|] eqn:Hg; [|discriminate].
  destruct (String.eqb_spec (userId s) (u_id user)) as [E|]; [|discriminate].
  simpl. intros H. injection H as <- <-.
  destruct (registered_session_has_owner w sid s Hr Hg)
    as (c & Hc & Hst & Hu & Hs & Hsid).
  split; auto. exists s, c. repeat split; auto; congruence.
Qed.

(** X9. When the user ids of all invocations have the length of the
    requester's id (they are UUIDs), a registered session created under
    the requester's id is reported to the requester and hidden (404)
    from every user with another id of that length. *)
Theorem bot_status_separates_users
    (w : World) (user other : User) (sessionName : string) (s : BotSession) :
  reachable w ->
  (forall k c, nth_error (calls w) k = Some c ->
               String.length (c_userId c) = String.length (u_id user)) ->
  getSessionStatus (make_sessionId (u_id user) sessionName) w = Some s ->
  u_id other <> u_id user ->
  bot_status (Some user) (make_sessionId (u_id user) sessionName) w =
    BotStatus200 (make_sessionId (u_id user) sessionName) (isConnected s) /\
  bot_status (Some other) (make_sessionId (u_id user) sessionName) w = BotStatus404.
Proof.
  intros Hr Hlen Hg Hother.
  destruct (registered_session_has_owner w _ s Hr Hg)
    as (c & Hc & Hst & Hu & Hs & Hsid).
  destruct (make_sessionId_injective _ _ _ _ (eq_sym (Hlen _ _ Hc)) Hsid) as [Eu En].
  unfold bot_status. rewrite Hg, Hs, Hu, <- Eu. split.
  - now rewrite String.eqb_refl.
  - destruct (String.eqb_spec (u_id user) (u_id other)); [congruence|reflexivity].
Qed.
End StatusRoute.

(** ** What a fulfilled promise carries *)

Section FulfilledValue.
Context {host : Host}.

Lemma fulfilled_ok_with_call k f w :
  (forall c v, nth_error (calls w) k = Some c ->
               c_promise (f c) = Fulfilled v ->
               res_sessionId v = c_sessionId (f c) /\ truthy (res_qrCode v) = true) ->
  fulfilled_ok w -> fulfilled_ok (with_call k f w).
Proof.
  intros Hf Hok j c' v Hj Hp.
  apply calls_with_call_inv in Hj as (c & Hc & [[_ ->]|[-> ->]]).
  - now apply (Hok j).
  - now apply (Hf c).
Qed.

Lemma fulfilled_ok_begin n uid w :
  fulfilled_ok w -> fulfilled_ok (createWhatsAppBot_begin n uid w).
Proof.
  intros Hok j c v Hj Hp. simpl in Hj.
  apply nth_error_snoc in Hj as [Hj|[_ ->]]; [now apply (Hok j)|discriminate].
Qed.

Lemma fulfilled_ok_snoc_aborted w w' c :
  calls w' = calls w ++ [c] -> c_promise c = Rejected ThrownByHost ->
  fulfilled_ok w -> fulfilled_ok w'.
Proof.
  intros Ec Hc Hok j c' v Hj Hp. rewrite Ec in Hj.
  apply nth_error_snoc in Hj as [Hj|[_ ->]]; [now apply (Hok j)|congruence].
Qed.

Lemma fulfilled_ok_step w e w' :
  fulfilled_ok w -> step w e = Some w' -> fulfilled_ok w'.
Proof.
  intros Hok Hs. destruct e as [n uid|j o|j u|i|sid0|dt|n uid made|i made]; simpl in Hs.
  - injection Hs as <-. now apply fulfilled_ok_begin.
  - unfold createWhatsAppBot_resume in Hs.
    destruct (nth_error (calls w) j) as [c|] eqn:Hj; [|discriminate].
    destruct (c_stage c); try discriminate.
    assert (Hrej : fulfilled_ok
              (with_call j (fun c0 => settle (reject ThrownByHost) (set_stage Aborted c0)) w)).
    { apply fulfilled_ok_with_call; auto. intros c0 v Hc0 Hp. simpl in *.
      apply (Hok j c0 v Hc0). destruct (c_promise c0); simpl in Hp; congruence. }
    destruct o; injection Hs as <-; auto.
    intros k c' v Hk Hp. simpl in Hk.
    apply (fulfilled_ok_with_call j
             (fun c0 => set_qrCodeGenerated false (set_stage Live c0)) w) with (k := k);
      auto.
    intros c0 v0 Hc0 Hp0. simpl in *. now apply (Hok j c0 v0 Hc0).
  - unfold on_connection_update in Hs.
    destruct (nth_error (calls w) j) as [c|] eqn:Hj; [|discriminate].
    destruct (c_stage c); try discriminate.
    set (w1 := if truthy (qr u) && negb (qrCodeGenerated c) then _ else w) in Hs.
    assert (Hw1 : fulfilled_ok w1).
    { subst w1. destruct (truthy (qr u) && negb (qrCodeGenerated c)) eqn:Hq; auto.
      apply andb_true_iff in Hq as [Hq _].
      apply fulfilled_ok_with_call; auto. intros c0 v Hc0 Hp. simpl in *.
      destruct (c_promise c0) eqn:Hp0; simpl in Hp.
      - injection Hp as <-. simpl. auto.
      - apply (Hok j c0 v Hc0). congruence.
      - discriminate. }
    clearbody w1. injection Hs as <-.
    destruct (connection u) as [[| |]|]; auto.
    + now destruct (JsMap.get (c_sessionId c) (activeSessions w1)).
    + now destruct (shouldReconnect u).
  - unfold fire_timer in Hs.
    destruct (nth_error (timers w) i) as [[d cb]|]; [|discriminate].
    destruct (d <=? now w)%Z; [|discriminate]. injection Hs as <-.
    destruct cb as [n uid|j]; simpl.
    + now apply fulfilled_ok_begin.
    + destruct (nth_error (calls w) j) as [c|]; auto.
      destruct (negb (qrCodeGenerated c)); auto.
      apply (fulfilled_ok_with_call j _
               (mkWorld (now w) (activeSessions w) (calls w)
                        (remove_nth i (timers w)) (dirs w))); auto.
      intros c0 v Hc0 Hp. simpl in *.
      apply (Hok j c0 v Hc0). destruct (c_promise c0); simpl in Hp; congruence.
  - injection Hs as <-. unfold disconnectBot.
    destruct (JsMap.get sid0 (activeSessions w)) as [s|]; simpl; auto.
    intros k c' v Hk Hp. simpl in Hk.
    apply (fulfilled_ok_with_call (socket s) socket_end w) with (k := k); auto.
    intros c0 v0 Hc0 Hp0. simpl in *. now apply (Hok (socket s) c0 v0 Hc0).
  - destruct (0 <=? dt)%Z; [|discriminate]. now injection Hs as <-.
  - apply mkdir_throws_inv in Hs as (_ & _ & _ & Ec & _).
    eapply fulfilled_ok_snoc_aborted; eauto.
  - apply fire_timer_throws_inv in Hs as (d & n & u & _ & _ & _ & _ & _ & Ec & _).
    eapply fulfilled_ok_snoc_aborted; eauto.
Qed.

(** X10. Whenever [createWhatsAppBot] resolves, it resolves with the
    session id derived from its own arguments and with a non-empty QR
    payload. *)
Theorem fulfilled_promise_value (w : World) (k : nat) (c : Invocation) (v : PairingResult) :
  reachable w ->
  nth_error (calls w) k = Some c -> c_promise c = Fulfilled v ->
  res_sessionId v = make_sessionId (c_userId c) (c_sessionName c) /\
  exists q, res_qrCode v = Some q /\ q <> "".
Proof.
  intros Hr Hk Hp.
  assert (Hok : fulfilled_ok w).
  { clear k c v Hk Hp. induction Hr as [t d|w e w' _ IH Hs].
    - intros [|k] c v; discriminate.
    - now apply (fulfilled_ok_step w e w'). }
  destruct (Hok k c v Hk Hp) as [Hs Hq].
  destruct (wf_call _ (wf_reachable _ Hr) _ _ Hk) as (Hsid & _).
  split; [congruence|].
  unfold truthy in Hq. destruct (res_qrCode v) as [q|]; [|discriminate].
  exists q. split; auto. apply negb_true_iff in Hq. now apply String.eqb_neq.
Qed.
End FulfilledValue.

(** ** The deploy route *)

Section DeployRoute.
Context {host : Host}.

Lemma call_args_with_call k j f w c :
  (forall c0, c_sessionId (f c0) = c_sessionId c0 /\ c_userId (f c0) = c_userId c0 /\
              c_sessionName (f c0) = c_sessionName c0) ->
  nth_error (calls w) k = Some c ->
  exists c', nth_error (calls (with_call j f w)) k = Some c' /\
             c_sessionId c' = c_sessionId c /\ c_userId c' = c_userId c /\
             c_sessionName c' = c_sessionName c.
Proof.
  intros Hf Hk. destruct (Nat.eq_dec j k) as [->|Hne].
  - exists (f c). split; [now apply calls_with_call_eq | apply Hf].
  - exists c. rewrite calls_with_call_ne by congruence. auto.
Qed.

Lemma call_args_step k c w e w' :
  nth_error (calls w) k = Some c -> step w e = Some w' ->
  exists c', nth_error (calls w') k = Some c' /\
             c_sessionId c' = c_sessionId c /\ c_userId c' = c_userId c /\
             c_sessionName c' = c_sessionName c.
Proof.
  intros Hk Hs.
  assert (Hsame : forall w0, calls w0 = calls w ->
            exists c', nth_error (calls w0) k = Some c' /\
                       c_sessionId c' = c_sessionId c /\ c_userId c' = c_userId c /\
                       c_sessionName c' = c_sessionName c).
  { intros w0 E. exists c. rewrite E. auto. }
  assert (Hbegin : forall n uid,
            exists c', nth_error (calls (createWhatsAppBot_begin n uid w)) k = Some c' /\
                       c_sessionId c' = c_sessionId c /\ c_userId c' = c_userId c /\
                       c_sessionName c' = c_sessionName c).
  { intros n uid. exists c. simpl. split; [now apply nth_error_snoc_old|auto]. }
  destruct e as [n uid|j o|j u|i|sid0|dt|n uid made|i made]; simpl in Hs.
  - injection Hs as <-. apply Hbegin.
  - unfold createWhatsAppBot_resume in Hs.
    destruct (nth_error (calls w) j) as [cj|]; [|discriminate].
    destruct (c_stage cj); try discriminate.
    destruct o; injection Hs as <-; simpl;
      apply call_args_with_call; auto; intros c0; repeat split.
  - unfold on_connection_update in Hs.
    destruct (nth_error (calls w) j) as [cj|]; [|discriminate].
    destruct (c_stage cj); try discriminate.
    set (w1 := if truthy (qr u) && negb (qrCodeGenerated cj) then _ else w) in Hs.
    assert (Hw1 : exists c', nth_error (calls w1) k = Some c' /\
                       c_sessionId c' = c_sessionId c /\ c_userId c' = c_userId c /\
                       c_sessionName c' = c_sessionName c).
    { subst w1. destruct (truthy (qr u) && negb (qrCodeGenerated cj)); auto.
      apply call_args_with_call; auto; intros c0; repeat split. }
    clearbody w1. injection Hs as <-.
    destruct (connection u) as [[| |]|]; auto.
    + now destruct (JsMap.get (c_sessionId cj) (activeSessions w1)).
    + now destruct (shouldReconnect u).
  - unfold fire_timer in Hs.
    destruct (nth_error (timers w) i) as [[d cb]|]; [|discriminate].
    destruct (d <=? now w)%Z; [|discriminate]. injection Hs as <-.
    destruct cb as [n uid|j]; simpl.
    + exists c. split; [now apply nth_error_snoc_old|auto].
    + destruct (nth_error (calls w) j) as [cj|]; auto.
      destruct (negb (qrCodeGenerated cj)); auto.
      apply (call_args_with_call k j _
               (mkWorld (now w) (activeSessions w) (calls w)
                        (remove_nth i (timers w)) (dirs w))); auto;
        intros c0; repeat split.
  - injection Hs as <-. unfold disconnectBot.
    destruct (JsMap.get sid0 (activeSessions w)) as [s|]; simpl; auto.
    apply call_args_with_call; auto; intros c0; repeat split.
  - destruct (0 <=? dt)%Z; [|discriminate]. injection Hs as <-. auto.
  - apply mkdir_throws_inv in Hs as (_ & _ & _ & Ec & _).
    exists c. rewrite Ec. split; [now apply nth_error_snoc_old|auto].
  - apply fire_timer_throws_inv in Hs as (d & n & u & _ & _ & _ & _ & _ & Ec & _).
    exists c. rewrite Ec. split; [now apply nth_error_snoc_old|auto].
Qed.

Lemma call_args_run evs : forall k c w w',
    nth_error (calls w) k = Some c -> run w evs = Some w' ->
    exists c', nth_error (calls w') k = Some c' /\
               c_sessionId c' = c_sessionId c /\ c_userId c' = c_userId c /\
               c_sessionName c' = c_sessionName c.
Proof.
  induction evs as [|e evs IH]; simpl; intros k c w w' Hk Hrun.
  - injection Hrun as <-. eauto.
  - destruct (step w e) as [w1|] eqn:Hs; [|discriminate].
    destruct (call_args_step _ _ _ _ _ Hk Hs) as (c1 & Hk1 & E1 & E2 & E3).
    destruct (IH _ _ _ _ Hk1 Hrun) as (c' & Hk' & F1 & F2 & F3).
    exists c'. repeat split; congruence.
Qed.

(** The rows of a started deploy request. *)
Lemma deploy_bot_start_awaiting
    (user user' : User) (data : InsertDeployment) (newId : string) (now_ms : Z)
    (db db1 : Db) (w w1 : World) (dep : Deployment) (k : nat) :
  deploy_bot_start (Some user) (Some data) newId now_ms db w
    = (DeployAwaiting user' dep k, db1, w1) ->
  user' = user /\ k = length (calls w) /\
  (10 <= u_coins user)%Z /\ int4 (u_coins user - 10) = true /\
  d_id dep = newId /\ d_userId dep = u_id user /\ d_status dep = "deploying" /\
  w1 = createWhatsAppBot_begin (deploy_sessionName data dep) (u_id user) w /\
  users db1 =
    map (fun u => if String.eqb (u_id u) (u_id user)
                  then apply_user_patch
                         (mkUserPatch (Some (u_coins user - 10)%Z) None None None) u
                  else u) (users db) /\
  deployments db1 = deployments db ++ [dep].
Proof.
  unfold deploy_bot_start.
  destruct (u_coins user <? 10)%Z eqn:Hc; [discriminate|].
  apply Z.ltb_ge in Hc.
  unfold updateUser. cbn [set_coins].
  destruct (int4 (u_coins user - 10)) eqn:Hi; [|discriminate].
  unfold createDeployment. cbn [users deployments].
  match goal with |- context [if ?b then DbThrows else _] => destruct b end;
    [discriminate|].
  intros H. inversion H; subst; clear H. simpl. repeat split; auto.
Qed.

(** X11. When the promise a deploy request waits for is fulfilled, the
    value is the session id derived from the requester's id and the
    session name of the request (or [bot-<deployment id>] when the name
    is missing or empty); the route answers with it and stores it as the
    deployment's [sessionName] with status [pairing], leaving the users
    as they are. *)
Theorem deploy_success_records_session_id
    (w w1 w2 : World) (db db1 db2 : Db) (user user' : User)
    (data : InsertDeployment) (newId : string) (now_ms : Z)
    (dep : Deployment) (k : nat) (evs : list Event) (v : PairingResult) :
  reachable w ->
  deploy_bot_start (Some user) (Some data) newId now_ms db w
    = (DeployAwaiting user' dep k, db1, w1) ->
  run w1 evs = Some w2 ->
  promise_of k w2 = Some (Fulfilled v) ->
  let sid := make_sessionId (u_id user) (deploy_sessionName data dep) in
  res_sessionId v = sid /\
  exists db3,
    deploy_bot_settled user' dep (Fulfilled v) db2
      = Some (DeployJson dep (res_qrCode v) sid, db3) /\
    users db3 = users db2 /\
    forall d, In d (deployments db3) -> d_id d = d_id dep ->
              d_status d = "pairing" /\ d_sessionName d = Some sid.
Proof.
  intros Hr Hstart Hrun Hp sid.
  destruct (deploy_bot_start_awaiting _ _ _ _ _ _ _ _ _ _ _ Hstart)
    as (-> & -> & _ & _ & _ & _ & _ & -> & _ & _).
  set (name := deploy_sessionName data dep) in *.
  assert (Hr1 : reachable (createWhatsAppBot_begin name (u_id user) w)).
  { exact (reach_step w (CallCreate name (u_id user)) _ Hr eq_refl). }
  pose proof (reachable_run _ _ _ Hr1 Hrun) as Hr2.
  assert (Hk1 : nth_error (calls (createWhatsAppBot_begin name (u_id user) w))
                          (length (calls w)) =
                Some (mkInvocation name (u_id user) (make_sessionId (u_id user) name)
                                   Suspended false Pending false)).
  { simpl. apply nth_error_snoc_new. }
  destruct (call_args_run _ _ _ _ _ Hk1 Hrun) as (c2 & Hk2 & E1 & E2 & E3).
  simpl in E1, E2, E3.
  unfold promise_of in Hp. rewrite Hk2 in Hp. simpl in Hp. injection Hp as Hp.
  destruct (fulfilled_promise_value _ _ _ _ Hr2 Hk2 Hp) as (Hv & _).
  assert (Hsid : res_sessionId v = sid) by (subst sid; congruence).
  split; [exact Hsid|].
  unfold deploy_bot_settled, updateDeployment. rewrite Hsid.
  eexists. split; [reflexivity|]. simpl. split; [reflexivity|].
  intros d Hin Hid. apply in_map_iff in Hin as (d0 & Hd & _).
  destruct (String.eqb_spec (d_id d0) (d_id dep)) as [E|Hne].
  - subst d. simpl. auto.
  - subst d. congruence.
Qed.

(** X12. When the promise a deploy request waits for is rejected, the
    [catch] block writes the coins of the request's snapshot back: on any
    database, the requester's row ends with the snapshot's coins; and when
    nothing else touched the users since the request started, the users
    table is again what it was before the request, with the new
    deployment marked [failed]. *)
Theorem deploy_failure_restores_coins
    (w w1 : World) (db db1 : Db) (user user' : User)
    (data : InsertDeployment) (newId : string) (now_ms : Z)
    (dep : Deployment) (k : nat) (e : JsError) :
  (forall u, In u (users db) -> u_id u = u_id user -> u = user) ->
  int4 (u_coins user) = true ->
  deploy_bot_start (Some user) (Some data) newId now_ms db w
    = (DeployAwaiting user' dep k, db1, w1) ->
  (forall db', exists db2,
      deploy_bot_settled user' dep (Rejected e) db' = Some (DeployFailed, db2) /\
      forall u, getUser (u_id user) db2 = Some u -> u_coins u = u_coins user) /\
  exists db2,
    deploy_bot_settled user' dep (Rejected e) db1 = Some (DeployFailed, db2) /\
    users db2 = users db /\
    exists d, In d (deployments db2) /\ d_id d = newId /\
              d_userId d = u_id user /\ d_status d = "failed".
Proof.
  intros Hrows Hint Hstart.
  destruct (deploy_bot_start_awaiting _ _ _ _ _ _ _ _ _ _ _ Hstart)
    as (-> & -> & _ & _ & Hid & Huid & _ & -> & Hus & Hds).
  assert (Hcomp : forall db',
    deploy_bot_compensate user dep db' =
      (DeployFailed,
       mkDb (map (fun u => if String.eqb (u_id u) (u_id user)
                           then apply_user_patch
                                  (mkUserPatch (Some (u_coins user)) None None None) u
                           else u) (users db'))
            (map (fun d => if String.eqb (d_id d) (d_id dep)
                           then apply_deployment_patch
                                  (mkDeploymentPatch (Some "failed") None) d
                           else d) (deployments db')))).
  { intros db'. unfold deploy_bot_compensate.
    rewrite updateUser_returns by (simpl; exact Hint). reflexivity. }
  split.
  - intros db'. eexists. split; [simpl; now rewrite Hcomp|].
    intros u Hg. unfold getUser in Hg. simpl in Hg.
    rewrite find_map_same in Hg.
    + destruct (find _ (users db')) as [u0|] eqn:Hf; [|discriminate].
      apply find_some in Hf as [_ Hm]. simpl in Hg. rewrite Hm in Hg.
      now injection Hg as <-.
    + intros x. destruct (String.eqb (u_id x) (u_id user)) eqn:E; simpl; now rewrite E.
  - eexists. split; [simpl; now rewrite Hcomp|]. simpl. split.
    + rewrite Hus, map_map. rewrite <- (map_id (users db)) at 2.
      apply map_ext_in. intros u Hin.
      destruct (String.eqb_spec (u_id u) (u_id user)) as [E|Hne]; simpl.
      * rewrite E, String.eqb_refl. rewrite (Hrows u Hin E).
        destruct user; reflexivity.
      * destruct (String.eqb_spec (u_id u) (u_id user)); [congruence|reflexivity].
    + exists (apply_deployment_patch (mkDeploymentPatch (Some "failed") None) dep).
      split; [|simpl; auto].
      rewrite Hds, map_app. apply in_or_app. right. simpl.
      rewrite String.eqb_refl. now left.
Qed.
End DeployRoute.

(** ** Collecting coins *)

Lemma getUser_after_update (id : string) (p : UserPatch) (db : Db) :
  getUser id
    (mkDb (map (fun u => if String.eqb (u_id u) id then apply_user_patch p u else u)
               (users db))
          (deployments db)) =
  option_map (apply_user_patch p) (getUser id db).
Proof.
  unfold getUser. simpl. induction (users db) as [|a l IH]; simpl; auto.
  destruct (String.eqb (u_id a) id) eqn:E; simpl; now rewrite E.
Qed.

(** X13. After a successful collection at [t1] the requester's row has
    20 coins more than the snapshot and [t1] as its last collection; a
    request made with that row less than 24 hours later is refused with
    [t1 + 24 h] as the next time and changes nothing, and one made 24
    hours later or more adds another 20. *)
Theorem collect_coins_cooldown
    (user row : User) (t1 : Z) (db db1 : Db) (r : option User) :
  collect_coins (Some user) t1 db = (Collect200 r, db1) ->
  getUser (u_id user) db = Some row ->
  exists user1,
    r = Some user1 /\ getUser (u_id user) db1 = Some user1 /\
    u_coins user1 = (u_coins user + 20)%Z /\
    u_lastCoinCollection user1 = Some t1 /\
    (forall t2, (t2 - t1 < 86400000)%Z ->
                collect_coins (Some user1) t2 db1 = (Collect400 (t1 + 86400000)%Z, db1)) /\
    (forall t2, (86400000 <= t2 - t1)%Z -> int4 (u_coins user + 40) = true ->
                exists user2 db2,
                  collect_coins (Some user1) t2 db1 = (Collect200 (Some user2), db2) /\
                  getUser (u_id user) db2 = Some user2 /\
                  u_coins user2 = (u_coins user + 40)%Z /\
                  u_lastCoinCollection user2 = Some t2).
Proof.
  intros Hc Hrow.
  assert (Hup : exists db',
            updateUser (u_id user)
              (mkUserPatch (Some (u_coins user + 20)%Z) None None (Some (Some t1))) db
            = DbReturns r db' /\ db1 = db').
  { unfold collect_coins in Hc.
    destruct (updateUser _ _ db) as [|r' db'] eqn:Hu.
    - destruct (u_lastCoinCollection user) as [last|];
        [destruct (negb _)|]; discriminate.
    - exists db'. destruct (u_lastCoinCollection user) as [last|];
        [destruct (negb _); [discriminate|]|]; injection Hc as <- <-; auto. }
  destruct Hup as (db' & Hu & ->).
  assert (Hi : int4 (u_coins user + 20) = true).
  { unfold updateUser in Hu. cbn [set_coins] in Hu.
    destruct (int4 (u_coins user + 20)); [reflexivity|discriminate]. }
  rewrite updateUser_returns in Hu by exact Hi.
  injection Hu as <- <-. rewrite Hrow. simpl option_map.
  set (p1 := mkUserPatch (Some (u_coins user + 20)%Z) None None (Some (Some t1))).
  exists (apply_user_patch p1 row).
  assert (Hid : u_id (apply_user_patch p1 row) = u_id user).
  { simpl. unfold getUser in Hrow. apply find_some in Hrow as [_ E].
    now apply String.eqb_eq in E. }
  split; [reflexivity|]. split; [now rewrite getUser_after_update, Hrow|].
  split; [reflexivity|]. split; [reflexivity|]. split.
  - intros t2 Hlt. unfold collect_coins. cbn [u_lastCoinCollection apply_user_patch
      set_lastCoinCollection p1 or_keep].
    apply hoursDiff_lt_24 in Hlt. rewrite Hlt. reflexivity.
  - intros t2 Hge Hi2. unfold collect_coins. cbn [u_lastCoinCollection apply_user_patch
      set_lastCoinCollection p1 or_keep].
    assert (Hno : negb (Qle_bool 24 (hoursDiff (t2 - t1))) = false).
    { destruct (negb (Qle_bool 24 (hoursDiff (t2 - t1)))) eqn:E; auto.
      apply hoursDiff_lt_24 in E. lia. }
    rewrite Hno, Hid.
    replace (u_coins (apply_user_patch p1 row) + 20)%Z with (u_coins user + 40)%Z
      by (simpl; lia).
    rewrite updateUser_returns by exact Hi2.
    rewrite getUser_after_update, Hrow. simpl option_map.
    eexists. eexists. split; [reflexivity|].
    rewrite getUser_after_update, getUser_after_update, Hrow. simpl.
    repeat split.
Qed.

(** ** Verification, login, registration *)

Lemma getUserByEmail_after_update (email id : string) (p : UserPatch) (db : Db) :
  getUserByEmail email
    (mkDb (map (fun u => if String.eqb (u_id u) id then apply_user_patch p u else u)
               (users db))
          (deployments db)) =
  option_map (fun u => if String.eqb (u_id u) id then apply_user_patch p u else u)
             (getUserByEmail email db).
Proof.
  unfold getUserByEmail. simpl. apply find_map_same.
  intros x. now destruct (String.eqb (u_id x) id).
Qed.

Lemma getUser_found_id (id : string) (db : Db) (u : User) :
  getUser id db = Some u -> u_id u = id.
Proof.
  unfold getUser. intros H. apply find_some in H as [_ E]. now apply String.eqb_eq.
Qed.

Lemma getUser_of_member (u : User) (db : Db) :
  In u (users db) -> exists u0, getUser (u_id u) db = Some u0.
Proof.
  intros Hin. unfold getUser.
  destruct (find (fun x => String.eqb (u_id x) (u_id u)) (users db)) as [u0|] eqn:E;
    eauto.
  exfalso. pose proof (find_none _ _ E u Hin) as H.
  simpl in H. now rewrite String.eqb_refl in H.
Qed.

(** X14. [/api/verify-email] accepts a string code only when it is the
    code stored for the user found by the email; the row then becomes
    verified and loses its code, so any string code sent afterwards for
    that email is refused. *)
Theorem verify_email_code_single_use
    (email code : string) (db db' : Db) (u' : User) :
  verify_email email (JsString code) db = (Verify200 u', db') ->
  (exists user, getUserByEmail email db = Some user /\
                u_verificationCode user = Some code /\ u_id u' = u_id user) /\
  u_isVerified u' = true /\ u_verificationCode u' = None /\
  getUser (u_id u') db' = Some u' /\
  forall code2,
    verify_email email (JsString code2) db' = (Verify400_InvalidCode, db').
Proof.
  unfold verify_email.
  destruct (getUserByEmail email db) as [user|] eqn:Hg; [|discriminate].
  rewrite updateUser_returns by exact I.
  destruct (u_verificationCode user) as [stored|] eqn:Hv; simpl; [|discriminate].
  destruct (String.eqb_spec stored code) as [->|]; simpl; [|discriminate].
  assert (Hin : In user (users db)).
  { unfold getUserByEmail in Hg. now apply find_some in Hg as [Hin _]. }
  destruct (getUser_of_member _ _ Hin) as (u0 & Hu0). rewrite Hu0. simpl option_map.
  intros H. injection H as <- <-.
  pose proof (getUser_found_id _ _ _ Hu0) as Hid0.
  split; [exists user; auto|]. split; [reflexivity|]. split; [reflexivity|]. split.
  - simpl u_id. rewrite Hid0, getUser_after_update, Hu0. reflexivity.
  - intros code2. rewrite getUserByEmail_after_update, Hg. simpl option_map.
    rewrite String.eqb_refl. reflexivity.
Qed.

(** X15. The code is compared with [!==]: a request without a code, or
    with a code that is neither a string nor [null], is always refused;
    a JSON [null] is accepted exactly for a user whose stored code is
    NULL (every verified user), and the request then answers with that
    user's row, which [req.login] makes the session's user. *)
Theorem verify_email_null_code (email : string) (db : Db) :
  (forall code u' db', code = JsUndefined \/ code = JsOther ->
                       verify_email email code db <> (Verify200 u', db')) /\
  (forall user, getUserByEmail email db = Some user ->
                u_verificationCode user = None ->
                exists u' db',
                  verify_email email JsNull db = (Verify200 u', db') /\
                  u_id u' = u_id user /\ u_isVerified u' = true) /\
  (forall u' db', verify_email email JsNull db = (Verify200 u', db') ->
                  exists user, getUserByEmail email db = Some user /\
                               u_verificationCode user = None /\
                               u_id u' = u_id user).
Proof.
  split; [|split].
  - intros code u' db' Hc. unfold verify_email.
    destruct (getUserByEmail email db) as [user|]; [|discriminate].
    replace (strict_differs (u_verificationCode user) code) with true;
      [discriminate|].
    destruct Hc as [-> | ->]; now destruct (u_verificationCode user).
  - intros user Hg Hv. unfold verify_email. rewrite Hg, Hv.
    rewrite updateUser_returns by exact I. simpl.
    assert (Hin : In user (users db)).
    { unfold getUserByEmail in Hg. now apply find_some in Hg as [Hin _]. }
    destruct (getUser_of_member _ _ Hin) as (u0 & Hu0). rewrite Hu0. simpl.
    eexists. eexists. split; [reflexivity|]. simpl.
    split; [now apply getUser_found_id in Hu0|reflexivity].
  - intros u' db'. unfold verify_email.
    destruct (getUserByEmail email db) as [user|] eqn:Hg; [|discriminate].
    rewrite updateUser_returns by exact I.
    destruct (u_verificationCode user) as [stored|] eqn:Hv; simpl; [discriminate|].
    destruct (getUser (u_id user) db) as [u0|] eqn:Hu0; simpl; [|discriminate].
    intros H. injection H as <- <-. exists user. repeat split; auto.
    simpl. now apply getUser_found_id in Hu0.
Qed.

Lemma existsb_or_false {A : Type} (p q : A -> bool) (l : list A) :
  existsb (fun x => p x || q x) l = false ->
  existsb p l = false /\ existsb q l = false.
Proof.
  induction l as [|a l IH]; simpl; auto.
  intros H. apply orb_false_iff in H as [H1 H2].
  apply orb_false_iff in H1 as [-> ->]. simpl. now apply IH.
Qed.

(** The database after a registration that was accepted. *)
Lemma register_created
    (name username email hashed code newId : string) (now_ms : Z)
    (apiKey : option string) (send_ok : bool) (db db1 : Db)
    (uid : string) (mails : list (string * string)) :
  register name username email hashed code newId now_ms apiKey send_ok db
    = (Register201 uid, mails, db1) ->
  let u := mkUser newId name username email hashed 100 false false (Some code) None now_ms in
  uid = newId /\ users db1 = users db ++ [u] /\ deployments db1 = deployments db /\
  mails = snd (sendVerificationEmail apiKey send_ok email code) /\
  getUser newId db1 = Some u /\ getUserByEmail email db1 = Some u /\
  getUserByUsername username db1 = Some u.
Proof.
  unfold register.
  destruct (getUserByUsername username db) eqn:Hn; [discriminate|].
  destruct (getUserByEmail email db) eqn:He; [discriminate|].
  unfold createUser. cbn [iu_username iu_email iu_name iu_password iu_verificationCode].
  destruct (existsb _ (users db)) eqn:Hex; [discriminate|].
  intros H. injection H as E1 E2 E3. cbn [u_id] in E1. subst uid mails db1. simpl.
  apply (existsb_or_false (fun x => (u_id x =? newId)%string || (u_username x =? username)%string)
                          (fun x => (u_email x =? email)%string)) in Hex as [Hex _].
  apply existsb_or_false in Hex as [Hid _]. apply find_none_existsb in Hid.
  repeat split; auto.
  - unfold getUser. simpl. rewrite (find_snoc_none _ _ _ Hid). simpl.
    now rewrite String.eqb_refl.
  - unfold getUserByEmail in *. simpl. rewrite (find_snoc_none _ _ _ He). simpl.
    now rewrite String.eqb_refl.
  - unfold getUserByUsername in *. simpl. rewrite (find_snoc_none _ _ _ Hn). simpl.
    now rewrite String.eqb_refl.
Qed.

Lemma getUserByUsername_after_update (username id : string) (p : UserPatch) (db : Db) :
  getUserByUsername username
    (mkDb (map (fun u => if String.eqb (u_id u) id then apply_user_patch p u else u)
               (users db))
          (deployments db)) =
  option_map (fun u => if String.eqb (u_id u) id then apply_user_patch p u else u)
             (getUserByUsername username db).
Proof.
  unfold getUserByUsername. simpl. apply find_map_same.
  intros x. now destruct (String.eqb (u_id x) id).
Qed.

(** The id of an accepted registration is new. *)
Lemma register_fresh_id
    (name username email hashed code newId : string) (now_ms : Z)
    (apiKey : option string) (send_ok : bool) (db db1 : Db)
    (uid : string) (mails : list (string * string)) :
  register name username email hashed code newId now_ms apiKey send_ok db
    = (Register201 uid, mails, db1) ->
  forall x, In x (users db) -> u_id x <> newId.
Proof.
  unfold register.
  destruct (getUserByUsername username db); [discriminate|].
  destruct (getUserByEmail email db); [discriminate|].
  unfold createUser. cbn [iu_username iu_email iu_name iu_password iu_verificationCode].
  destruct (existsb _ (users db)) eqn:Hex; [discriminate|].
  intros _ x Hin Hx.
  apply (existsb_or_false (fun x => (u_id x =? newId)%string || (u_username x =? username)%string)
                          (fun x => (u_email x =? email)%string)) in Hex as [Hex _].
  apply existsb_or_false in Hex as [Hid _]. apply find_none_existsb in Hid.
  pose proof (find_none _ _ Hid x Hin) as H.
  simpl in H. rewrite Hx, String.eqb_refl in H. discriminate.
Qed.

(** Whoever the local strategy lets in is a verified row of the table
    whose stored hash [comparePasswords] accepts. *)
Lemma local_strategy_ok_inv (comparePasswords : string -> string -> option bool)
    (identifier password : string) (db : Db) (u : User) :
  local_strategy comparePasswords identifier password db = LoginOk u ->
  In u (users db) /\ u_isVerified u = true /\
  comparePasswords password (u_password u) = Some true.
Proof.
  unfold local_strategy.
  assert (Hin : forall u0,
            match getUserByEmail identifier db with
            | Some u1 => Some u1
            | None => getUserByUsername identifier db
            end = Some u0 -> In u0 (users db)).
  { intros u0. unfold getUserByEmail, getUserByUsername.
    destruct (find _ (users db)) as [u1|] eqn:E1.
    - intros H. injection H as <-. now apply find_some in E1.
    - intros H. now apply find_some in H. }
  destruct (match getUserByEmail identifier db with
            | Some u1 => Some u1
            | None => getUserByUsername identifier db
            end) as [u0|]; [|discriminate].
  specialize (Hin u0 eq_refl).
  destruct (comparePasswords password (u_password u0)) as [[|]|] eqn:Hc;
    try discriminate.
  destruct (u_isVerified u0) eqn:Hv; simpl; [|discriminate].
  intros H. injection H as <-. auto.
Qed.

(** X16. A user that [/api/register] has just created cannot log in,
    whatever the identifier and the password: the e-mail address of the
    registration never logs anybody in, and nobody the local strategy
    lets in under any identifier is the new user.  After
    [/api/verify-email] with the code that was stored at registration,
    the local strategy accepts every password that [comparePasswords]
    accepts against the stored hash, under the e-mail address and, when
    no earlier row has the username as its e-mail address, under the
    username; and it lets the new user in only with such a password. *)
Theorem registered_user_must_verify
    (comparePasswords : string -> string -> option bool)
    (name username email hashed code newId : string) (now_ms : Z)
    (apiKey : option string) (send_ok : bool) (db db1 : Db)
    (uid : string) (mails : list (string * string)) :
  register name username email hashed code newId now_ms apiKey send_ok db
    = (Register201 uid, mails, db1) ->
  (forall password u, local_strategy comparePasswords email password db1 <> LoginOk u) /\
  (forall identifier password u,
      local_strategy comparePasswords identifier password db1 = LoginOk u ->
      u_id u <> uid) /\
  exists u db2,
    verify_email email (JsString code) db1 = (Verify200 u, db2) /\
    u_id u = uid /\ u_coins u = 100%Z /\ u_isVerified u = true /\
    (forall password,
      comparePasswords password hashed = Some true ->
      local_strategy comparePasswords email password db2 = LoginOk u /\
      (getUserByEmail username db = None ->
       local_strategy comparePasswords username password db2 = LoginOk u)) /\
    (forall identifier password u',
      local_strategy comparePasswords identifier password db2 = LoginOk u' ->
      u_id u' = uid ->
      u' = u /\ comparePasswords password hashed = Some true).
Proof.
  intros Hreg.
  pose proof (register_fresh_id _ _ _ _ _ _ _ _ _ _ _ _ _ Hreg) as Hfresh.
  destruct (register_created _ _ _ _ _ _ _ _ _ _ _ _ _ Hreg)
    as (-> & Hus & _ & _ & Hgid & Hgem & Hgun).
  set (u := mkUser newId name username email hashed 100 false false (Some code) None now_ms) in *.
  split; [|split].
  - intros password u0. unfold local_strategy. rewrite Hgem. simpl.
    destruct (comparePasswords password hashed) as [[|]|]; discriminate.
  - intros identifier password u0 Hok Hid.
    apply local_strategy_ok_inv in Hok as (Hin & Hv & _).
    rewrite Hus in Hin. apply in_app_or in Hin as [Hin|[<-|[]]].
    + now apply (Hfresh u0).
    + discriminate.
  - unfold verify_email. rewrite Hgem.
    rewrite updateUser_returns by exact I.
    cbn [u_verificationCode u strict_differs]. rewrite String.eqb_refl.
    cbn [negb u_id u]. rewrite Hgid. cbn [option_map].
    eexists. eexists. split; [reflexivity|].
    split; [reflexivity|]. split; [reflexivity|]. split; [reflexivity|]. split.
    + intros password Hpw. split.
      * unfold local_strategy.
        rewrite getUserByEmail_after_update, Hgem. cbn [option_map u_id u].
        rewrite String.eqb_refl. cbn. now rewrite Hpw.
      * intros Hnone. unfold local_strategy.
        rewrite getUserByEmail_after_update, getUserByUsername_after_update, Hgun.
        assert (He1 : getUserByEmail username db1 =
                      if String.eqb email username then Some u else None).
        { unfold getUserByEmail in *. rewrite Hus.
          now rewrite (find_snoc_none _ _ _ Hnone). }
        rewrite He1. destruct (String.eqb email username);
          cbn [option_map u_id u]; rewrite String.eqb_refl; cbn; now rewrite Hpw.
    + intros identifier password u' Hok Hid.
      apply local_strategy_ok_inv in Hok as (Hin & _ & Hpw).
      cbn [users] in Hin. apply in_map_iff in Hin as (x & Hx & Hin).
      rewrite Hus in Hin. apply in_app_or in Hin as [Hin|[<-|[]]].
      * exfalso. pose proof (Hfresh x Hin) as Hne.
        apply String.eqb_neq in Hne. rewrite Hne in Hx. subst u'.
        apply String.eqb_neq in Hne. contradiction.
      * cbn [u_id u] in Hx. rewrite String.eqb_refl in Hx. subst u'.
        split; [reflexivity|exact Hpw].
Qed.


(** * Part VI: the further properties on the reference run *)

Lemma reachable_w_paired : reachable w_paired.
Proof.
  apply (reachable_run [ConnectionUpdateEv 0 (upd_qr "2@first")] w_started);
    [exact reachable_w_started | reflexivity].
Qed.

Lemma reachable_w_reconnect_due : reachable w_reconnect_due.
Proof.
  apply (reachable_run
           [ConnectionUpdateEv 0 (upd_close (Some 428%Z)); Elapse 5000] w_open);
    [exact reachable_w_open | reflexivity].
Qed.

Lemma listed_iff_found_witness :
  In (mkBotSession "user-1-mybot" 0 None true "user-1") (getActiveSessions w_open) <->
  getSessionStatus "user-1-mybot" w_open =
    Some (mkBotSession "user-1-mybot" 0 None true "user-1").
Proof.
  exact (listed_iff_found w_open (mkBotSession "user-1-mybot" 0 None true "user-1")
           reachable_w_open).
Defined.

Lemma make_sessionId_injective_witness :
  String.length "user-1" = String.length "user-2" /\
  (make_sessionId "user-1" "a-b" = make_sessionId "user-1" "a-b" ->
   "user-1" = "user-1" /\ "a-b" = "a-b").
Proof.
  split; [reflexivity|].
  exact (make_sessionId_injective "user-1" "user-1" "a-b" "a-b" eq_refl).
Defined.

Lemma registered_session_has_owner_witness :
  exists c,
    nth_error (calls w_open) 0 = Some c /\ c_stage c = Live /\
    "user-1" = c_userId c /\
    "user-1-mybot" = "user-1-mybot" /\
    "user-1-mybot" = make_sessionId (c_userId c) (c_sessionName c).
Proof.
  exact (registered_session_has_owner w_open "user-1-mybot"
           (mkBotSession "user-1-mybot" 0 None true "user-1")
           reachable_w_open eq_refl).
Defined.

Lemma isConnected_set_only_by_open_witness :
  (exists s, getSessionStatus "user-1-mybot" w_started = Some s /\ isConnected s = true) \/
  (exists k u c,
      ConnectionUpdateEv 0 upd_open = ConnectionUpdateEv k u /\
      connection u = Some ConnOpen /\
      nth_error (calls w_started) k = Some c /\ c_sessionId c = "user-1-mybot").
Proof.
  exact (isConnected_set_only_by_open w_started w_open
           (ConnectionUpdateEv 0 upd_open) "user-1-mybot"
           (mkBotSession "user-1-mybot" 0 None true "user-1")
           reachable_w_started eq_refl eq_refl eq_refl).
Defined.

Lemma disconnectBot_keeps_queued_reconnect_witness :
  getSessionStatus "user-1-mybot" (snd (disconnectBot "user-1-mybot" w_reconnect_due))
    = None /\
  exists w2 w3,
    step (snd (disconnectBot "user-1-mybot" w_reconnect_due)) (TimerFires 1) = Some w2 /\
    step w2 (AuthStateSettled 1 SocketCreated) = Some w3 /\
    getSessionStatus "user-1-mybot" w3 =
      Some (mkBotSession "user-1-mybot" 1 None false "user-1").
Proof.
  exact (disconnectBot_keeps_queued_reconnect w_reconnect_due 1 5000 "mybot" "user-1"
           reachable_w_reconnect_due eq_refl (Z.le_refl 5000)).
Defined.


Lemma bot_status_only_for_owner_witness :
  "user-1-mybot" = "user-1-mybot" /\
  exists s c,
    getSessionStatus "user-1-mybot" w_open = Some s /\ isConnected s = true /\
    nth_error (calls w_open) (socket s) = Some c /\ c_stage c = Live /\
    c_userId c = u_id alice /\
    "user-1-mybot" = make_sessionId (u_id alice) (c_sessionName c).
Proof.
  exact (bot_status_only_for_owner w_open alice "user-1-mybot" "user-1-mybot" true
           reachable_w_open eq_refl).
Defined.

Lemma bot_status_separates_users_witness :
  bot_status (Some alice) (make_sessionId (u_id alice) "mybot") w_open =
    BotStatus200 (make_sessionId (u_id alice) "mybot") true /\
  bot_status (Some bob) (make_sessionId (u_id alice) "mybot") w_open = BotStatus404.
Proof.
  apply (bot_status_separates_users w_open alice bob "mybot"
           (mkBotSession "user-1-mybot" 0 None true "user-1") reachable_w_open).
  - intros [|[|k]] c H; simpl in H; try discriminate.
    injection H as <-. reflexivity.
  - reflexivity.
  - discriminate.
Defined.

Lemma fulfilled_promise_value_witness :
  "user-1-mybot" = make_sessionId "user-1" "mybot" /\
  exists q, Some "2@first" = Some q /\ q <> "".
Proof.
  exact (fulfilled_promise_value w_paired 0
           (mkInvocation "mybot" "user-1" "user-1-mybot" Live true
              (Fulfilled (mkPairingResult "user-1-mybot" (Some "2@first"))) false)
           (mkPairingResult "user-1-mybot" (Some "2@first"))
           reachable_w_paired eq_refl eq_refl).
Defined.

Lemma deploy_success_records_session_id_witness :
  exists dep db1,
    deploy_bot_start (Some alice) (Some deploy_demo) "dep-1" 0 db_demo (boot 0 [])
      = (DeployAwaiting alice dep 0, db1, w_called) /\
    "user-1-mybot" = make_sessionId (u_id alice) (deploy_sessionName deploy_demo dep) /\
    exists db3,
      deploy_bot_settled alice dep
        (Fulfilled (mkPairingResult "user-1-mybot" (Some "2@first"))) db1
        = Some (DeployJson dep (Some "2@first")
                  (make_sessionId (u_id alice) (deploy_sessionName deploy_demo dep)), db3) /\
      users db3 = users db1 /\
      forall d, In d (deployments db3) -> d_id d = d_id dep ->
                d_status d = "pairing" /\
                d_sessionName d =
                  Some (make_sessionId (u_id alice) (deploy_sessionName deploy_demo dep)).
Proof.
  eexists. eexists. split; [reflexivity|].
  eapply (deploy_success_records_session_id
            (boot 0 []) w_called w_paired db_demo _ _ alice alice deploy_demo "dep-1" 0 _ 0
            [AuthStateSettled 0 SocketCreated; ConnectionUpdateEv 0 (upd_qr "2@first")]
            (mkPairingResult "user-1-mybot" (Some "2@first"))).
  - exact (reach_boot 0 []).
  - reflexivity.
  - reflexivity.
  - reflexivity.
Defined.

Lemma deploy_failure_restores_coins_witness :
  exists dep db1,
    deploy_bot_start (Some alice) (Some deploy_demo) "dep-1" 0 db_demo (boot 0 [])
      = (DeployAwaiting alice dep 0, db1, w_called) /\
    getUser "user-1" db1 = Some (mkUser "user-1" "Alice" "alice" "alice@example.org"
                                        "hash-a" 90 false true None None 0) /\
    exists db2,
      deploy_bot_settled alice dep (Rejected QrTimeoutError) db1 = Some (DeployFailed, db2) /\
      users db2 = users db_demo /\
      exists d, In d (deployments db2) /\ d_id d = "dep-1" /\
                d_userId d = u_id alice /\ d_status d = "failed".
Proof.
  eexists. eexists. split; [reflexivity|]. split; [reflexivity|].
  eapply (deploy_failure_restores_coins
            (boot 0 []) w_called db_demo _ alice alice deploy_demo "dep-1" 0 _ 0
            QrTimeoutError).
  - intros u [<-|[<-|[<-|[]]]] H; try reflexivity; discriminate.
  - reflexivity.
  - reflexivity.
Defined.

Lemma collect_coins_cooldown_witness :
  exists user1 db1,
    collect_coins (Some alice) 1000 db_demo = (Collect200 (Some user1), db1) /\
    getUser "user-1" db1 = Some user1 /\
    u_coins user1 = 120%Z /\ u_lastCoinCollection user1 = Some 1000%Z /\
    collect_coins (Some user1) 86400999 db1 = (Collect400 86401000, db1) /\
    exists user2 db2,
      collect_coins (Some user1) 86401000 db1 = (Collect200 (Some user2), db2) /\
      u_coins user2 = 140%Z.
Proof.
  destruct (collect_coins_cooldown alice alice 1000 db_demo
              (snd (collect_coins (Some alice) 1000 db_demo))
              (getUser "user-1" (snd (collect_coins (Some alice) 1000 db_demo)))
              eq_refl eq_refl)
    as (user1 & Hr & Hg & Hc & Hl & Hsoon & Hlater).
  exists user1. eexists. split; [rewrite <- Hr; reflexivity|].
  split; [exact Hg|]. split; [exact Hc|]. split; [exact Hl|]. split.
  - apply (Hsoon 86400999%Z). reflexivity.
  - destruct (Hlater 86401000%Z) as (user2 & db2 & H2 & _ & Hc2 & _);
      [discriminate | reflexivity |]. exists user2, db2. auto.
Defined.

Lemma verify_email_code_single_use_witness :
  exists u' db',
    verify_email "carol@example.org" (JsString "123456") db_demo = (Verify200 u', db') /\
    u_isVerified u' = true /\ u_verificationCode u' = None /\
    verify_email "carol@example.org" (JsString "123456") db' = (Verify400_InvalidCode, db').
Proof.
  eexists. eexists. split; [reflexivity|].
  destruct (verify_email_code_single_use "carol@example.org" "123456" db_demo _ _ eq_refl)
    as (_ & Hv & Hc & _ & Hagain).
  split; [exact Hv|]. split; [exact Hc|]. exact (Hagain "123456").
Defined.

Lemma verify_email_null_code_witness :
  exists u' db',
    verify_email "alice@example.org" JsNull db_demo = (Verify200 u', db') /\
    u_id u' = u_id alice /\ u_isVerified u' = true.
Proof.
  exact (proj1 (proj2 (verify_email_null_code "alice@example.org" db_demo))
           alice eq_refl eq_refl).
Defined.

Lemma registered_user_must_verify_witness :
  exists db1,
    register "Dan" "dan" "dan@example.org" "hash-d" "654321" "user-4" 5 None true db_demo
      = (Register201 "user-4", [], db1) /\
    (forall password u,
        local_strategy compare_demo "dan@example.org" password db1 <> LoginOk u) /\
    (forall identifier password u,
        local_strategy compare_demo identifier password db1 = LoginOk u ->
        u_id u <> "user-4") /\
    exists u db2,
      verify_email "dan@example.org" (JsString "654321") db1 = (Verify200 u, db2) /\
      u_id u = "user-4" /\ u_coins u = 100%Z /\ u_isVerified u = true /\
      (forall password,
        compare_demo password "hash-d" = Some true ->
        local_strategy compare_demo "dan@example.org" password db2 = LoginOk u /\
        (getUserByEmail "dan" db_demo = None ->
         local_strategy compare_demo "dan" password db2 = LoginOk u)) /\
      (forall identifier password u',
        local_strategy compare_demo identifier password db2 = LoginOk u' ->
        u_id u' = "user-4" ->
        u' = u /\ compare_demo password "hash-d" = Some true).
Proof.
  eexists. split; [reflexivity|].
  eapply (registered_user_must_verify compare_demo
            "Dan" "dan" "dan@example.org" "hash-d" "654321" "user-4" 5 None true db_demo).
  reflexivity.
Defined.


Lemma registry_changes_only_by_witness :
  (forall s', getSessionStatus "user-1-mybot" w_called = None ->
              getSessionStatus "user-1-mybot" w_started = Some s' ->
     exists k c,
       AuthStateSettled 0 SocketCreated = AuthStateSettled k SocketCreated /\
       nth_error (calls w_called) k = Some c /\ c_sessionId c = "user-1-mybot" /\
       s' = mkBotSession "user-1-mybot" k None false (c_userId c)) /\
  (forall s, getSessionStatus "user-1-mybot" w_called = Some s ->
             getSessionStatus "user-1-mybot" w_started = None ->
     AuthStateSettled 0 SocketCreated = CallDisconnect "user-1-mybot" \/
     exists k u c,
       AuthStateSettled 0 SocketCreated = ConnectionUpdateEv k u /\
       connection u = Some ConnClose /\
       statusCode u = Some DisconnectReason_loggedOut /\
       nth_error (calls w_called) k = Some c /\ c_sessionId c = "user-1-mybot").
Proof.
  exact (registry_changes_only_by w_called w_started
           (AuthStateSettled 0 SocketCreated) "user-1-mybot" eq_refl).
Defined.

Lemma reconnect_queued_only_by_transient_close_witness :
  exists w',
    step w_open (ConnectionUpdateEv 0 (upd_close (Some 428%Z))) = Some w' /\
    (In (5000%Z, ReconnectCallback "mybot" "user-1") (timers w_open) \/
     exists k u c,
       ConnectionUpdateEv 0 (upd_close (Some 428%Z)) = ConnectionUpdateEv k u /\
       connection u = Some ConnClose /\
       statusCode u <> Some DisconnectReason_loggedOut /\
       nth_error (calls w_open) k = Some c /\
       "mybot" = c_sessionName c /\ "user-1" = c_userId c /\
       5000%Z = (now w_open + 5000)%Z).
Proof.
  eexists. split; [reflexivity|].
  apply (reconnect_queued_only_by_transient_close w_open _
           (ConnectionUpdateEv 0 (upd_close (Some 428%Z))) 5000 "mybot" "user-1" eq_refl).
  simpl. right. now left.
Defined.
